(** * HAR analyzer: a shallow embedding of [har_analyzer.py]

    The development follows the three stages of the program.  A HAR capture
    is a JSON document; [json.load] turns it into Python objects ([value]),
    [HARAnalyzer.extract_timings] turns every entry into a [TimingInfo], and
    the aggregation methods ([calculate_statistics], [get_slowest_requests],
    [get_requests_by_status]) and the two renderers ([print_summary],
    [export_to_json]) read the list of records.

    Python is dynamically typed: the fields of a [TimingInfo] hold whatever
    the capture held, and every place where the interpreter would raise is
    a [Raise] here.  Numbers are Python [int]s ([Z]) and finite [float]s,
    the latter taken as the rationals they denote ([Q]); NaN and the
    infinities, which [json.load] also accepts, are outside the model.
    Arithmetic on them is exact rational arithmetic. *)

From Stdlib Require Import List ZArith QArith Qminmax String Ascii Bool.
From Stdlib Require Import Lia Lqa Permutation Sorted.
From Stdlib Require Import DecimalString DecimalZ DecimalPos Finite.
Import ListNotations.

Set Warnings "-register-all".
Local Open Scope Z_scope.
Local Open Scope string_scope.

(** ** Python objects and JSON documents *)

(** The objects [json.load] can build, and the dictionaries the analyzer
    builds itself (whose keys need not be strings). *)
Inductive value : Type :=
| VNone
| VBool (b : bool)
| VInt (z : Z)
| VFloat (q : Q)
| VStr (s : string)
| VList (l : list value)
| VDict (d : list (value * value)).

(** A JSON document as it is written to, or read from, a file: member
    names of an object are strings, and an object may repeat a name. *)
Inductive json : Type :=
| JNull
| JBool (b : bool)
| JInt (z : Z)
| JFloat (q : Q)
| JStr (s : string)
| JArr (l : list json)
| JObj (m : list (string * json)).

(** ** Exceptions, [sys.exit] and the result of a call *)

Inductive exn : Type :=
| AttributeError
| TypeError
| KeyError
| ValueError
| StatisticsError
| OSError.

Inductive result (A : Type) : Type :=
| Ok (a : A)
| SysExit (code : Z)
| Raise (e : exn).

Arguments Ok {A} a.
Arguments SysExit {A} code.
Arguments Raise {A} e.

Definition bind {A B : Type} (r : result A) (k : A -> result B) : result B :=
  match r with
  | Ok a => k a
  | SysExit c => SysExit c
  | Raise e => Raise e
  end.

Notation "x <- c1 ;; c2" := (bind c1 (fun x => c2))
  (at level 61, c1 at next level, right associativity).

Fixpoint mapM {A B : Type} (f : A -> result B) (l : list A) : result (list B) :=
  match l with
  | [] => Ok []
  | a :: l' => b <- f a ;; bs <- mapM f l' ;; Ok (b :: bs)
  end.

(** ** Numbers and comparisons *)

(** [bool] is a subclass of [int]: [True] counts as 1 in every comparison. *)
Definition as_num (v : value) : option Q :=
  match v with
  | VInt z => Some (inject_Z z)
  | VFloat q => Some q
  | VBool b => Some (if b then 1%Q else 0%Q)
  | _ => None
  end.

Definition Qltb (x y : Q) : bool := negb (Qle_bool y x).

(** [v > 0]; anything but a number raises [TypeError] against an [int]. *)
Definition py_gt0 (v : value) : result bool :=
  match as_num v with
  | Some q => Ok (Qltb 0 q)
  | None => Raise TypeError
  end.

(** [max(0, v)]: the builtin keeps its first argument unless a later one is
    strictly greater. *)
Definition py_max0 (v : value) : result value :=
  b <- py_gt0 v ;; Ok (if b then v else VInt 0).

(** [a == b] where at least one side is hashable (a number, a string or
    [None]), which is every use below: numbers compare by value across
    [bool], [int] and [float], strings by content. *)
Definition py_eqb (a b : value) : bool :=
  match as_num a, as_num b with
  | Some x, Some y => Qeq_bool x y
  | _, _ =>
      match a, b with
      | VStr s, VStr t => String.eqb s t
      | VNone, VNone => true
      | _, _ => false
      end
  end.

(** ** Dictionaries, membership, subscripts and iteration *)

(** A [dict] in insertion order; [V] is [value] for the objects of a
    document and [Z] for the counters of the status histogram. *)
Definition dict (V : Type) : Type := list (value * V).

Fixpoint dict_lookup {V : Type} (d : dict V) (k : value) : option V :=
  match d with
  | [] => None
  | (k', v) :: d' => if py_eqb k' k then Some v else dict_lookup d' k
  end.

(** [d[k] = v]: an existing key keeps its place. *)
Fixpoint dict_set {V : Type} (d : dict V) (k : value) (v : V) : dict V :=
  match d with
  | [] => [(k, v)]
  | (k', v') :: d' =>
      if py_eqb k' k then (k', v) :: d' else (k', v') :: dict_set d' k v
  end.

Fixpoint contains (pat s : string) : bool :=
  prefix pat s ||
  match s with
  | EmptyString => false
  | String _ s' => contains pat s'
  end.

(** ['name' in o]. *)
Definition py_in (name : string) (o : value) : result bool :=
  match o with
  | VDict d => Ok (match dict_lookup d (VStr name) with Some _ => true | None => false end)
  | VList l => Ok (existsb (py_eqb (VStr name)) l)
  | VStr s => Ok (contains name s)
  | _ => Raise TypeError
  end.

(** [o['name']]. *)
Definition py_getitem (o : value) (name : string) : result value :=
  match o with
  | VDict d =>
      match dict_lookup d (VStr name) with
      | Some v => Ok v
      | None => Raise KeyError
      end
  | _ => Raise TypeError
  end.

(** [o.get('name', default)]: only a [dict] has the method. *)
Definition py_get (o : value) (name : string) (default : value) : result value :=
  match o with
  | VDict d =>
      Ok (match dict_lookup d (VStr name) with Some v => v | None => default end)
  | _ => Raise AttributeError
  end.

Fixpoint chars (s : string) : list value :=
  match s with
  | EmptyString => []
  | String c s' => VStr (String c EmptyString) :: chars s'
  end.

(** [for x in o]: a list yields its elements, a dict its keys, a string its
    characters. *)
Definition py_iter (o : value) : result (list value) :=
  match o with
  | VList l => Ok l
  | VDict d => Ok (map fst d)
  | VStr s => Ok (chars s)
  | _ => Raise TypeError
  end.

(** ** [json.load] and [json.dump] at the level of documents *)

(** [json.load]: objects become dicts with string keys; when a name is
    repeated the last value wins and the first position is kept. *)
Fixpoint json_load (j : json) : value :=
  match j with
  | JNull => VNone
  | JBool b => VBool b
  | JInt z => VInt z
  | JFloat q => VFloat q
  | JStr s => VStr s
  | JArr l => VList (map json_load l)
  | JObj m =>
      VDict (fold_left (fun d kv => dict_set d (VStr (fst kv)) (json_load (snd kv))) m [])
  end.

(** [str(z)] for an [int]. *)
Definition int_str (z : Z) : string := NilZero.string_of_int (Z.to_int z).

(** ** Sorting *)

(** A stable insertion sort: [x], which stood before every element of [l],
    moves right past [y] only when [lt y x]. *)
Fixpoint insert {A : Type} (lt : A -> A -> bool) (x : A) (l : list A) : list A :=
  match l with
  | [] => [x]
  | y :: l' => if lt y x then y :: insert lt x l' else x :: l
  end.

Definition stable_sort {A : Type} (lt : A -> A -> bool) (l : list A) : list A :=
  fold_right (insert lt) [] l.

Definition is_number (v : value) : bool :=
  match as_num v with Some _ => true | None => false end.

Definition is_str (v : value) : bool :=
  match v with VStr _ => true | _ => false end.

Definition num_of (v : value) : Q :=
  match as_num v with Some q => q | None => 0%Q end.

Definition str_of (v : value) : string :=
  match v with VStr s => s | _ => "" end.

(** [a < b] between two numbers, or between two strings. *)
Definition py_ltb (a b : value) : bool :=
  match as_num a, as_num b with
  | Some x, Some y => Qltb x y
  | _, _ => String.ltb (str_of a) (str_of b)
  end.

(** [sorted(l, key=key, reverse=reverse)].  The sort is stable, also with
    [reverse=True].  Numbers order among themselves and strings among
    themselves; a comparison across the two, or with [None] or a dict,
    raises [TypeError], and any sort of two or more elements meets one.
    Keys that are lists (which Python orders lexicographically when their
    elements allow it) are outside the model and reported as [TypeError]. *)
Definition py_sorted {A : Type} (key : A -> value) (reverse : bool) (l : list A)
  : result (list A) :=
  let keys := map key l in
  if forallb is_number keys || forallb is_str keys then
    Ok (stable_sort (fun a b => if reverse then py_ltb (key b) (key a)
                                else py_ltb (key a) (key b)) l)
  else
    match l with
    | [] | [_] => Ok l
    | _ => Raise TypeError
    end.

(** [l[:n]]: a negative [n] counts from the end. *)
Definition py_slice_to {A : Type} (l : list A) (n : Z) : list A :=
  if (0 <=? n)%Z then firstn (Z.to_nat n) l
  else firstn (List.length l - Z.to_nat (- n)) l.

(** ** The [statistics] module and the builtins [sum], [min], [max]

    After CPython's [Lib/statistics.py], on the values of the numbers:
    the module sums exactly, over fractions. *)

Definition py_sum (data : list Q) : Q := fold_left Qplus data 0%Q.

Definition py_len {A : Type} (l : list A) : Q := inject_Z (Z.of_nat (List.length l)).

Definition py_min (data : list Q) : result Q :=
  match data with
  | [] => Raise ValueError
  | x :: xs => Ok (fold_left Qmin xs x)
  end.

Definition py_max (data : list Q) : result Q :=
  match data with
  | [] => Raise ValueError
  | x :: xs => Ok (fold_left Qmax xs x)
  end.

Module statistics.

Definition mean (data : list Q) : result Q :=
  match data with
  | [] => Raise StatisticsError
  | _ => Ok (py_sum data / py_len data)%Q
  end.

Definition median (data : list Q) : result Q :=
  let data := stable_sort Qltb data in
  let n := List.length data in
  if (n =? 0)%nat then Raise StatisticsError
  else if (n mod 2 =? 1)%nat then Ok (nth (n / 2) data 0%Q)
  else
    let i := (n / 2)%nat in
    Ok ((nth (i - 1) data 0%Q + nth i data 0%Q) / 2)%Q.

(** [_ss]: the sum of the squared deviations from the mean, computed from
    the sum [sx] and the sum of squares [sxx]. *)
Definition _ss (data : list Q) : Q :=
  let count := py_len data in
  let sx := py_sum data in
  let sxx := py_sum (map (fun x => x * x)%Q data) in
  ((count * sxx - sx * sx) / count)%Q.

Definition stdev (sqrt : Q -> Q) (data : list Q) : result Q :=
  let n := List.length data in
  if (n <? 2)%nat then Raise StatisticsError
  else Ok (sqrt (_ss data / (py_len data - 1))%Q).

End statistics.

Section Library.

(** Three library functions the program calls and whose results depend on
    the binary representation of floats or on the platform: [math.sqrt]
    as applied by [statistics.stdev], [float.__repr__] as applied by the
    JSON encoder to a float key, and [str(Path(p))]. *)
Variable sqrt : Q -> Q.
Variable float_repr : Q -> string.
Variable path_str : string -> string.

(** The encoder turns every key into a string: a [str] stays, a number,
    [True], [False] and [None] become their JSON spelling. *)
Definition key_str (k : value) : result string :=
  match k with
  | VStr s => Ok s
  | VFloat q => Ok (float_repr q)
  | VBool true => Ok "true"
  | VBool false => Ok "false"
  | VNone => Ok "null"
  | VInt z => Ok (int_str z)
  | _ => Raise TypeError
  end.

Fixpoint json_dump (v : value) : result json :=
  match v with
  | VNone => Ok JNull
  | VBool b => Ok (JBool b)
  | VInt z => Ok (JInt z)
  | VFloat q => Ok (JFloat q)
  | VStr s => Ok (JStr s)
  | VList l => js <- mapM json_dump l ;; Ok (JArr js)
  | VDict d =>
      ms <- mapM (fun kv => k <- key_str (fst kv) ;;
                            j <- json_dump (snd kv) ;; Ok (k, j)) d ;;
      Ok (JObj ms)
  end.

(** ** The data model *)

(** [TimingInfo]: the dataclass annotates [url], [method] as [str],
    [status] as [int] and the eight durations as [float]; nothing enforces
    the annotations, so each field holds a Python object. *)
Record TimingInfo : Type := {
  url : value;
  method : value;
  status : value;
  total_time : value;
  blocked : value;
  dns : value;
  connect : value;
  send : value;
  wait : value;
  receive : value;
  ssl : value
}.

(** [HARAnalyzer]: the path (as [str(self.har_file_path)] prints it) and the
    records extracted so far. *)
Record HARAnalyzer : Type := {
  har_file_path : string;
  entries : list TimingInfo
}.

Definition HARAnalyzer_init (har_file_path : string) : HARAnalyzer :=
  {| har_file_path := path_str har_file_path; entries := [] |}.

(** [getattr(entry, name)]. *)
Definition getattr (e : TimingInfo) (name : string) : result value :=
  if String.eqb name "url" then Ok (url e)
  else if String.eqb name "method" then Ok (method e)
  else if String.eqb name "status" then Ok (status e)
  else if String.eqb name "total_time" then Ok (total_time e)
  else if String.eqb name "blocked" then Ok (blocked e)
  else if String.eqb name "dns" then Ok (dns e)
  else if String.eqb name "connect" then Ok (connect e)
  else if String.eqb name "send" then Ok (send e)
  else if String.eqb name "wait" then Ok (wait e)
  else if String.eqb name "receive" then Ok (receive e)
  else if String.eqb name "ssl" then Ok (ssl e)
  else Raise AttributeError.

(** ** Extraction *)

(** The closure [get_timing] of the loop body, with the [timings] object it
    captures made an argument. *)
Definition get_timing (timings : value) (key : string) : result value :=
  v <- py_get timings key (VInt 0) ;;
  py_max0 v.

(** The body of the loop of [extract_timings] for one entry. *)
Definition extract_entry (entry : value) : result TimingInfo :=
  request <- py_get entry "request" (VDict []) ;;
  response <- py_get entry "response" (VDict []) ;;
  timings <- py_get entry "timings" (VDict []) ;;
  u <- py_get request "url" (VStr "unknown") ;;
  m <- py_get request "method" (VStr "unknown") ;;
  s <- py_get response "status" (VInt 0) ;;
  t <- py_get entry "time" (VInt 0) ;;
  t_blocked <- get_timing timings "blocked" ;;
  t_dns <- get_timing timings "dns" ;;
  t_connect <- get_timing timings "connect" ;;
  t_send <- get_timing timings "send" ;;
  t_wait <- get_timing timings "wait" ;;
  t_receive <- get_timing timings "receive" ;;
  t_ssl <- get_timing timings "ssl" ;;
  Ok {| url := u; method := m; status := s; total_time := t;
        blocked := t_blocked; dns := t_dns; connect := t_connect;
        send := t_send; wait := t_wait; receive := t_receive; ssl := t_ssl |}.

(** ** Statistics *)

Definition timing_phases : list string :=
  ["total_time"; "blocked"; "dns"; "connect"; "send"; "wait"; "receive"; "ssl"].

(** The seven phases [get_timing] fills, without [total_time]. *)
Definition phase_fields : list string :=
  ["blocked"; "dns"; "connect"; "send"; "wait"; "receive"; "ssl"].

(** One entry of the result of [calculate_statistics]: the dict with the
    keys [count], [total], [average], [median], [min], [max], [std_dev].
    The numbers are kept by value; whether Python holds an [int] or a
    [float] there is not tracked. *)
Record StatBlock : Type := {
  st_count : Z;
  st_total : Q;
  st_average : Q;
  st_median : Q;
  st_min : Q;
  st_max : Q;
  st_std_dev : Q
}.

Definition zero_block : StatBlock :=
  {| st_count := 0; st_total := 0; st_average := 0; st_median := 0;
     st_min := 0; st_max := 0; st_std_dev := 0 |}.

(** [[getattr(entry, phase) for entry in self.entries
      if getattr(entry, phase) > 0]], as the values of the numbers kept. *)
Fixpoint phase_values (phase : string) (es : list TimingInfo) : result (list Q) :=
  match es with
  | [] => Ok []
  | entry :: rest =>
      v <- getattr entry phase ;;
      positive <- py_gt0 v ;;
      values <- phase_values phase rest ;;
      Ok (if positive then num_of v :: values else values)
  end.

(** The two branches of [if values: ... else: ...]. *)
Definition describe (values : list Q) : result StatBlock :=
  match values with
  | [] => Ok zero_block
  | _ =>
      average <- statistics.mean values ;;
      median <- statistics.median values ;;
      lo <- py_min values ;;
      hi <- py_max values ;;
      std_dev <- (if (1 <? List.length values)%nat
                  then statistics.stdev sqrt values else Ok 0%Q) ;;
      Ok {| st_count := Z.of_nat (List.length values);
            st_total := py_sum values;
            st_average := average;
            st_median := median;
            st_min := lo;
            st_max := hi;
            st_std_dev := std_dev |}
  end.

(** The body of the loop over [timing_phases]: the dict stored under
    [stats[phase]]. *)
Definition phase_block (phase : string) (es : list TimingInfo) : result StatBlock :=
  values <- phase_values phase es ;;
  describe values.

Definition calculate_statistics (self : HARAnalyzer)
  : result (list (string * StatBlock)) :=
  match entries self with
  | [] => Ok []
  | _ =>
      mapM (fun phase =>
              block <- phase_block phase (entries self) ;;
              Ok (phase, block))
           timing_phases
  end.

(** [stats.get(phase)]. *)
Fixpoint stats_get (stats : list (string * StatBlock)) (phase : string)
  : option StatBlock :=
  match stats with
  | [] => None
  | (name, block) :: rest =>
      if String.eqb name phase then Some block else stats_get rest phase
  end.

(** ** Ranking and grouping *)

Definition get_slowest_requests (self : HARAnalyzer) (n : Z)
  : result (list TimingInfo) :=
  sorted_entries <- py_sorted total_time true (entries self) ;;
  Ok (py_slice_to sorted_entries n).

(** Lists and dicts cannot be dict keys. *)
Definition hashable (v : value) : bool :=
  match v with
  | VList _ | VDict _ => false
  | _ => true
  end.

(** The loop of [get_requests_by_status]. *)
Fixpoint count_statuses (es : list TimingInfo) (status_counts : dict Z)
  : result (dict Z) :=
  match es with
  | [] => Ok status_counts
  | entry :: rest =>
      if hashable (status entry) then
        let seen := match dict_lookup status_counts (status entry) with
                    | Some c => c
                    | None => 0
                    end in
        count_statuses rest (dict_set status_counts (status entry) (seen + 1))
      else Raise TypeError
  end.

(** The items of a dict have distinct keys, so [sorted] on the pairs never
    looks at the counts. *)
Definition get_requests_by_status (self : HARAnalyzer) : result (dict Z) :=
  status_counts <- count_statuses (entries self) [] ;;
  py_sorted fst false status_counts.

(** ** Output, files and the process *)

(** What a run shows: lines of text, the sections of the report (their
    fixed-width layout is not modelled), the file written and, for an
    exception nothing catches, the traceback of the interpreter. *)
Inductive event : Type :=
| Print (text : string)
| PrintHeader (file : string) (total_requests : Z)
| PrintStatusCounts (status_counts : dict Z)
| PrintStatistics (stats : list (string * StatBlock))
| PrintRequest (rank : Z) (entry : TimingInfo)
| WriteFile (path : string) (doc : json)
| Traceback (e : exn).

(** What [open] and [json.load] meet at a path. *)
Inductive file_state : Type :=
| NoSuchFile
| Unreadable
| NotJson (msg : string)
| Holds (doc : json).

Record world : Type := {
  files : string -> file_state;
  writable : string -> bool
}.

Definition io (A : Type) : Type := (list event * result A)%type.

Definition io_bind {A B : Type} (c : io A) (k : A -> io B) : io B :=
  match c with
  | (out, Ok a) => let (out', r) := k a in ((out ++ out')%list, r)
  | (out, SysExit code) => (out, SysExit code)
  | (out, Raise e) => (out, Raise e)
  end.

Notation "x <~ c1 ;; c2" := (io_bind c1 (fun x => c2))
  (at level 61, c1 at next level, right associativity).

Definition lift {A : Type} (r : result A) : io A := ([], r).
Definition emit (e : event) : io unit := ([e], Ok tt).
Definition output {A : Type} (c : io A) : list event := fst c.
Definition outcome {A : Type} (c : io A) : result A := snd c.

(** The status the process ends with: an uncaught exception prints a
    traceback on the error stream and ends the interpreter with 1. *)
Definition exit_code {A : Type} (r : result A) : Z :=
  match r with
  | Ok _ => 0
  | SysExit code => code
  | Raise _ => 1
  end.


Definition load_har (self : HARAnalyzer) (w : world) : io value :=
  match files w (har_file_path self) with
  | Holds doc => lift (Ok (json_load doc))
  | NoSuchFile =>
      _ <~ emit (Print ("Error: File '" ++ har_file_path self ++ "' not found.")) ;;
      lift (SysExit 1)
  | NotJson msg =>
      _ <~ emit (Print ("Error: Invalid JSON in HAR file: " ++ msg)) ;;
      lift (SysExit 1)
  | Unreadable => lift (Raise OSError)
  end.

(** ['log' not in har_data or 'entries' not in har_data['log']]. *)
Definition format_invalid (har_data : value) : result bool :=
  has_log <- py_in "log" har_data ;;
  if negb has_log then Ok true
  else
    log <- py_getitem har_data "log" ;;
    has_entries <- py_in "entries" log ;;
    Ok (negb has_entries).

(** The loop over [har_data['log']['entries']]. *)
Definition extract_entries (har_data : value) : result (list TimingInfo) :=
  log <- py_getitem har_data "log" ;;
  items <- py_getitem log "entries" ;;
  items <- py_iter items ;;
  mapM extract_entry items.

Definition extract_timings (self : HARAnalyzer) (w : world) : io HARAnalyzer :=
  har_data <~ load_har self w ;;
  invalid <~ lift (format_invalid har_data) ;;
  if invalid then
    _ <~ emit (Print "Error: Invalid HAR file format") ;;
    lift (SysExit 1)
  else
    records <~ lift (extract_entries har_data) ;;
    lift (Ok {| har_file_path := har_file_path self;
                entries := (entries self ++ records)%list |}).

(** What formatting one line of the ranking needs: [len(entry.url)], the
    truncation [entry.url[:57] + "..."] of a long one (a list or dict of
    more than 60 elements fails there; for the dict Python 3.12 names the
    exception [KeyError]), and a number for the [.2f] of the total time. *)
Definition format_request (entry : TimingInfo) : result unit :=
  _ <- match url entry with
       | VStr _ => Ok tt
       | VList l => if (List.length l <=? 60)%nat then Ok tt else Raise TypeError
       | VDict d => if (List.length d <=? 60)%nat then Ok tt else Raise TypeError
       | _ => Raise TypeError
       end ;;
  match total_time entry with
  | VStr _ => Raise ValueError
  | v => if is_number v then Ok tt else Raise TypeError
  end.

Fixpoint print_requests (rank : Z) (slowest : list TimingInfo) : io unit :=
  match slowest with
  | [] => lift (Ok tt)
  | entry :: rest =>
      _ <~ lift (format_request entry) ;;
      _ <~ emit (PrintRequest rank entry) ;;
      print_requests (rank + 1) rest
  end.

Definition print_summary (self : HARAnalyzer) : io unit :=
  _ <~ emit (PrintHeader (har_file_path self) (Z.of_nat (List.length (entries self)))) ;;
  status_counts <~ lift (get_requests_by_status self) ;;
  _ <~ emit (PrintStatusCounts status_counts) ;;
  stats <~ lift (calculate_statistics self) ;;
  _ <~ emit (PrintStatistics stats) ;;
  slowest <~ lift (get_slowest_requests self 10) ;;
  print_requests 1 slowest.

(** The dict of one quantity; its numbers, kept by value in [StatBlock],
    are written as floats. *)
Definition block_value (b : StatBlock) : value :=
  VDict [(VStr "count", VInt (st_count b));
         (VStr "total", VFloat (st_total b));
         (VStr "average", VFloat (st_average b));
         (VStr "median", VFloat (st_median b));
         (VStr "min", VFloat (st_min b));
         (VStr "max", VFloat (st_max b));
         (VStr "std_dev", VFloat (st_std_dev b))].

Definition slowest_value (entry : TimingInfo) : value :=
  VDict [(VStr "url", url entry);
         (VStr "method", method entry);
         (VStr "status", status entry);
         (VStr "total_time_ms", total_time entry)].

Definition status_distribution_value (status_counts : dict Z) : value :=
  VDict (map (fun kc => (fst kc, VInt (snd kc))) status_counts).

(** The dict [output_data] of [export_to_json]. *)
Definition output_data (self : HARAnalyzer) (stats : list (string * StatBlock))
  (slowest : list TimingInfo) (status_counts : dict Z) : value :=
  VDict [(VStr "summary",
          VDict [(VStr "source_file", VStr (har_file_path self));
                 (VStr "total_requests", VInt (Z.of_nat (List.length (entries self))));
                 (VStr "status_distribution", status_distribution_value status_counts)]);
         (VStr "timing_statistics",
          VDict (map (fun pb => (VStr (fst pb), block_value (snd pb))) stats));
         (VStr "slowest_requests", VList (map slowest_value slowest))].

Definition export_to_json (self : HARAnalyzer) (w : world) (output_file : string)
  : io unit :=
  stats <~ lift (calculate_statistics self) ;;
  slowest <~ lift (get_slowest_requests self 10) ;;
  status_counts <~ lift (get_requests_by_status self) ;;
  if writable w output_file then
    doc <~ lift (json_dump (output_data self stats slowest status_counts)) ;;
    _ <~ emit (WriteFile output_file doc) ;;
    emit (Print ("Analysis exported to: " ++ output_file))
  else lift (Raise OSError).

Definition nl : string := String (ascii_of_nat 10) EmptyString.

Definition usage : list event :=
  [Print "Usage: python har_analyzer.py <har_file_path> [--export <output.json>]";
   Print (nl ++ "Example:");
   Print "  python har_analyzer.py mywebsite.har";
   Print "  python har_analyzer.py mywebsite.har --export results.json"].

(** [main], on [sys.argv] (the script name first). *)
Definition main (argv : list string) (w : world) : io unit :=
  match argv with
  | _ :: har_file :: rest =>
      let export_file :=
        match rest with
        | flag :: path :: _ => if String.eqb flag "--export" then Some path else None
        | _ => None
        end in
      analyzer <~ extract_timings (HARAnalyzer_init har_file) w ;;
      _ <~ print_summary analyzer ;;
      match export_file with
      | Some path =>
          if String.eqb path "" then lift (Ok tt)
          else export_to_json analyzer w path
      | None => lift (Ok tt)
      end
  | _ => (usage, SysExit 1)
  end.

End Library.

(** ** Predicates of the statements *)

(** A number that the filter [> 0] of [calculate_statistics] rejects. *)
Definition nonpositive (v : value) : bool :=
  match as_num v with
  | Some q => Qle_bool q 0
  | None => false
  end.

Definition durations (e : TimingInfo) : list value :=
  [total_time e; blocked e; dns e; connect e; send e; wait e; receive e; ssl e].

(** Every one of the eight durations of the record is zero (or below). *)
Definition all_nonpositive (e : TimingInfo) : bool :=
  forallb nonpositive (durations e).

(** The eight durations are numbers, as the dataclass declares them. *)
Definition numeric_durations (e : TimingInfo) : bool :=
  forallb is_number (durations e).

(** [a] stands at least as high as [b] in the ranking by total time. *)
Definition slower_or_equal (a b : TimingInfo) : Prop :=
  (num_of (total_time b) <= num_of (total_time a))%Q.

(** The records whose total time is [t]. *)
Definition same_total_time (t : Q) (e : TimingInfo) : bool :=
  Qeq_bool (num_of (total_time e)) t.

(** The total time of the record is a number. *)
Definition numeric_key (e : TimingInfo) : Prop := is_number (total_time e) = true.

(** The comparison [sorted] uses for [key=lambda x: x.total_time,
    reverse=True]. *)
Definition slower (a b : TimingInfo) : bool :=
  py_ltb (total_time b) (total_time a).

(** [d.get(name, default)] on a dict. *)
Definition member (d : dict value) (name : string) (default : value) : value :=
  match dict_lookup d (VStr name) with
  | Some v => v
  | None => default
  end.

(** The member [name] is absent, or is an object. *)
Definition optional_object (d : dict value) (name : string) : bool :=
  match dict_lookup d (VStr name) with
  | None | Some (VDict _) => true
  | Some _ => false
  end.

(** An entry the loop of [extract_timings] can read: an object whose
    [request], [response] and [timings], where present, are objects, and
    whose seven phase timings, where present, are numbers.  Any member
    may be missing. *)
Definition well_formed_entry (entry : value) : bool :=
  match entry with
  | VDict d =>
      optional_object d "request" && optional_object d "response" &&
      optional_object d "timings" &&
      match member d "timings" (VDict []) with
      | VDict t => forallb (fun p => is_number (member t p (VInt 0))) phase_fields
      | _ => false
      end
  | _ => false
  end.

(** The entry has no member [name]. *)
Definition omits (entry : value) (name : string) : Prop :=
  py_in name entry = Ok false.

Definition phases (e : TimingInfo) : list value :=
  [blocked e; dns e; connect e; send e; wait e; receive e; ssl e].

(** Statuses that are [int]s, as the dataclass declares them. *)
Definition is_int (v : value) : bool :=
  match v with VInt _ => true | _ => false end.

Definition has_status (z : Z) (e : TimingInfo) : bool :=
  match status e with
  | VInt z' => Z.eqb z z'
  | _ => false
  end.

(** The number of records with status [z]. *)
Definition occurrences (z : Z) (es : list TimingInfo) : Z :=
  Z.of_nat (List.length (filter (has_status z) es)).

Definition total (counts : list Z) : Z := fold_right Z.add 0 counts.

(** The histogram over [int] statuses, with the keys as integers: the
    image of [count_statuses] and of the final sort under [VInt]. *)
Definition int_dict : Type := list (Z * Z).

Definition embed (dz : int_dict) : dict Z :=
  map (fun zc => (VInt (fst zc), snd zc)) dz.

Fixpoint int_lookup (dz : int_dict) (z : Z) : option Z :=
  match dz with
  | [] => None
  | (k, c) :: dz' => if Z.eqb k z then Some c else int_lookup dz' z
  end.

Fixpoint int_set (dz : int_dict) (z c : Z) : int_dict :=
  match dz with
  | [] => [(z, c)]
  | (k, c') :: dz' =>
      if Z.eqb k z then (k, c) :: dz' else (k, c') :: int_set dz' z c
  end.

Definition seen (dz : int_dict) (z : Z) : Z :=
  match int_lookup dz z with Some c => c | None => 0 end.

Fixpoint tally (zs : list Z) (dz : int_dict) : int_dict :=
  match zs with
  | [] => dz
  | z :: zs' => tally zs' (int_set dz z (seen dz z + 1))
  end.

Definition count (z : Z) (zs : list Z) : Z :=
  Z.of_nat (List.length (filter (Z.eqb z) zs)).

Definition key_ltb (a b : Z * Z) : bool := Z.ltb (fst a) (fst b).

(** The sample variance as the textbooks define it: the sum of the
    squared deviations from the mean, divided by [n - 1]. *)
Definition sample_variance (data : list Q) : Q :=
  let m := (py_sum data / py_len data)%Q in
  (py_sum (map (fun x => (x - m) * (x - m)) data) / (py_len data - 1))%Q.


(** The dataclass annotations: [url] and [method] are strings, [status]
    is an [int], the eight durations are numbers. *)
Definition typed_record (e : TimingInfo) : bool :=
  is_str (url e) && is_str (method e) && is_int (status e) && numeric_durations e.

(** A dict with string keys, as [json.load] builds them. *)
Definition members (ms : list (string * value)) : dict value :=
  map (fun kv => (VStr (fst kv), snd kv)) ms.

(** The result is a value or one of the two exceptions a wrongly shaped
    entry can cause. *)
Definition value_or_shape_error {A : Type} (r : result A) : Prop :=
  match r with
  | Ok _ | Raise AttributeError | Raise TypeError => True
  | _ => False
  end.

(** The call ends without [sys.exit]. *)
Definition no_exit {A : Type} (r : result A) : Prop :=
  match r with
  | SysExit _ => False
  | _ => True
  end.


Definition is_write (e : event) : bool :=
  match e with
  | WriteFile _ _ => true
  | _ => false
  end.

(** The files a run writes, in order. *)
Definition writes {A : Type} (c : io A) : list event :=
  filter is_write (output c).

(** The url as a line of the ranking shows it, for a url that is a [str]
    (read as the sequence of its characters):
    [entry.url if len(entry.url) <= 60 else entry.url[:57] + "..."]. *)
Definition display_url (u : string) : string :=
  if (String.length u <=? 60)%nat then u else substring 0 57 u ++ "...".

(** ** Sample sessions and documents *)

(** A record as [extract_timings] builds it from an entry [{}]. *)
Definition blank_record : TimingInfo :=
  {| url := VStr "unknown"; method := VStr "unknown"; status := VInt 0;
     total_time := VInt 0; blocked := VInt 0; dns := VInt 0; connect := VInt 0;
     send := VInt 0; wait := VInt 0; receive := VInt 0; ssl := VInt 0 |}.

Definition request_200_50 : TimingInfo :=
  {| url := VStr "http://example.org/a"; method := VStr "GET"; status := VInt 200;
     total_time := VInt 50; blocked := VInt 0; dns := VInt 3; connect := VInt 0;
     send := VInt 1; wait := VInt 40; receive := VInt 6; ssl := VInt 0 |}.

Definition request_200_150 : TimingInfo :=
  {| url := VStr "http://example.org/b"; method := VStr "GET"; status := VInt 200;
     total_time := VInt 150; blocked := VInt 0; dns := VInt 0; connect := VInt 0;
     send := VInt 1; wait := VInt 100; receive := VInt 49; ssl := VInt 0 |}.

Definition request_404_20 : TimingInfo :=
  {| url := VStr "http://example.org/c"; method := VStr "POST"; status := VInt 404;
     total_time := VInt 20; blocked := VInt 0; dns := VInt 0; connect := VInt 0;
     send := VInt 1; wait := VInt 19; receive := VInt 0; ssl := VInt 0 |}.

(** The scenario of three entries with statuses 200, 200, 404 and total
    times 50, 150, 20. *)
Definition three_requests : HARAnalyzer :=
  {| har_file_path := "session.har";
     entries := [request_200_50; request_200_150; request_404_20] |}.

(** An entry whose DNS phase is the sentinel -1. *)
Definition entry_dns_sentinel : value :=
  json_load
    (JObj [("request", JObj [("url", JStr "http://example.org/a"); ("method", JStr "GET")]);
           ("response", JObj [("status", JInt 200)]);
           ("time", JInt 50);
           ("timings", JObj [("dns", JInt (-1)); ("wait", JInt 40)])]).

Definition record_dns_sentinel : TimingInfo :=
  {| url := VStr "http://example.org/a"; method := VStr "GET"; status := VInt 200;
     total_time := VInt 50; blocked := VInt 0; dns := VInt 0; connect := VInt 0;
     send := VInt 0; wait := VInt 40; receive := VInt 0; ssl := VInt 0 |}.

(** An entry whose [time] is the sentinel -1. *)
Definition entry_time_sentinel : value :=
  json_load
    (JObj [("request", JObj [("url", JStr "http://example.org/x"); ("method", JStr "GET")]);
           ("response", JObj [("status", JInt 200)]);
           ("time", JInt (-1));
           ("timings", JObj [("wait", JInt 7)])]).

Definition record_time_sentinel : TimingInfo :=
  {| url := VStr "http://example.org/x"; method := VStr "GET"; status := VInt 200;
     total_time := VInt (-1); blocked := VInt 0; dns := VInt 0; connect := VInt 0;
     send := VInt 0; wait := VInt 7; receive := VInt 0; ssl := VInt 0 |}.

(** An entry without any member, and one that only names its total time. *)
Definition entry_empty : value := json_load (JObj []).
Definition entry_time_only : value := json_load (JObj [("time", JFloat (25 # 2))]).

(** Entries with a member of the wrong kind: a [request] that is [null],
    and a DNS timing that is a string. *)
Definition entry_null_request : value :=
  json_load (JObj [("request", JNull); ("time", JInt 12)]).

Definition entry_text_timing : value :=
  json_load (JObj [("time", JInt 12); ("timings", JObj [("dns", JStr "fast")])]).

Definition capture (items : list json) : json :=
  JObj [("log", JObj [("version", JStr "1.2"); ("entries", JArr items)])].

Definition disk (path : string) (doc : json) : world :=
  {| files := fun p => if String.eqb p path then Holds doc else NoSuchFile;
     writable := fun _ => true |}.

Definition two_entries : list json :=
  [JObj [("time", JInt 12)];
   JObj [("request", JObj [("url", JStr "http://example.org/")]);
         ("timings", JObj [("ssl", JInt (-1))])]].

(** A document whose [log] has no [entries]. *)
Definition capture_without_entries : json :=
  JObj [("log", JObj [("version", JStr "1.2")])].

(** * Properties *)

(** ** The result monad *)

Lemma bind_Ok {A B : Type} (r : result A) (k : A -> result B) (b : B) :
  bind r k = Ok b -> exists a, r = Ok a /\ k a = Ok b.
Proof.
  destruct r as [a | c | e]; simpl; intros H; try discriminate.
  exists a; split; [reflexivity | exact H].
Qed.

Ltac bind_inv H :=
  let a := fresh "a" in
  let Ha := fresh "Ha" in
  apply bind_Ok in H; destruct H as (a & Ha & H).

Lemma mapM_ext_Ok {A B : Type} (f : A -> result B) (g : A -> B) (l : list A) :
  (forall a, In a l -> f a = Ok (g a)) -> mapM f l = Ok (map g l).
Proof.
  induction l as [| a l IH]; intros Hf; simpl.
  - reflexivity.
  - rewrite (Hf a (or_introl eq_refl)); simpl.
    rewrite IH by (intros b Hb; apply Hf; right; exact Hb).
    reflexivity.
Qed.

Lemma mapM_Ok_Forall2 {A B : Type} (f : A -> result B) (l : list A) (bs : list B) :
  mapM f l = Ok bs <-> Forall2 (fun a b => f a = Ok b) l bs.
Proof.
  revert bs; induction l as [| a l IH]; intros bs; simpl; split; intros H.
  - inversion H; constructor.
  - inversion H; reflexivity.
  - bind_inv H. bind_inv H. inversion H; subst.
    constructor; [assumption | apply IH; assumption].
  - inversion H as [| ? b ? bs' Hb Hl]; subst.
    rewrite Hb; simpl. apply IH in Hl. rewrite Hl; reflexivity.
Qed.

(** ** Attributes of a record *)

Lemma getattr_durations (e : TimingInfo) (p : string) :
  In p timing_phases ->
  exists v, getattr e p = Ok v /\ In v (durations e).
Proof.
  unfold timing_phases, durations; simpl.
  intros H; repeat (destruct H as [<- | H]); try contradiction;
    eexists; (split; [reflexivity | simpl; tauto]).
Qed.

Lemma nonpositive_gt0 (v : value) :
  nonpositive v = true -> py_gt0 v = Ok false.
Proof.
  unfold nonpositive, py_gt0, Qltb.
  destruct (as_num v) as [q |]; [| discriminate].
  intros ->; reflexivity.
Qed.

Lemma phase_values_all_nonpositive (p : string) (es : list TimingInfo) :
  In p timing_phases ->
  forallb all_nonpositive es = true ->
  phase_values p es = Ok [].
Proof.
  intros Hp; induction es as [| e es IH]; simpl; intros H.
  - reflexivity.
  - apply andb_prop in H; destruct H as [He Hes].
    destruct (getattr_durations e p Hp) as (v & Hv & Hin).
    rewrite Hv; simpl.
    unfold all_nonpositive in He; rewrite forallb_forall in He.
    rewrite (nonpositive_gt0 v (He v Hin)); simpl.
    rewrite (IH Hes); reflexivity.
Qed.

Section Statistics.

Variable sqrt : Q -> Q.

Lemma stats_get_zero (p : string) :
  In p timing_phases ->
  stats_get (map (fun p => (p, zero_block)) timing_phases) p = Some zero_block.
Proof.
  unfold timing_phases; simpl.
  intros H; repeat (destruct H as [<- | H]); try contradiction; reflexivity.
Qed.

(** C7: without records [calculate_statistics] returns the empty dict, with
    no quantity at all; with records whose eight durations are all zero it
    returns every one of the eight quantities, each with all seven fields
    zero.  The two results differ. *)
Theorem calculate_statistics_empty_or_zero (self : HARAnalyzer) (path : string) :
  entries self <> [] ->
  forallb all_nonpositive (entries self) = true ->
  calculate_statistics sqrt {| har_file_path := path; entries := [] |} = Ok [] /\
  calculate_statistics sqrt self
    = Ok (map (fun p => (p, zero_block)) timing_phases) /\
  (forall p, In p timing_phases ->
     stats_get (map (fun p => (p, zero_block)) timing_phases) p = Some zero_block) /\
  map (fun p => (p, zero_block)) timing_phases <> [].
Proof.
  intros Hne Hzero. split; [reflexivity |]. split; [| split].
  - unfold calculate_statistics.
    destruct (entries self) as [| e es] eqn:E; [contradiction |].
    apply mapM_ext_Ok. intros p Hp.
    unfold phase_block.
    rewrite (phase_values_all_nonpositive p (e :: es) Hp Hzero).
    reflexivity.
  - exact stats_get_zero.
  - discriminate.
Qed.

End Statistics.

Lemma calculate_statistics_empty_or_zero_witness :
  let self := {| har_file_path := "a.har"; entries := [blank_record] |} in
  (entries self <> [] /\ forallb all_nonpositive (entries self) = true) /\
  calculate_statistics (fun q => q) {| har_file_path := "a.har"; entries := [] |} = Ok [] /\
  calculate_statistics (fun q => q) self
    = Ok (map (fun p => (p, zero_block)) timing_phases) /\
  (forall p, In p timing_phases ->
     stats_get (map (fun p => (p, zero_block)) timing_phases) p = Some zero_block) /\
  map (fun p => (p, zero_block)) timing_phases <> [].
Proof.
  split.
  - split; [discriminate | reflexivity].
  - apply (calculate_statistics_empty_or_zero (fun q => q)
             {| har_file_path := "a.har"; entries := [blank_record] |} "a.har");
      [discriminate | reflexivity].
Defined.

(** ** Comparisons of numbers *)

Lemma Qltb_lt (x y : Q) : Qltb x y = true <-> (x < y)%Q.
Proof.
  unfold Qltb. rewrite negb_true_iff.
  split; intros H.
  - apply Qnot_le_lt. intros Hle. apply Qle_bool_iff in Hle. congruence.
  - destruct (Qle_bool y x) eqn:E; [| reflexivity].
    apply Qle_bool_iff in E. exfalso. exact (Qlt_not_le _ _ H E).
Qed.

Lemma Qltb_ge (x y : Q) : Qltb x y = false <-> (y <= x)%Q.
Proof.
  unfold Qltb. rewrite negb_false_iff. apply Qle_bool_iff.
Qed.

Lemma py_gt0_true (v : value) :
  py_gt0 v = Ok true <-> exists q, as_num v = Some q /\ (0 < q)%Q.
Proof.
  unfold py_gt0. destruct (as_num v) as [q |]; split.
  - intros H. exists q. split; [reflexivity |]. apply Qltb_lt. congruence.
  - intros (q' & Hq & Hlt). inversion Hq; subst. apply Qltb_lt in Hlt. congruence.
  - discriminate.
  - intros (q & Hq & _); discriminate.
Qed.

Lemma py_gt0_false (v : value) :
  py_gt0 v = Ok false <-> exists q, as_num v = Some q /\ (q <= 0)%Q.
Proof.
  unfold py_gt0. destruct (as_num v) as [q |]; split.
  - intros H. exists q. split; [reflexivity |]. apply Qltb_ge. congruence.
  - intros (q' & Hq & Hle). inversion Hq; subst. apply Qltb_ge in Hle. congruence.
  - discriminate.
  - intros (q & Hq & _); discriminate.
Qed.

(** [max(0, v)] is the larger of 0 and [v], and is the [int] 0 itself
    whenever [v] is not positive. *)
Lemma py_max0_spec (raw v : value) :
  py_max0 raw = Ok v ->
  (num_of v == Qmax 0 (num_of raw))%Q /\
  (py_gt0 raw = Ok false -> v = VInt 0) /\
  (py_gt0 raw = Ok true -> v = raw).
Proof.
  unfold py_max0. intros H. bind_inv H. inversion H; subst; clear H.
  destruct a.
  - pose proof Ha as Ha'.
    apply py_gt0_true in Ha. destruct Ha as (q & Hq & Hlt).
    split; [| split]; [| intros; congruence | reflexivity].
    unfold num_of; rewrite Hq.
    symmetry. apply Q.max_r. apply Qlt_le_weak; exact Hlt.
  - pose proof Ha as Ha'.
    apply py_gt0_false in Ha. destruct Ha as (q & Hq & Hle).
    split; [| split]; [| reflexivity | intros; congruence].
    unfold num_of at 2; rewrite Hq. simpl.
    symmetry. apply Q.max_l. exact Hle.
Qed.

(** ** The filter of [calculate_statistics] *)

Lemma phase_values_app (p : string) (l1 l2 : list TimingInfo) :
  phase_values p (l1 ++ l2)
  = (a <- phase_values p l1 ;; b <- phase_values p l2 ;; Ok (a ++ b)%list).
Proof.
  induction l1 as [| e l1 IH]; simpl.
  - destruct (phase_values p l2); reflexivity.
  - destruct (getattr e p) as [v | |]; simpl; try reflexivity.
    destruct (py_gt0 v) as [b | |]; simpl; try reflexivity.
    rewrite IH.
    destruct (phase_values p l1) as [a | |]; simpl; try reflexivity.
    destruct (phase_values p l2) as [c | |]; simpl; try reflexivity.
    destruct b; reflexivity.
Qed.

Lemma phase_values_skip (p : string) (r : TimingInfo) (v : value)
  (l1 l2 : list TimingInfo) :
  getattr r p = Ok v -> py_gt0 v = Ok false ->
  phase_values p (l1 ++ r :: l2) = phase_values p (l1 ++ l2).
Proof.
  intros Hv Hgt. rewrite !phase_values_app. simpl.
  rewrite Hv; simpl. rewrite Hgt; simpl.
  destruct (phase_values p l1) as [a | |]; simpl; try reflexivity.
  destruct (phase_values p l2) as [b | |]; reflexivity.
Qed.

Lemma phase_values_keep (p : string) (r : TimingInfo) (v : value)
  (l1 l2 : list TimingInfo) (a b : list Q) :
  getattr r p = Ok v -> py_gt0 v = Ok true ->
  phase_values p l1 = Ok a -> phase_values p l2 = Ok b ->
  phase_values p (l1 ++ r :: l2) = Ok (a ++ num_of v :: b)%list.
Proof.
  intros Hv Hgt Ha Hb. rewrite phase_values_app. simpl.
  rewrite Hv; simpl. rewrite Hgt; simpl. rewrite Ha, Hb; reflexivity.
Qed.

(** ** Extraction of one entry *)

Lemma extract_entry_Ok (entry : value) (r : TimingInfo) :
  extract_entry entry = Ok r ->
  exists request response timings,
    py_get entry "request" (VDict []) = Ok request /\
    py_get entry "response" (VDict []) = Ok response /\
    py_get entry "timings" (VDict []) = Ok timings /\
    py_get request "url" (VStr "unknown") = Ok (url r) /\
    py_get request "method" (VStr "unknown") = Ok (method r) /\
    py_get response "status" (VInt 0) = Ok (status r) /\
    py_get entry "time" (VInt 0) = Ok (total_time r) /\
    (forall p, In p phase_fields ->
       exists v, get_timing timings p = Ok v /\ getattr r p = Ok v).
Proof.
  unfold extract_entry. intros H.
  do 14 (bind_inv H). inversion H; subst; clear H. simpl.
  exists a, a0, a1. repeat (split; [assumption |]).
  unfold phase_fields; simpl.
  intros p Hp; repeat (destruct Hp as [<- | Hp]); try contradiction;
    eexists; (split; [eassumption | reflexivity]).
Qed.

(** ** The stable insertion sort *)

Section Sorting.

Context {A : Type}.
Variable lt : A -> A -> bool.

Lemma insert_perm (x : A) (l : list A) : Permutation (x :: l) (insert lt x l).
Proof.
  induction l as [| y l IH]; simpl.
  - apply Permutation_refl.
  - destruct (lt y x).
    + apply perm_trans with (y :: x :: l); [apply perm_swap |].
      apply perm_skip; exact IH.
    + apply Permutation_refl.
Qed.

Lemma stable_sort_perm (l : list A) : Permutation l (stable_sort lt l).
Proof.
  induction l as [| x l IH]; simpl.
  - apply perm_nil.
  - apply perm_trans with (x :: stable_sort lt l).
    + apply perm_skip; exact IH.
    + apply insert_perm.
Qed.

Lemma stable_sort_length (l : list A) :
  List.length (stable_sort lt l) = List.length l.
Proof.
  symmetry. apply Permutation_length, stable_sort_perm.
Qed.

(** The order is only asked to behave on a domain [P] that holds the
    elements of the list (the records whose key is a number). *)
Variable P : A -> Prop.
Variable R : A -> A -> Prop.
Hypothesis R_trans : forall a b c, R a b -> R b c -> R a c.
Hypothesis lt_R : forall x y, P x -> P y -> lt y x = true -> R y x.
Hypothesis nlt_R : forall x y, P x -> P y -> lt y x = false -> R x y.

Lemma insert_sorted (x : A) (l : list A) :
  P x -> Forall P l -> StronglySorted R l -> StronglySorted R (insert lt x l).
Proof.
  intros Px Pl Hs. induction Hs as [| y l Hs IH Hy]; simpl.
  - constructor; constructor.
  - inversion Pl as [| ? ? Py Pl']; subst.
    destruct (lt y x) eqn:E.
    + constructor; [apply IH; assumption |].
      apply Forall_forall. intros z Hz.
      apply (Permutation_in _ (Permutation_sym (insert_perm x l))) in Hz.
      destruct Hz as [<- | Hz].
      * apply lt_R; assumption.
      * rewrite Forall_forall in Hy. apply Hy; exact Hz.
    + constructor; [constructor; assumption |].
      pose proof (nlt_R x y Px Py E) as Hxy.
      constructor; [exact Hxy |].
      apply Forall_forall. intros z Hz.
      rewrite Forall_forall in Hy. apply R_trans with y; [exact Hxy | apply Hy; exact Hz].
Qed.

Lemma stable_sort_sorted (l : list A) :
  Forall P l -> StronglySorted R (stable_sort lt l).
Proof.
  induction l as [| x l IH]; simpl; intros Pl.
  - constructor.
  - inversion Pl; subst. apply insert_sorted; [assumption | | apply IH; assumption].
    apply Forall_forall. intros z Hz.
    apply (Permutation_in _ (Permutation_sym (stable_sort_perm l))) in Hz.
    rewrite Forall_forall in H2. apply H2; exact Hz.
Qed.

(** Stability: the elements of a class [f] whose members are never
    strictly below one another keep their order. *)
Variable f : A -> bool.
Hypothesis f_ties : forall x y, P x -> P y -> f x = true -> f y = true -> lt y x = false.

Lemma insert_filter (x : A) (l : list A) :
  P x -> Forall P l -> filter f (insert lt x l) = filter f (x :: l).
Proof.
  intros Px Pl. induction l as [| y l IH]; simpl.
  - reflexivity.
  - inversion Pl as [| ? ? Py Pl']; subst.
    destruct (lt y x) eqn:E.
    + simpl. rewrite (IH Pl'). simpl.
      destruct (f x) eqn:Fx, (f y) eqn:Fy; try reflexivity.
      rewrite (f_ties x y Px Py Fx Fy) in E; discriminate.
    + reflexivity.
Qed.

Lemma stable_sort_filter (l : list A) :
  Forall P l -> filter f (stable_sort lt l) = filter f l.
Proof.
  induction l as [| x l IH]; simpl; intros Pl.
  - reflexivity.
  - inversion Pl; subst. rewrite insert_filter.
    + simpl. rewrite (IH H2). reflexivity.
    + assumption.
    + apply Forall_forall. intros z Hz.
      apply (Permutation_in _ (Permutation_sym (stable_sort_perm l))) in Hz.
      rewrite Forall_forall in H2. apply H2; exact Hz.
Qed.

End Sorting.

(** ** The ranking by total time *)

Lemma py_ltb_numbers (a b : value) :
  is_number a = true -> is_number b = true ->
  py_ltb a b = Qltb (num_of a) (num_of b).
Proof.
  unfold is_number, py_ltb, num_of.
  destruct (as_num a), (as_num b); intros; try discriminate; reflexivity.
Qed.

Lemma StronglySorted_after {A : Type} (R : A -> A -> Prop) (l1 l2 : list A) (x : A) :
  StronglySorted R (l1 ++ x :: l2) -> Forall (R x) l2.
Proof.
  induction l1 as [| y l1 IH]; simpl; intros H; inversion H; subst.
  - assumption.
  - apply IH; assumption.
Qed.

Lemma StronglySorted_firstn {A : Type} (R : A -> A -> Prop) (k : nat) (l : list A) :
  StronglySorted R l -> StronglySorted R (firstn k l).
Proof.
  intros H; revert k; induction H as [| x l H IH Hx]; intros [| k]; simpl;
    try constructor.
  - apply IH.
  - apply Forall_forall. intros z Hz. rewrite Forall_forall in Hx.
    apply Hx. rewrite <- (firstn_skipn k l). apply in_or_app; left; exact Hz.
Qed.

Lemma filter_firstn_prefix {A : Type} (f : A -> bool) (k : nat) (l : list A) :
  filter f (firstn k l)
  = firstn (List.length (filter f (firstn k l))) (filter f l).
Proof.
  revert k; induction l as [| x l IH]; intros [| k]; simpl; try reflexivity.
  destruct (f x); simpl; [f_equal |]; apply IH.
Qed.

Lemma py_slice_to_firstn {A : Type} (l : list A) (n : Z) :
  exists k, py_slice_to l n = firstn k l.
Proof.
  unfold py_slice_to. destruct (0 <=? n)%Z; eexists; reflexivity.
Qed.

Section Ranking.

Variable es : list TimingInfo.
Hypothesis numeric : forallb is_number (map total_time es) = true.

Lemma numeric_keys : Forall numeric_key es.
Proof.
  apply Forall_forall. intros e He.
  rewrite forallb_forall in numeric. apply numeric. apply in_map; exact He.
Qed.

Lemma py_sorted_numeric :
  py_sorted total_time true es = Ok (stable_sort slower es).
Proof.
  unfold py_sorted. rewrite numeric. reflexivity.
Qed.

Lemma ranking_sorted : StronglySorted slower_or_equal (stable_sort slower es).
Proof.
  apply (stable_sort_sorted slower numeric_key slower_or_equal).
  - unfold slower_or_equal. intros a b c Hab Hbc. eapply Qle_trans; eassumption.
  - unfold slower, slower_or_equal, numeric_key. intros x y Hx Hy H.
    rewrite py_ltb_numbers in H by assumption.
    apply Qltb_lt in H. apply Qlt_le_weak; exact H.
  - unfold slower, slower_or_equal, numeric_key. intros x y Hx Hy H.
    rewrite py_ltb_numbers in H by assumption.
    apply Qltb_ge in H. exact H.
  - exact numeric_keys.
Qed.

Lemma ranking_stable (t : Q) :
  filter (same_total_time t) (stable_sort slower es) = filter (same_total_time t) es.
Proof.
  apply (stable_sort_filter slower numeric_key).
  - unfold slower, same_total_time, numeric_key. intros x y Hx Hy Fx Fy.
    rewrite py_ltb_numbers by assumption.
    apply Qltb_ge. apply Qeq_bool_iff in Fx, Fy.
    rewrite Fx, Fy. apply Qle_refl.
  - exact numeric_keys.
Qed.

End Ranking.

(** C2, as amended: for records whose total time is a number and for
    [0 <= n], [get_slowest_requests] returns the first [n] of the records
    sorted by total time, largest first; the sorted list is a
    rearrangement of the records in which records of equal total time keep
    their extraction order, the ranking is a prefix of it, and the ranking
    has [min(n, number of records)] elements. *)
Theorem get_slowest_requests_sorted_stable (self : HARAnalyzer) (n : Z) :
  forallb is_number (map total_time (entries self)) = true ->
  0 <= n ->
  exists ranking sorted_entries,
    get_slowest_requests self n = Ok ranking /\
    ranking = firstn (Z.to_nat n) sorted_entries /\
    Permutation (entries self) sorted_entries /\
    StronglySorted slower_or_equal sorted_entries /\
    StronglySorted slower_or_equal ranking /\
    (forall t, filter (same_total_time t) sorted_entries
               = filter (same_total_time t) (entries self)) /\
    (forall t, filter (same_total_time t) ranking
               = firstn (List.length (filter (same_total_time t) ranking))
                   (filter (same_total_time t) (entries self))) /\
    Z.of_nat (List.length ranking) = Z.min n (Z.of_nat (List.length (entries self))).
Proof.
  intros Hnum Hn.
  exists (firstn (Z.to_nat n) (stable_sort slower (entries self))),
         (stable_sort slower (entries self)).
  assert (Hslice : py_slice_to (stable_sort slower (entries self)) n
                   = firstn (Z.to_nat n) (stable_sort slower (entries self))).
  { unfold py_slice_to. destruct (0 <=? n)%Z eqn:E; [reflexivity |].
    apply Z.leb_gt in E. lia. }
  repeat split.
  - unfold get_slowest_requests. rewrite (py_sorted_numeric _ Hnum). simpl.
    rewrite Hslice. reflexivity.
  - apply stable_sort_perm.
  - apply ranking_sorted; exact Hnum.
  - apply StronglySorted_firstn. apply ranking_sorted; exact Hnum.
  - intros t. apply ranking_stable; exact Hnum.
  - intros t. rewrite <- (ranking_stable _ Hnum t). apply filter_firstn_prefix.
  - rewrite length_firstn, stable_sort_length. lia.
Qed.

Lemma get_slowest_requests_sorted_stable_witness :
  (forallb is_number (map total_time (entries three_requests)) = true /\ 0 <= 1) /\
  exists ranking sorted_entries,
    get_slowest_requests three_requests 1 = Ok ranking /\
    ranking = firstn (Z.to_nat 1) sorted_entries /\
    Permutation (entries three_requests) sorted_entries /\
    StronglySorted slower_or_equal sorted_entries /\
    StronglySorted slower_or_equal ranking /\
    (forall t, filter (same_total_time t) sorted_entries
               = filter (same_total_time t) (entries three_requests)) /\
    (forall t, filter (same_total_time t) ranking
               = firstn (List.length (filter (same_total_time t) ranking))
                   (filter (same_total_time t) (entries three_requests))) /\
    Z.of_nat (List.length ranking)
    = Z.min 1 (Z.of_nat (List.length (entries three_requests))).
Proof.
  split.
  - split; [reflexivity | lia].
  - apply (get_slowest_requests_sorted_stable three_requests 1); [reflexivity | lia].
Defined.

(** C2, as stated, fails for a negative [n]: the slice [[:-1]] drops the
    last record of the sorted list, so of three records two are returned,
    where [min(n, 3)] is -1. *)
Lemma get_slowest_requests_negative_count :
  get_slowest_requests three_requests (-1) = Ok [request_200_150; request_200_50] /\
  Z.of_nat (List.length [request_200_150; request_200_50])
  <> Z.min (-1) (Z.of_nat (List.length (entries three_requests))).
Proof. split; [reflexivity | discriminate]. Qed.

Example slowest_of_three :
  get_slowest_requests three_requests 1 = Ok [request_200_150].
Proof. reflexivity. Qed.

(** ** What follows a record in the ranking *)

Lemma ranking_after (self : HARAnalyzer) (n : Z)
  (ranking before after : list TimingInfo) (r : TimingInfo) (x : Q) :
  get_slowest_requests self n = Ok ranking ->
  ranking = (before ++ r :: after)%list ->
  as_num (total_time r) = Some x ->
  forall e y, In e after -> as_num (total_time e) = Some y -> (y <= x)%Q.
Proof.
  unfold get_slowest_requests. intros H Hsplit Hx e y He Hy.
  bind_inv H. rename a into ordered.
  injection H as Hslice. rewrite Hsplit in Hslice. clear Hsplit.
  destruct (py_slice_to_firstn ordered n) as (k & Hk).
  rewrite Hk in Hslice. rename Hslice into Hsplit.
  assert (Hordered : ordered = (before ++ r :: (after ++ skipn k ordered))%list).
  { rewrite <- (firstn_skipn k ordered) at 1. rewrite Hsplit.
    rewrite <- app_assoc. reflexivity. }
  unfold py_sorted in Ha.
  destruct (forallb is_number (map total_time (entries self))) eqn:Hnum; simpl in Ha.
  - injection Ha as Hs. change (stable_sort slower (entries self) = ordered) in Hs.
    pose proof (ranking_sorted _ Hnum) as Hsorted.
    rewrite Hs, Hordered in Hsorted.
    apply StronglySorted_after in Hsorted. rewrite Forall_forall in Hsorted.
    specialize (Hsorted e (in_or_app _ _ _ (or_introl He))).
    unfold slower_or_equal, num_of in Hsorted. rewrite Hx, Hy in Hsorted.
    exact Hsorted.
  - destruct (forallb is_str (map total_time (entries self))) eqn:Hstr.
    + injection Ha as Hs. change (stable_sort slower (entries self) = ordered) in Hs.
      exfalso.
      assert (Hin : In r (entries self)).
      { apply (Permutation_in _ (Permutation_sym (stable_sort_perm slower (entries self)))).
        rewrite Hs, Hordered. apply in_or_app; right; left; reflexivity. }
      rewrite forallb_forall in Hstr.
      specialize (Hstr _ (in_map total_time _ _ Hin)).
      destruct (total_time r); simpl in *; discriminate.
    + exfalso.
      destruct (entries self) as [| z [| z' l]]; try discriminate;
        injection Ha as <-.
      destruct before as [| b [| b' before]]; try discriminate.
      injection Hordered as _ Hnil.
      destruct after; [contradiction | discriminate].
Qed.

(** ** Entries the extraction accepts *)

Lemma py_get_optional_object (d : dict value) (name : string) :
  optional_object d name = true ->
  exists o, py_get (VDict d) name (VDict []) = Ok (VDict o) /\
            member d name (VDict []) = VDict o /\
            (omits (VDict d) name -> o = []).
Proof.
  unfold optional_object, py_get, member, omits, py_in.
  destruct (dict_lookup d (VStr name)) as [v |].
  - destruct v; try discriminate. intros _. exists d0.
    repeat split. intros H; discriminate.
  - intros _. exists []. repeat split.
Qed.

Lemma get_timing_number (t : dict value) (p : string) :
  is_number (member t p (VInt 0)) = true ->
  exists v, get_timing (VDict t) p = Ok v /\
            (omits (VDict t) p -> v = VInt 0).
Proof.
  unfold get_timing, py_get, omits, py_in, member.
  destruct (dict_lookup t (VStr p)) as [raw |]; simpl.
  - unfold py_max0, py_gt0, is_number.
    destruct (as_num raw); [| discriminate]. simpl.
    intros _. eexists. split; [reflexivity | intros H; discriminate].
  - intros _. exists (VInt 0). split; reflexivity.
Qed.

Lemma extract_entry_well_formed (entry : value) :
  well_formed_entry entry = true ->
  exists r,
    extract_entry entry = Ok r /\
    (omits entry "request" -> url r = VStr "unknown" /\ method r = VStr "unknown") /\
    (omits entry "response" -> status r = VInt 0) /\
    (omits entry "time" -> total_time r = VInt 0) /\
    (omits entry "timings" -> Forall (eq (VInt 0)) (phases r)).
Proof.
  destruct entry as [| | | | | | d]; try discriminate.
  unfold well_formed_entry. intros H.
  apply andb_prop in H; destruct H as [H Hphases].
  apply andb_prop in H; destruct H as [H Htimings].
  apply andb_prop in H; destruct H as [Hrequest Hresponse].
  destruct (py_get_optional_object d "request" Hrequest) as (request & Erequest & _ & Norequest).
  destruct (py_get_optional_object d "response" Hresponse) as (response & Eresponse & _ & Noresponse).
  destruct (py_get_optional_object d "timings" Htimings) as (timings & Etimings & Mtimings & Notimings).
  rewrite Mtimings in Hphases. rewrite forallb_forall in Hphases.
  assert (Hp : forall p, In p phase_fields ->
                exists v, get_timing (VDict timings) p = Ok v /\
                          (omits (VDict timings) p -> v = VInt 0)).
  { intros p Hin. apply get_timing_number. apply Hphases; exact Hin. }
  destruct (Hp "blocked") as (t1 & E1 & Z1); [simpl; tauto |].
  destruct (Hp "dns") as (t2 & E2 & Z2); [simpl; tauto |].
  destruct (Hp "connect") as (t3 & E3 & Z3); [simpl; tauto |].
  destruct (Hp "send") as (t4 & E4 & Z4); [simpl; tauto |].
  destruct (Hp "wait") as (t5 & E5 & Z5); [simpl; tauto |].
  destruct (Hp "receive") as (t6 & E6 & Z6); [simpl; tauto |].
  destruct (Hp "ssl") as (t7 & E7 & Z7); [simpl; tauto |].
  unfold extract_entry.
  rewrite Erequest, Eresponse, Etimings; simpl bind.
  rewrite E1, E2, E3, E4, E5, E6, E7; simpl bind.
  eexists. split; [reflexivity |]. simpl.
  repeat split.
  - rewrite (Norequest H). reflexivity.
  - rewrite (Norequest H). reflexivity.
  - intros H. rewrite (Noresponse H). reflexivity.
  - unfold omits, py_in. destruct (dict_lookup d (VStr "time")); [discriminate | reflexivity].
  - intros H. specialize (Notimings H). subst timings.
    unfold phases; simpl.
    repeat constructor;
      [rewrite Z1 | rewrite Z2 | rewrite Z3 | rewrite Z4 | rewrite Z5 | rewrite Z6 | rewrite Z7];
      reflexivity.
Qed.

Lemma py_get_Ok_object (o : value) (name : string) (default v : value) :
  py_get o name default = Ok v ->
  exists d, o = VDict d /\ v = member d name default.
Proof.
  unfold py_get, member. destruct o; try discriminate.
  intros H; injection H as <-. eexists; split; reflexivity.
Qed.

(** The extraction of an entry succeeds exactly on the well-formed ones. *)
Lemma extract_entry_Ok_well_formed (entry : value) (r : TimingInfo) :
  extract_entry entry = Ok r -> well_formed_entry entry = true.
Proof.
  intros H.
  destruct (extract_entry_Ok entry r H)
    as (request & response & timings & Hrequest & Hresponse & Htimings
        & Hurl & _ & Hstatus & _ & Hphases).
  destruct (py_get_Ok_object _ _ _ _ Hrequest) as (d & -> & Mrequest).
  destruct (py_get_Ok_object _ _ _ _ Hresponse) as (d' & Hd' & Mresponse).
  injection Hd' as <-.
  destruct (py_get_Ok_object _ _ _ _ Htimings) as (d' & Hd' & Mtimings).
  injection Hd' as <-.
  destruct (py_get_Ok_object _ _ _ _ Hurl) as (request' & -> & _).
  destruct (py_get_Ok_object _ _ _ _ Hstatus) as (response' & -> & _).
  assert (Ht : exists t, timings = VDict t).
  { destruct (Hphases "ssl") as (v & Hv & _); [simpl; tauto |].
    unfold get_timing in Hv. bind_inv Hv.
    destruct (py_get_Ok_object _ _ _ _ Ha) as (t & -> & _). exists t; reflexivity. }
  destruct Ht as (t & ->).
  unfold well_formed_entry.
  assert (Hopt : forall name o, VDict o = member d name (VDict []) ->
                   optional_object d name = true).
  { unfold member, optional_object. intros name o.
    destruct (dict_lookup d (VStr name)) as [v |]; [| reflexivity].
    intros <-. reflexivity. }
  rewrite (Hopt _ _ Mrequest), (Hopt _ _ Mresponse), (Hopt _ _ Mtimings).
  rewrite <- Mtimings. cbn [andb].
  apply forallb_forall. intros p Hp.
  destruct (Hphases p Hp) as (v & Hv & _).
  unfold get_timing in Hv. bind_inv Hv.
  destruct (py_get_Ok_object _ _ _ _ Ha) as (t' & Ht' & ->).
  injection Ht' as <-.
  unfold py_max0 in Hv. bind_inv Hv.
  unfold py_gt0 in Ha0. unfold is_number.
  destruct (as_num (member t p (VInt 0))); [reflexivity | discriminate].
Qed.

Lemma extract_all_well_formed (items : list value) :
  forallb well_formed_entry items = true ->
  exists records,
    mapM extract_entry items = Ok records /\
    List.length records = List.length items.
Proof.
  induction items as [| entry items IH]; simpl; intros H.
  - exists []. split; reflexivity.
  - apply andb_prop in H; destruct H as [Hentry Hitems].
    destruct (extract_entry_well_formed entry Hentry) as (r & Hr & _).
    destruct (IH Hitems) as (records & Hrecords & Hlen).
    exists (r :: records). rewrite Hr; simpl. rewrite Hrecords; simpl.
    split; [reflexivity | rewrite Hlen; reflexivity].
Qed.

(** C5, as amended: every well-formed entry (an object whose [request],
    [response] and [timings], where present, are objects and whose phase
    timings, where present, are numbers) yields exactly one record and no
    exception; an omitted [request] gives the url and method ["unknown"],
    an omitted [response] the status 0, an omitted [time] the total time 0
    and omitted [timings] seven phases 0; and the record of each entry is
    the extraction of that entry alone, whatever the other entries hold. *)
Theorem extract_entries_well_formed (items : list value) :
  forallb well_formed_entry items = true ->
  exists records,
    mapM extract_entry items = Ok records /\
    Forall2 (fun entry r =>
               extract_entry entry = Ok r /\
               (omits entry "request" ->
                url r = VStr "unknown" /\ method r = VStr "unknown") /\
               (omits entry "response" -> status r = VInt 0) /\
               (omits entry "time" -> total_time r = VInt 0) /\
               (omits entry "timings" -> Forall (eq (VInt 0)) (phases r)))
            items records.
Proof.
  induction items as [| entry items IH]; simpl; intros H.
  - exists []. split; [reflexivity | constructor].
  - apply andb_prop in H; destruct H as [Hentry Hitems].
    destruct (extract_entry_well_formed entry Hentry) as (r & Hr & Hdefaults).
    destruct (IH Hitems) as (records & Hrecords & Hall).
    exists (r :: records). rewrite Hr; simpl. rewrite Hrecords; simpl.
    split; [reflexivity |]. constructor; [| exact Hall].
    split; assumption.
Qed.

Lemma extract_entries_well_formed_witness :
  forallb well_formed_entry [entry_empty; entry_time_only; entry_dns_sentinel] = true /\
  exists records,
    mapM extract_entry [entry_empty; entry_time_only; entry_dns_sentinel] = Ok records /\
    Forall2 (fun entry r =>
               extract_entry entry = Ok r /\
               (omits entry "request" ->
                url r = VStr "unknown" /\ method r = VStr "unknown") /\
               (omits entry "response" -> status r = VInt 0) /\
               (omits entry "time" -> total_time r = VInt 0) /\
               (omits entry "timings" -> Forall (eq (VInt 0)) (phases r)))
            [entry_empty; entry_time_only; entry_dns_sentinel] records.
Proof.
  split; [reflexivity |].
  apply (extract_entries_well_formed [entry_empty; entry_time_only; entry_dns_sentinel]).
  reflexivity.
Defined.

Example extract_entry_empty : extract_entry entry_empty = Ok blank_record.
Proof. reflexivity. Qed.

(** C5, as stated, fails: [None.get] raises [AttributeError] and
    [max(0, "fast")] raises [TypeError]; the exception ends the loop and
    the call, so the extraction returns nothing, also when a well-formed
    entry came before the faulty one. *)
Lemma extract_entry_raises :
  extract_entry entry_null_request = Raise AttributeError /\
  extract_entry entry_text_timing = Raise TypeError /\
  extract_entry entry_dns_sentinel = Ok record_dns_sentinel /\
  mapM extract_entry [entry_dns_sentinel; entry_text_timing] = Raise TypeError.
Proof. repeat split. Qed.

(** ** The number of records *)

(** C9, as amended: for a document with a [log] object whose [entries] is
    a list of well-formed entries, [extract_timings] prints nothing,
    returns, and leaves as many records as the list has entries. *)
Theorem extract_timings_count
  (path_str : string -> string) (path : string) (w : world) (doc : json)
  (log : dict value) (items : list value) :
  files w (path_str path) = Holds doc ->
  py_getitem (json_load doc) "log" = Ok (VDict log) ->
  dict_lookup log (VStr "entries") = Some (VList items) ->
  forallb well_formed_entry items = true ->
  exists self,
    extract_timings (HARAnalyzer_init path_str path) w = ([], Ok self) /\
    mapM extract_entry items = Ok (entries self) /\
    List.length (entries self) = List.length items.
Proof.
  intros Hfile Hlog Hentries Hitems.
  destruct (extract_all_well_formed items Hitems) as (records & Hrecords & Hlen).
  exists {| har_file_path := path_str path; entries := records |}.
  split; [| split].
  - unfold extract_timings, load_har, HARAnalyzer_init. simpl har_file_path.
    rewrite Hfile. simpl.
    assert (Hin : py_in "log" (json_load doc) = Ok true).
    { unfold py_getitem in Hlog. unfold py_in.
      destruct (json_load doc); try discriminate.
      destruct (dict_lookup d (VStr "log")); [reflexivity | discriminate]. }
    unfold format_invalid, extract_entries.
    rewrite Hin; simpl. rewrite Hlog; simpl. rewrite Hentries; simpl.
    rewrite Hrecords; simpl. reflexivity.
  - exact Hrecords.
  - simpl. exact Hlen.
Qed.

Lemma extract_timings_count_witness :
  (files (disk "session.har" (capture two_entries)) "session.har"
   = Holds (capture two_entries) /\
   forallb well_formed_entry (map json_load two_entries) = true) /\
  exists self,
    extract_timings (HARAnalyzer_init (fun p => p) "session.har")
      (disk "session.har" (capture two_entries)) = ([], Ok self) /\
    mapM extract_entry (map json_load two_entries) = Ok (entries self) /\
    List.length (entries self) = List.length (map json_load two_entries).
Proof.
  split; [split; reflexivity |].
  apply (extract_timings_count (fun p => p) "session.har"
           (disk "session.har" (capture two_entries)) (capture two_entries)
           [(VStr "version", VStr "1.2");
            (VStr "entries", VList (map json_load two_entries))]
           (map json_load two_entries));
    reflexivity.
Defined.

(** C9, as stated, fails: the document has a [log] object with an
    [entries] list of one entry, the entry is a number, and the loop
    raises [AttributeError] on [entry.get]: no record is produced. *)
Lemma extract_timings_count_fails :
  format_invalid (json_load (capture [JInt 5])) = Ok false /\
  extract_timings (HARAnalyzer_init (fun p => p) "session.har")
    (disk "session.har" (capture [JInt 5])) = ([], Raise AttributeError).
Proof. split; reflexivity. Qed.

(** ** The status histogram *)

Lemma py_eqb_int (a b : Z) : py_eqb (VInt a) (VInt b) = Z.eqb a b.
Proof.
  unfold py_eqb, Qeq_bool; simpl. rewrite !Z.mul_1_r. reflexivity.
Qed.

Lemma py_ltb_int (a b : Z) : py_ltb (VInt a) (VInt b) = Z.ltb a b.
Proof.
  unfold py_ltb, Qltb, Qle_bool; simpl. rewrite !Z.mul_1_r.
  symmetry. apply Z.ltb_antisym.
Qed.

Lemma dict_lookup_embed (dz : int_dict) (z : Z) :
  dict_lookup (embed dz) (VInt z) = int_lookup dz z.
Proof.
  induction dz as [| [k c] dz IH]; simpl.
  - reflexivity.
  - rewrite py_eqb_int. destruct (Z.eqb k z); [reflexivity | exact IH].
Qed.

Lemma dict_set_embed (dz : int_dict) (z c : Z) :
  dict_set (embed dz) (VInt z) c = embed (int_set dz z c).
Proof.
  induction dz as [| [k c'] dz IH]; simpl.
  - reflexivity.
  - rewrite py_eqb_int. destruct (Z.eqb k z); simpl; [reflexivity |].
    rewrite IH. reflexivity.
Qed.

Lemma count_statuses_embed (es : list TimingInfo) (zs : list Z) (dz : int_dict) :
  map status es = map VInt zs ->
  count_statuses es (embed dz) = Ok (embed (tally zs dz)).
Proof.
  revert zs dz; induction es as [| e es IH]; intros [| z zs] dz H;
    simpl in H; try discriminate.
  - reflexivity.
  - injection H as He Hes. simpl. rewrite He. simpl.
    rewrite dict_lookup_embed.
    change (match int_lookup dz z with Some c => c | None => 0 end) with (seen dz z).
    rewrite dict_set_embed. apply IH; exact Hes.
Qed.

Lemma int_statuses (es : list TimingInfo) :
  forallb is_int (map status es) = true ->
  exists zs, map status es = map VInt zs.
Proof.
  induction es as [| e es IH]; simpl; intros H.
  - exists []; reflexivity.
  - apply andb_prop in H; destruct H as [He Hes].
    destruct (IH Hes) as (zs & Hzs).
    destruct (status e) as [| | z | | | |]; try discriminate.
    exists (z :: zs). simpl. rewrite Hzs. reflexivity.
Qed.

Lemma occurrences_count (es : list TimingInfo) (zs : list Z) (z : Z) :
  map status es = map VInt zs -> occurrences z es = count z zs.
Proof.
  unfold occurrences, count. intros H. f_equal.
  revert zs H; induction es as [| e es IH]; intros [| z' zs] H;
    simpl in H; try discriminate.
  - reflexivity.
  - injection H as He Hes. simpl. unfold has_status at 1. rewrite He.
    destruct (Z.eqb z z'); simpl; rewrite (IH zs Hes); reflexivity.
Qed.

Lemma int_lookup_set (dz : int_dict) (z c z' : Z) :
  int_lookup (int_set dz z c) z'
  = if Z.eqb z z' then Some c else int_lookup dz z'.
Proof.
  induction dz as [| [k c'] dz IH]; simpl.
  - reflexivity.
  - destruct (Z.eqb k z) eqn:E; simpl.
    + apply Z.eqb_eq in E; subst k.
      destruct (Z.eqb z z'); reflexivity.
    + destruct (Z.eqb k z') eqn:E'.
      * apply Z.eqb_eq in E'; subst k. rewrite Z.eqb_sym, E. reflexivity.
      * exact IH.
Qed.

Lemma int_lookup_None (dz : int_dict) (z : Z) :
  int_lookup dz z = None <-> ~ In z (map fst dz).
Proof.
  induction dz as [| [k c] dz IH]; simpl.
  - tauto.
  - destruct (Z.eqb k z) eqn:E.
    + apply Z.eqb_eq in E. split; [discriminate | tauto].
    + apply Z.eqb_neq in E. rewrite IH. tauto.
Qed.

Lemma int_lookup_In (dz : int_dict) (z c : Z) :
  NoDup (map fst dz) -> In (z, c) dz -> int_lookup dz z = Some c.
Proof.
  induction dz as [| [k c'] dz IH]; simpl; intros Hnd Hin.
  - contradiction.
  - inversion Hnd as [| ? ? Hk Hnd']; subst.
    destruct Hin as [Heq | Hin].
    + injection Heq as -> ->. rewrite Z.eqb_refl. reflexivity.
    + destruct (Z.eqb k z) eqn:E.
      * apply Z.eqb_eq in E; subst k. exfalso. apply Hk.
        apply (in_map fst) in Hin. exact Hin.
      * apply IH; assumption.
Qed.

Lemma int_set_keys (dz : int_dict) (z c : Z) :
  map fst (int_set dz z c)
  = match int_lookup dz z with
    | Some _ => map fst dz
    | None => (map fst dz ++ [z])%list
    end.
Proof.
  induction dz as [| [k c'] dz IH]; simpl.
  - reflexivity.
  - destruct (Z.eqb k z); simpl; [reflexivity |].
    rewrite IH. destruct (int_lookup dz z); reflexivity.
Qed.

Lemma int_set_total (dz : int_dict) (z : Z) :
  total (map snd (int_set dz z (seen dz z + 1))) = total (map snd dz) + 1.
Proof.
  unfold seen. induction dz as [| [k c] dz IH]; simpl.
  - reflexivity.
  - destruct (Z.eqb k z); simpl.
    + lia.
    + assert (H : forall c0, total (map snd (int_set dz z c0))
                            = total (map snd (int_set dz z 0)) + c0).
      { clear. intros c0. induction dz as [| [k c] dz IH]; simpl; [lia |].
        destruct (Z.eqb k z); simpl; lia. }
      rewrite H in IH |- *. lia.
Qed.

Lemma tally_spec (zs : list Z) (dz : int_dict) :
  NoDup (map fst dz) ->
  NoDup (map fst (tally zs dz)) /\
  (forall z, In z (map fst (tally zs dz)) <-> In z (map fst dz) \/ In z zs) /\
  (forall z, seen (tally zs dz) z = seen dz z + count z zs) /\
  total (map snd (tally zs dz)) = total (map snd dz) + Z.of_nat (List.length zs).
Proof.
  revert dz; induction zs as [| z0 zs IH]; intros dz Hnd; simpl tally.
  - repeat split; try assumption; try tauto.
    + intros [H | []]; exact H.
    + unfold count; simpl; lia.
    + simpl; lia.
  - set (dz' := int_set dz z0 (seen dz z0 + 1)).
    assert (Hkeys : forall z, In z (map fst dz') <-> In z (map fst dz) \/ z0 = z).
    { intros z. unfold dz'. rewrite int_set_keys.
      destruct (int_lookup dz z0) eqn:E.
      - split; [tauto |]. intros [H | <-]; [exact H |].
        destruct (in_dec Z.eq_dec z0 (map fst dz)) as [Hin | Hout]; [exact Hin |].
        apply int_lookup_None in Hout. congruence.
      - rewrite in_app_iff; simpl. tauto. }
    assert (Hnd' : NoDup (map fst dz')).
    { unfold dz'. rewrite int_set_keys.
      destruct (int_lookup dz z0) eqn:E; [exact Hnd |].
      apply int_lookup_None in E.
      apply NoDup_rev in Hnd. rewrite <- (rev_involutive (map fst dz ++ [z0])).
      apply NoDup_rev. rewrite rev_app_distr; simpl.
      constructor; [rewrite <- in_rev; exact E | exact Hnd]. }
    destruct (IH dz' Hnd') as (H1 & H2 & H3 & H4).
    split; [exact H1 |]. split; [| split].
    + intros z. rewrite H2, Hkeys. simpl. tauto.
    + intros z. rewrite H3. unfold seen at 1, dz'. rewrite int_lookup_set.
      unfold count; simpl. rewrite (Z.eqb_sym z z0).
      destruct (Z.eqb z0 z) eqn:E; simpl.
      * apply Z.eqb_eq in E; subst z. lia.
      * unfold seen. lia.
    + rewrite H4. unfold dz'. rewrite int_set_total. simpl List.length. lia.
Qed.

Lemma insert_map {A B : Type} (g : A -> B) (lt : B -> B -> bool)
  (lt' : A -> A -> bool) (x : A) (l : list A) :
  (forall a b, lt (g a) (g b) = lt' a b) ->
  insert lt (g x) (map g l) = map g (insert lt' x l).
Proof.
  intros H. induction l as [| y l IH]; simpl.
  - reflexivity.
  - rewrite H. destruct (lt' y x); simpl; [rewrite IH |]; reflexivity.
Qed.

Lemma stable_sort_map {A B : Type} (g : A -> B) (lt : B -> B -> bool)
  (lt' : A -> A -> bool) (l : list A) :
  (forall a b, lt (g a) (g b) = lt' a b) ->
  stable_sort lt (map g l) = map g (stable_sort lt' l).
Proof.
  intros H. induction l as [| x l IH]; simpl.
  - reflexivity.
  - rewrite IH. apply insert_map; exact H.
Qed.

Lemma py_sorted_embed (dz : int_dict) :
  py_sorted fst false (embed dz) = Ok (embed (stable_sort key_ltb dz)).
Proof.
  unfold py_sorted.
  assert (H : forallb is_number (map fst (embed dz)) = true).
  { unfold embed. rewrite map_map. apply forallb_forall.
    intros v Hv. apply in_map_iff in Hv. destruct Hv as (zc & <- & _). reflexivity. }
  rewrite H. simpl. apply f_equal.
  unfold embed. apply stable_sort_map.
  intros a b. simpl. apply py_ltb_int.
Qed.

Lemma key_sorted (dz : int_dict) :
  StronglySorted (fun a b => fst a <= fst b) (stable_sort key_ltb dz).
Proof.
  apply (stable_sort_sorted key_ltb (fun _ => True)).
  - intros a b c; lia.
  - unfold key_ltb. intros x y _ _ H. apply Z.ltb_lt in H. lia.
  - unfold key_ltb. intros x y _ _ H. apply Z.ltb_ge in H. exact H.
  - apply Forall_forall. intros; exact I.
Qed.

Lemma sorted_distinct_keys (dz : int_dict) :
  StronglySorted (fun a b => fst a <= fst b) dz ->
  NoDup (map fst dz) ->
  StronglySorted Z.lt (map fst dz).
Proof.
  induction 1 as [| a dz Hs IH Ha]; simpl; intros Hnd.
  - constructor.
  - inversion Hnd as [| ? ? Hout Hnd']; subst.
    constructor; [apply IH; exact Hnd' |].
    apply Forall_forall. intros z Hz.
    apply in_map_iff in Hz. destruct Hz as (b & <- & Hb).
    rewrite Forall_forall in Ha. specialize (Ha b Hb).
    assert (fst a <> fst b).
    { intros E. apply Hout. rewrite E. apply in_map; exact Hb. }
    lia.
Qed.

Lemma total_perm (l l' : list Z) : Permutation l l' -> total l = total l'.
Proof.
  induction 1; simpl; lia.
Qed.

(** C6: for records whose status is an [int], [get_requests_by_status]
    returns a dict whose keys are exactly the distinct statuses of the
    records (0 among them when a record has no status), in strictly
    ascending order; the count under a key is the number of records with
    that status, and the counts add up to the number of records. *)
Theorem get_requests_by_status_histogram (self : HARAnalyzer) :
  forallb is_int (map status (entries self)) = true ->
  exists (histogram : dict Z) (keys : list Z),
    get_requests_by_status self = Ok histogram /\
    map fst histogram = map VInt keys /\
    StronglySorted Z.lt keys /\
    (forall z, In z keys <-> In (VInt z) (map status (entries self))) /\
    (forall z c, In (VInt z, c) histogram -> c = occurrences z (entries self)) /\
    total (map snd histogram) = Z.of_nat (List.length (entries self)).
Proof.
  intros Hint.
  destruct (int_statuses _ Hint) as (zs & Hzs).
  destruct (tally_spec zs [] (NoDup_nil Z)) as (Hnd & Hkeys & Hseen & Htotal).
  set (counted := tally zs []) in *.
  pose proof (stable_sort_perm key_ltb counted) as Hperm.
  set (sorted := stable_sort key_ltb counted) in *.
  exists (embed sorted), (map fst sorted).
  split; [| split; [| split; [| split; [| split]]]].
  - unfold get_requests_by_status.
    change (@nil (value * Z)) with (embed []).
    rewrite (count_statuses_embed _ zs [] Hzs). simpl.
    apply py_sorted_embed.
  - unfold embed. rewrite !map_map. reflexivity.
  - apply sorted_distinct_keys; [apply key_sorted |].
    apply (Permutation_NoDup (Permutation_map fst Hperm)). exact Hnd.
  - intros z. rewrite Hzs.
    assert (Hin : In z (map fst sorted) <-> In z (map fst counted)).
    { split; apply Permutation_in;
        [apply Permutation_sym |]; apply Permutation_map; exact Hperm. }
    rewrite Hin, Hkeys. simpl. split.
    + intros [[] | H]. apply in_map; exact H.
    + intros H. right. apply in_map_iff in H.
      destruct H as (z' & Hz' & H). injection Hz' as ->. exact H.
  - intros z c Hin.
    unfold embed in Hin. apply in_map_iff in Hin.
    destruct Hin as ([z' c'] & Heq & Hin). simpl in Heq. injection Heq as -> ->.
    apply (Permutation_in _ (Permutation_sym Hperm)) in Hin.
    pose proof (int_lookup_In counted z c Hnd Hin) as Hlook.
    rewrite (occurrences_count _ zs z Hzs).
    specialize (Hseen z). unfold seen in Hseen. rewrite Hlook in Hseen.
    simpl in Hseen. lia.
  - unfold embed. rewrite map_map. simpl.
    change (map (fun x : Z * Z => snd x) sorted) with (map snd sorted).
    rewrite <- (total_perm _ _ (Permutation_map snd Hperm)).
    rewrite Htotal. simpl.
    rewrite <- (length_map status), Hzs, length_map. reflexivity.
Qed.

Lemma get_requests_by_status_histogram_witness :
  forallb is_int (map status (entries three_requests)) = true /\
  exists (histogram : dict Z) (keys : list Z),
    get_requests_by_status three_requests = Ok histogram /\
    map fst histogram = map VInt keys /\
    StronglySorted Z.lt keys /\
    (forall z, In z keys <-> In (VInt z) (map status (entries three_requests))) /\
    (forall z c, In (VInt z, c) histogram -> c = occurrences z (entries three_requests)) /\
    total (map snd histogram) = Z.of_nat (List.length (entries three_requests)).
Proof.
  split; [reflexivity |].
  apply (get_requests_by_status_histogram three_requests). reflexivity.
Defined.

Example histogram_of_three :
  get_requests_by_status three_requests = Ok [(VInt 200, 2); (VInt 404, 1)].
Proof. reflexivity. Qed.

Example histogram_absent_status :
  get_requests_by_status
    {| har_file_path := "session.har";
       entries := [request_404_20; blank_record; request_200_50; blank_record] |}
  = Ok [(VInt 0, 2); (VInt 200, 1); (VInt 404, 1)].
Proof. reflexivity. Qed.

(** ** Descriptive statistics *)

Lemma fold_left_Qplus (l : list Q) (a : Q) :
  (fold_left Qplus l a == a + py_sum l)%Q.
Proof.
  unfold py_sum. revert a; induction l as [| y l IH]; intros a; simpl.
  - ring.
  - rewrite (IH (a + y)%Q), (IH (0 + y)%Q). ring.
Qed.

Lemma py_sum_cons (x : Q) (l : list Q) : (py_sum (x :: l) == x + py_sum l)%Q.
Proof.
  unfold py_sum at 1. simpl. rewrite fold_left_Qplus. ring.
Qed.

Lemma py_len_cons {A : Type} (x : A) (l : list A) :
  (py_len (x :: l) == 1 + py_len l)%Q.
Proof.
  unfold py_len. simpl List.length. rewrite Nat2Z.inj_succ.
  unfold Z.succ. rewrite inject_Z_plus. ring.
Qed.

Lemma py_len_nonneg {A : Type} (l : list A) : (0 <= py_len l)%Q.
Proof.
  unfold py_len. change 0%Q with (inject_Z 0). rewrite <- Zle_Qle. lia.
Qed.

Lemma py_len_pos {A : Type} (x : A) (l : list A) : (0 < py_len (x :: l))%Q.
Proof.
  rewrite py_len_cons. pose proof (py_len_nonneg l). lra.
Qed.

Lemma sum_squared_deviations (data : list Q) (m : Q) :
  (py_sum (map (fun x => (x - m) * (x - m)) data)
   == py_sum (map (fun x => x * x) data) - 2 * m * py_sum data
      + py_len data * m * m)%Q.
Proof.
  induction data as [| x l IH].
  - unfold py_sum, py_len; simpl. ring.
  - simpl map. rewrite !py_sum_cons, py_len_cons, IH. ring.
Qed.

(** What [_ss] computes from the two sums is the sum of the squared
    deviations from the mean. *)
Lemma ss_is_sum_of_squared_deviations (data : list Q) :
  data <> [] ->
  (statistics._ss data
   == py_sum (map (fun x => (x - py_sum data / py_len data)
                            * (x - py_sum data / py_len data)) data))%Q.
Proof.
  intros Hne. rewrite sum_squared_deviations. unfold statistics._ss.
  destruct data as [| x l]; [contradiction |].
  pose proof (py_len_pos x l) as Hpos.
  field. intros E. rewrite E in Hpos. exact (Qlt_irrefl _ Hpos).
Qed.

Lemma stdev_sample (sqrt : Q -> Q) (data : list Q) :
  (2 <= List.length data)%nat ->
  exists variance,
    statistics.stdev sqrt data = Ok (sqrt variance) /\
    (variance == sample_variance data)%Q.
Proof.
  intros Hn. unfold statistics.stdev.
  destruct (Nat.ltb_spec (List.length data) 2) as [Hlt | _]; [lia |].
  eexists. split; [reflexivity |].
  unfold sample_variance.
  rewrite ss_is_sum_of_squared_deviations.
  - reflexivity.
  - destruct data; [simpl in Hn; lia | discriminate].
Qed.


Lemma median_middle (data : list Q) :
  data <> [] ->
  exists m,
    statistics.median data = Ok m /\
    ((List.length data mod 2 = 0)%nat ->
     m = ((nth (List.length data / 2 - 1) (stable_sort Qltb data) 0
           + nth (List.length data / 2) (stable_sort Qltb data) 0) / 2)%Q) /\
    ((List.length data mod 2 = 1)%nat ->
     m = nth (List.length data / 2) (stable_sort Qltb data) 0%Q).
Proof.
  intros Hne. unfold statistics.median.
  rewrite stable_sort_length.
  destruct (Nat.eqb_spec (List.length data) 0) as [E | _].
  - destruct data; [contradiction | discriminate].
  - destruct (Nat.eqb_spec (List.length data mod 2) 1) as [E | E];
      eexists; (split; [reflexivity |]); split; intros H; try reflexivity; lia.
Qed.

Lemma phase_values_numeric (p : string) (es : list TimingInfo) :
  In p timing_phases ->
  forallb numeric_durations es = true ->
  exists values, phase_values p es = Ok values /\ Forall (fun x => 0 < x)%Q values.
Proof.
  intros Hp. induction es as [| e es IH]; simpl; intros H.
  - exists []. split; [reflexivity | constructor].
  - apply andb_prop in H; destruct H as [He Hes].
    destruct (IH Hes) as (values & Hvalues & Hpos).
    destruct (getattr_durations e p Hp) as (v & Hv & Hin).
    unfold numeric_durations in He. rewrite forallb_forall in He.
    specialize (He v Hin). unfold is_number in He.
    rewrite Hv, Hvalues; simpl. unfold py_gt0, num_of.
    destruct (as_num v) as [q |]; [| discriminate]. simpl.
    destruct (Qltb 0 q) eqn:E.
    + eexists. split; [reflexivity |]. constructor; [| exact Hpos].
      apply Qltb_lt; exact E.
    + exists values. split; [reflexivity | exact Hpos].
Qed.

Section Describe.

Variable sqrt : Q -> Q.

Lemma describe_Ok (values : list Q) :
  exists block,
    describe sqrt values = Ok block /\
    (values = [] -> block = zero_block) /\
    (List.length values = 1%nat -> st_std_dev block = 0%Q) /\
    ((2 <= List.length values)%nat ->
     exists variance,
       st_std_dev block = sqrt variance /\ (variance == sample_variance values)%Q) /\
    ((2 <= List.length values)%nat -> (List.length values mod 2 = 0)%nat ->
     st_median block
     = ((nth (List.length values / 2 - 1) (stable_sort Qltb values) 0
         + nth (List.length values / 2) (stable_sort Qltb values) 0) / 2)%Q).
Proof.
  destruct values as [| x xs].
  - exists zero_block. repeat split; simpl; intros; try reflexivity; lia.
  - assert (Hne : x :: xs <> []) by discriminate.
    destruct (median_middle (x :: xs) Hne) as (m & Hm & Heven & _).
    unfold describe.
    cbn [statistics.mean py_min py_max bind]. rewrite Hm. cbn [bind].
    destruct xs as [| y ys].
    + eexists. split; [reflexivity |].
      repeat split; simpl; intros; try reflexivity; try discriminate; lia.
    + destruct (stdev_sample sqrt (x :: y :: ys)) as (variance & Hsd & Hvar);
        [simpl; lia |].
      replace (1 <? List.length (x :: y :: ys))%nat with true by reflexivity.
      rewrite Hsd. cbn [bind].
      eexists. split; [reflexivity |].
      split; [discriminate |].
      split; [simpl; intros; lia |].
      split.
      * intros _. exists variance. split; [reflexivity | exact Hvar].
      * intros _ H. cbn [st_median]. apply Heven; exact H.
Qed.

Lemma mapM_total {A B : Type} (f : A -> result B) (l : list A) :
  (forall a, In a l -> exists b, f a = Ok b) ->
  exists bs, mapM f l = Ok bs.
Proof.
  induction l as [| a l IH]; intros H; simpl.
  - exists []; reflexivity.
  - destruct (H a (or_introl eq_refl)) as (b & Hb).
    destruct IH as (bs & Hbs); [intros a' Ha'; apply H; right; exact Ha' |].
    rewrite Hb, Hbs. eexists; reflexivity.
Qed.

Lemma stats_get_block (es : list TimingInfo) (names : list string)
  (stats : list (string * StatBlock)) (p : string) :
  mapM (fun phase => block <- phase_block sqrt phase es ;; Ok (phase, block)) names
  = Ok stats ->
  In p names ->
  exists block, stats_get stats p = Some block /\ phase_block sqrt p es = Ok block.
Proof.
  revert stats; induction names as [| name names IH]; intros stats H Hp.
  - contradiction.
  - simpl in H. bind_inv H. bind_inv H. injection H as <-.
    bind_inv Ha. injection Ha as <-. rename a1 into block.
    simpl. destruct (String.eqb_spec name p) as [-> | Hneq].
    + exists block. split; [reflexivity | assumption].
    + destruct Hp as [Heq | Hp]; [contradiction |].
      apply IH; assumption.
Qed.


End Describe.



Example statistics_of_three :
  exists stats block,
    calculate_statistics (fun q => q) three_requests = Ok stats /\
    stats_get stats "total_time" = Some block /\
    st_count block = 3 /\ (st_total block == 220)%Q /\
    (st_average block == 220 # 3)%Q /\ (st_median block == 50)%Q /\
    (st_min block == 20)%Q /\ (st_max block == 150)%Q.
Proof.
  eexists. eexists. split; [reflexivity |]. split; [reflexivity |].
  repeat split.
Qed.

(** ** Fatal errors *)

Section Process.

Variable sqrt : Q -> Q.
Variable float_repr : Q -> string.
Variable path_str : string -> string.

Lemma load_har_all_or_nothing (self : HARAnalyzer) (w : world)
  (out : list event) (har_data : value) :
  load_har self w = (out, Ok har_data) ->
  out = [] /\
  exists doc, files w (har_file_path self) = Holds doc /\ har_data = json_load doc.
Proof.
  unfold load_har.
  destruct (files w (har_file_path self)) as [| | msg | doc]; simpl; intros H;
    try discriminate.
  injection H as <- <-. split; [reflexivity |]. exists doc. split; reflexivity.
Qed.




End Process.


Example main_usage :
  main (fun q => q) (fun _ => "") (fun p => p) ["har_analyzer.py"]
    (disk "session.har" capture_without_entries)
  = (usage, SysExit 1).
Proof. reflexivity. Qed.

Example main_log_not_an_object :
  main (fun q => q) (fun _ => "") (fun p => p) ["har_analyzer.py"; "session.har"]
    (disk "session.har" (JObj [("log", JInt 5)]))
  = ([], Raise TypeError).
Proof. reflexivity. Qed.


Example main_not_json :
  main (fun q => q) (fun _ => "") (fun p => p) ["har_analyzer.py"; "notes.txt"]
    {| files := fun _ => NotJson "Expecting value: line 1 column 1 (char 0)";
       writable := fun _ => true |}
  = ([Print "Error: Invalid JSON in HAR file: Expecting value: line 1 column 1 (char 0)"],
     SysExit 1).
Proof. reflexivity. Qed.

(** ** The export and its re-parsing *)

Lemma int_str_parse (z : Z) :
  NilZero.int_of_string (int_str z) = Some (Z.to_int z).
Proof.
  unfold int_str. apply NilZero.isi; destruct z; simpl; try discriminate;
    intros H; injection H as H; exact (DecimalPos.Unsigned.to_uint_nonnil _ H).
Qed.

Lemma int_str_inj (a b : Z) : int_str a = int_str b -> a = b.
Proof.
  intros H. apply DecimalZ.to_int_inj.
  pose proof (int_str_parse a) as Ha. rewrite H, int_str_parse in Ha. congruence.
Qed.

Lemma dict_lookup_members (ms : list (string * value)) (k : string) :
  ~ In k (map fst ms) -> dict_lookup (members ms) (VStr k) = None.
Proof.
  induction ms as [| [k' v] ms IH]; simpl; intros H.
  - reflexivity.
  - change (py_eqb (VStr k') (VStr k)) with (String.eqb k' k).
    destruct (String.eqb_spec k' k) as [-> | _]; [tauto |].
    apply IH. tauto.
Qed.

Lemma dict_set_members (ms : list (string * value)) (k : string) (v : value) :
  ~ In k (map fst ms) ->
  dict_set (members ms) (VStr k) v = members (ms ++ [(k, v)]).
Proof.
  induction ms as [| [k' v'] ms IH]; simpl; intros H.
  - reflexivity.
  - change (py_eqb (VStr k') (VStr k)) with (String.eqb k' k).
    destruct (String.eqb_spec k' k) as [-> | _]; [tauto |].
    unfold members in IH |- *. rewrite IH by tauto. reflexivity.
Qed.

Lemma fold_left_dict_set {J : Type} (g : J -> value) (m : list (string * J))
  (acc : list (string * value)) :
  NoDup (map fst acc ++ map fst m) ->
  fold_left (fun d kv => dict_set d (VStr (fst kv)) (g (snd kv))) m (members acc)
  = members (acc ++ map (fun kv => (fst kv, g (snd kv))) m).
Proof.
  revert acc; induction m as [| [k j] m IH]; intros acc Hnd; simpl.
  - rewrite app_nil_r. reflexivity.
  - rewrite dict_set_members.
    + rewrite IH.
      * rewrite <- app_assoc. reflexivity.
      * rewrite map_app. simpl. rewrite <- app_assoc. exact Hnd.
    + simpl in Hnd. apply NoDup_remove_2 in Hnd.
      intros Hin. apply Hnd. apply in_or_app; left; exact Hin.
Qed.

(** Re-parsing an object whose member names are distinct keeps every
    member in its place. *)
Lemma json_load_object (m : list (string * json)) :
  NoDup (map fst m) ->
  json_load (JObj m) = VDict (members (map (fun kv => (fst kv, json_load (snd kv))) m)).
Proof.
  intros Hnd. simpl. f_equal.
  apply (fold_left_dict_set json_load m []). exact Hnd.
Qed.

Section ExportDocument.

Variable sqrt : Q -> Q.
Variable float_repr : Q -> string.

Lemma calculate_statistics_total (self : HARAnalyzer) :
  forallb numeric_durations (entries self) = true ->
  exists stats, calculate_statistics sqrt self = Ok stats.
Proof.
  intros Hnum. unfold calculate_statistics.
  destruct (entries self) as [| e es] eqn:E; [exists []; reflexivity |].
  apply mapM_total. intros q Hq.
  destruct (phase_values_numeric q _ Hq Hnum) as (vs & Hvs & _).
  destruct (describe_Ok sqrt vs) as (b & Hb & _).
  unfold phase_block. rewrite Hvs; simpl. rewrite Hb; simpl.
  eexists; reflexivity.
Qed.

Lemma get_requests_by_status_int (self : HARAnalyzer) :
  forallb is_int (map status (entries self)) = true ->
  exists hz : int_dict,
    get_requests_by_status self = Ok (embed hz) /\ NoDup (map fst hz).
Proof.
  intros Hint.
  destruct (int_statuses _ Hint) as (zs & Hzs).
  destruct (tally_spec zs [] (NoDup_nil Z)) as (Hnd & _).
  exists (stable_sort key_ltb (tally zs [])). split.
  - unfold get_requests_by_status.
    change (@nil (value * Z)) with (embed []).
    rewrite (count_statuses_embed _ zs [] Hzs). simpl.
    apply py_sorted_embed.
  - apply (Permutation_NoDup
             (Permutation_map fst (stable_sort_perm key_ltb (tally zs [])))).
    exact Hnd.
Qed.

Lemma json_dump_stats (stats : list (string * StatBlock)) :
  exists j,
    json_dump float_repr
      (VDict (map (fun pb => (VStr (fst pb), block_value (snd pb))) stats)) = Ok j.
Proof.
  assert (H : exists ms,
            mapM (fun kv => k <- key_str float_repr (fst kv) ;;
                            j <- json_dump float_repr (snd kv) ;; Ok (k, j))
                 (map (fun pb => (VStr (fst pb), block_value (snd pb))) stats) = Ok ms).
  { induction stats as [| [name block] stats IH].
    - exists []; reflexivity.
    - destruct IH as (ms & Hms). simpl. simpl in Hms. rewrite Hms.
      eexists; reflexivity. }
  destruct H as (ms & Hms). exists (JObj ms). simpl. simpl in Hms.
  rewrite Hms. reflexivity.
Qed.

Lemma json_dump_status_counts (hz : int_dict) :
  json_dump float_repr (status_distribution_value (embed hz))
  = Ok (JObj (map (fun zc => (int_str (fst zc), JInt (snd zc))) hz)).
Proof.
  unfold status_distribution_value, embed. rewrite map_map. simpl.
  assert (H : mapM (fun kv => k <- key_str float_repr (fst kv) ;;
                              j <- json_dump float_repr (snd kv) ;; Ok (k, j))
                (map (fun x : Z * Z => (VInt (fst x), VInt (snd x))) hz)
              = Ok (map (fun zc => (int_str (fst zc), JInt (snd zc))) hz)).
  { induction hz as [| [z c] hz IH]; simpl.
    - reflexivity.
    - simpl in IH. rewrite IH. reflexivity. }
  simpl in H. rewrite H. reflexivity.
Qed.

Lemma json_load_status_counts (hz : int_dict) :
  NoDup (map fst hz) ->
  json_load (JObj (map (fun zc => (int_str (fst zc), JInt (snd zc))) hz))
  = VDict (map (fun zc => (VStr (int_str (fst zc)), VInt (snd zc))) hz).
Proof.
  intros Hnd. rewrite json_load_object.
  - unfold members. rewrite !map_map. reflexivity.
  - rewrite map_map. simpl.
    rewrite <- (map_map fst int_str).
    apply Finite.Injective_map_NoDup; [| exact Hnd].
    intros a b. apply int_str_inj.
Qed.

Lemma json_dump_number (v : value) :
  is_number v = true ->
  exists j, json_dump float_repr v = Ok j /\ json_load j = v.
Proof.
  destruct v; try discriminate; intros _; eexists; split; reflexivity.
Qed.

Lemma json_dump_slowest_value (e : TimingInfo) :
  typed_record e = true ->
  exists j, json_dump float_repr (slowest_value e) = Ok j /\
            json_load j = slowest_value e.
Proof.
  intros He. unfold typed_record in He.
  apply andb_prop in He; destruct He as [He Hnum].
  apply andb_prop in He; destruct He as [He Hstatus].
  apply andb_prop in He; destruct He as [Hurl Hmethod].
  assert (Htime : is_number (total_time e) = true).
  { unfold numeric_durations in Hnum. rewrite forallb_forall in Hnum.
    apply Hnum. simpl; tauto. }
  destruct (json_dump_number _ Htime) as (jt & Hjt & Hjt').
  unfold slowest_value.
  destruct (url e) as [| | | | u | |]; try discriminate.
  destruct (method e) as [| | | | m | |]; try discriminate.
  destruct (status e) as [| | z | | | |]; try discriminate.
  simpl. rewrite Hjt. simpl.
  eexists. split; [reflexivity |].
  simpl. rewrite Hjt'. reflexivity.
Qed.

Lemma json_dump_slowest (l : list TimingInfo) :
  forallb typed_record l = true ->
  exists js,
    mapM (json_dump float_repr) (map slowest_value l) = Ok js /\
    map json_load js = map slowest_value l.
Proof.
  induction l as [| e l IH]; cbn [forallb map mapM]; intros H.
  - exists []. split; reflexivity.
  - apply andb_prop in H; destruct H as [He Hl].
    destruct (IH Hl) as (js & Hjs & Hload).
    destruct (json_dump_slowest_value e He) as (j & Hj & Hj').
    rewrite Hj, Hjs. cbn [bind].
    exists (j :: js). split; [reflexivity |].
    cbn [map]. rewrite Hj', Hload. reflexivity.
Qed.

End ExportDocument.

Lemma typed_records (es : list TimingInfo) :
  forallb typed_record es = true ->
  forallb numeric_durations es = true /\
  forallb is_int (map status es) = true /\
  forallb is_number (map total_time es) = true.
Proof.
  induction es as [| e es IH]; simpl; intros H.
  - repeat split.
  - apply andb_prop in H; destruct H as [He Hes].
    destruct (IH Hes) as (H1 & H2 & H3). rewrite H1, H2, H3.
    unfold typed_record in He.
    apply andb_prop in He; destruct He as [He Hnum].
    apply andb_prop in He; destruct He as [_ Hstatus].
    rewrite Hnum, Hstatus.
    unfold numeric_durations in Hnum. simpl in Hnum.
    apply andb_prop in Hnum; destruct Hnum as [-> _].
    repeat split.
Qed.

Lemma forallb_firstn {A : Type} (f : A -> bool) (k : nat) (l : list A) :
  forallb f l = true -> forallb f (firstn k l) = true.
Proof.
  rewrite !forallb_forall. intros H x Hx. apply H.
  rewrite <- (firstn_skipn k l). apply in_or_app; left; exact Hx.
Qed.

Lemma forallb_perm {A : Type} (f : A -> bool) (l l' : list A) :
  Permutation l l' -> forallb f l = true -> forallb f l' = true.
Proof.
  rewrite !forallb_forall. intros Hp H x Hx. apply H.
  apply (Permutation_in _ (Permutation_sym Hp)); exact Hx.
Qed.

(** C4, as amended: for a session whose records hold values of the
    declared types and a writable destination, [export_to_json] writes one
    document; re-parsing it gives back the number of records under
    [total_requests] and, under [slowest_requests], the ten slowest
    requests with their url, method, status and total time, in order.
    Under [status_distribution] it gives the histogram in the same order
    and with the same counts, but with every key turned into the decimal
    text of the status (from which the status can be read back). *)
Theorem export_round_trip (sqrt : Q -> Q) (float_repr : Q -> string)
  (self : HARAnalyzer) (w : world) (output_file : string) :
  forallb typed_record (entries self) = true ->
  writable w output_file = true ->
  exists (doc : json) (status_counts : int_dict) (slowest : list TimingInfo)
         (summary : dict value),
    export_to_json sqrt float_repr self w output_file
    = ([WriteFile output_file doc; Print ("Analysis exported to: " ++ output_file)],
       Ok tt) /\
    get_requests_by_status self = Ok (embed status_counts) /\
    get_slowest_requests self 10 = Ok slowest /\
    py_getitem (json_load doc) "summary" = Ok (VDict summary) /\
    dict_lookup summary (VStr "total_requests")
    = Some (VInt (Z.of_nat (List.length (entries self)))) /\
    dict_lookup summary (VStr "status_distribution")
    = Some (VDict (map (fun zc => (VStr (int_str (fst zc)), VInt (snd zc)))
                       status_counts)) /\
    (forall z, option_map Z.of_int (NilZero.int_of_string (int_str z)) = Some z) /\
    py_getitem (json_load doc) "slowest_requests"
    = Ok (VList (map slowest_value slowest)).
Proof.
  intros Htyped Hw.
  destruct (typed_records _ Htyped) as (Hnum & Hint & Htime).
  destruct (calculate_statistics_total sqrt self Hnum) as (stats & Hstats).
  destruct (get_requests_by_status_int self Hint) as (hz & Hhist & Hnd).
  set (slowest := py_slice_to (stable_sort slower (entries self)) 10).
  assert (Hslowest : get_slowest_requests self 10 = Ok slowest).
  { unfold get_slowest_requests. rewrite (py_sorted_numeric _ Htime). reflexivity. }
  assert (Htyped' : forallb typed_record slowest = true).
  { destruct (py_slice_to_firstn (stable_sort slower (entries self)) 10) as (k & Hk).
    unfold slowest. rewrite Hk. apply forallb_firstn.
    apply (forallb_perm _ _ _ (stable_sort_perm slower (entries self))).
    exact Htyped. }
  destruct (json_dump_stats float_repr stats) as (jstats & Hjstats).
  destruct (json_dump_slowest float_repr slowest Htyped') as (js & Hjs & Hload).
  pose proof (json_dump_status_counts float_repr hz) as Hjcounts.
  remember (JObj (map (fun zc => (int_str (fst zc), JInt (snd zc))) hz)) as jcounts
    eqn:Ejcounts.
  exists (JObj [("summary",
                 JObj [("source_file", JStr (har_file_path self));
                       ("total_requests", JInt (Z.of_nat (List.length (entries self))));
                       ("status_distribution", jcounts)]);
                ("timing_statistics", jstats);
                ("slowest_requests", JArr js)]),
         hz, slowest,
         [(VStr "source_file", VStr (har_file_path self));
          (VStr "total_requests", VInt (Z.of_nat (List.length (entries self))));
          (VStr "status_distribution", json_load jcounts)].
  split; [| split; [exact Hhist | split; [exact Hslowest |]]].
  - assert (Hdump : json_dump float_repr (output_data self stats slowest (embed hz))
                    = Ok (JObj [("summary",
                                 JObj [("source_file", JStr (har_file_path self));
                                       ("total_requests",
                                        JInt (Z.of_nat (List.length (entries self))));
                                       ("status_distribution", jcounts)]);
                                ("timing_statistics", jstats);
                                ("slowest_requests", JArr js)])).
    { unfold output_data.
      remember (status_distribution_value (embed hz)) as counts.
      remember (VDict (map (fun pb => (VStr (fst pb), block_value (snd pb))) stats))
        as vstats.
      remember (map slowest_value slowest) as vslowest.
      simpl. rewrite Hjcounts. simpl. rewrite Hjstats. simpl. rewrite Hjs.
      reflexivity. }
    unfold export_to_json. rewrite Hstats, Hslowest, Hhist.
    unfold lift, io_bind. rewrite Hw, Hdump. reflexivity.
  - split; [reflexivity |]. split; [reflexivity |]. split; [| split].
    + simpl dict_lookup. rewrite Ejcounts.
      rewrite (json_load_status_counts hz Hnd). reflexivity.
    + intros z. rewrite int_str_parse. simpl. rewrite DecimalZ.of_to. reflexivity.
    + simpl. rewrite Hload. reflexivity.
Qed.

Lemma export_round_trip_witness :
  let w := disk "session.har" (capture two_entries) in
  (forallb typed_record (entries three_requests) = true /\
   writable w "summary.json" = true) /\
  exists (doc : json) (status_counts : int_dict) (slowest : list TimingInfo)
         (summary : dict value),
    export_to_json (fun q => q) (fun _ => "") three_requests w "summary.json"
    = ([WriteFile "summary.json" doc; Print ("Analysis exported to: " ++ "summary.json")],
       Ok tt) /\
    get_requests_by_status three_requests = Ok (embed status_counts) /\
    get_slowest_requests three_requests 10 = Ok slowest /\
    py_getitem (json_load doc) "summary" = Ok (VDict summary) /\
    dict_lookup summary (VStr "total_requests")
    = Some (VInt (Z.of_nat (List.length (entries three_requests)))) /\
    dict_lookup summary (VStr "status_distribution")
    = Some (VDict (map (fun zc => (VStr (int_str (fst zc)), VInt (snd zc)))
                       status_counts)) /\
    (forall z, option_map Z.of_int (NilZero.int_of_string (int_str z)) = Some z) /\
    py_getitem (json_load doc) "slowest_requests"
    = Ok (VList (map slowest_value slowest)).
Proof.
  intros w. split.
  - split; reflexivity.
  - apply (export_round_trip (fun q => q) (fun _ => "") three_requests w "summary.json");
      reflexivity.
Defined.

(** C4, as stated, fails on the status distribution: the export of the
    three requests holds the statuses as the texts "200" and "404", so the
    re-parsed distribution is not the histogram computed in memory, whose
    keys are the integers 200 and 404, and looking up 200 in it finds
    nothing. *)
Lemma export_status_keys_become_text :
  exists (doc : json) (summary : dict value),
    export_to_json (fun q => q) (fun _ => "") three_requests
      (disk "session.har" (capture two_entries)) "summary.json"
    = ([WriteFile "summary.json" doc; Print "Analysis exported to: summary.json"],
       Ok tt) /\
    get_requests_by_status three_requests = Ok [(VInt 200, 2); (VInt 404, 1)] /\
    py_getitem (json_load doc) "summary" = Ok (VDict summary) /\
    dict_lookup summary (VStr "status_distribution")
    = Some (VDict [(VStr "200", VInt 2); (VStr "404", VInt 1)]) /\
    VDict [(VStr "200", VInt 2); (VStr "404", VInt 1)]
    <> status_distribution_value [(VInt 200, 2); (VInt 404, 1)] /\
    py_eqb (VStr "200") (VInt 200) = false /\
    dict_lookup [(VStr "200", VInt 2); (VStr "404", VInt 1)] (VInt 200) = None.
Proof.
  eexists. eexists.
  split; [vm_compute; reflexivity |].
  split; [reflexivity |].
  split; [vm_compute; reflexivity |].
  split; [reflexivity |].
  split; [discriminate |].
  split; reflexivity.
Qed.

(** ** Clamped phases in the statistics *)

Lemma fold_left_Qmin_spec (xs : list Q) (x : Q) :
  In (fold_left Qmin xs x) (x :: xs) /\
  forall y, In y (x :: xs) -> (fold_left Qmin xs x <= y)%Q.
Proof.
  revert x; induction xs as [| z xs IH]; intros x; simpl.
  - split; [left; reflexivity |]. intros y [<- | []]. apply Qle_refl.
  - destruct (IH (Qmin x z)) as (Hin & Hle). split.
    + destruct Hin as [Heq | Hin]; [| right; right; exact Hin].
      rewrite <- Heq. unfold Qmin, GenericMinMax.gmin.
      destruct (x ?= z)%Q; [left | left | right; left]; reflexivity.
    + intros y [<- | [<- | Hy]].
      * apply Qle_trans with (Qmin x z); [apply Hle; left; reflexivity | apply Q.le_min_l].
      * apply Qle_trans with (Qmin x z); [apply Hle; left; reflexivity | apply Q.le_min_r].
      * apply Hle. right; exact Hy.
Qed.

Lemma fold_left_Qmax_spec (xs : list Q) (x : Q) :
  In (fold_left Qmax xs x) (x :: xs) /\
  forall y, In y (x :: xs) -> (y <= fold_left Qmax xs x)%Q.
Proof.
  revert x; induction xs as [| z xs IH]; intros x; simpl.
  - split; [left; reflexivity |]. intros y [<- | []]. apply Qle_refl.
  - destruct (IH (Qmax x z)) as (Hin & Hle). split.
    + destruct Hin as [Heq | Hin]; [| right; right; exact Hin].
      rewrite <- Heq. unfold Qmax, GenericMinMax.gmax.
      destruct (x ?= z)%Q; [left | right; left | left]; reflexivity.
    + intros y [<- | [<- | Hy]].
      * apply Qle_trans with (Qmax x z); [apply Q.le_max_l | apply Hle; left; reflexivity].
      * apply Qle_trans with (Qmax x z); [apply Q.le_max_r | apply Hle; left; reflexivity].
      * apply Hle. right; exact Hy.
Qed.

Lemma describe_count (sqrt : Q -> Q) (values : list Q) :
  exists block,
    describe sqrt values = Ok block /\
    st_count block = Z.of_nat (List.length values).
Proof.
  destruct (describe_Ok sqrt values) as (block & Hblock & Hzero & _).
  exists block. split; [exact Hblock |].
  destruct values as [| x xs]; [rewrite (Hzero eq_refl); reflexivity |].
  unfold describe in Hblock.
  cbn [statistics.mean py_min py_max bind] in Hblock.
  destruct (statistics.median (x :: xs)) as [m | c | e];
    cbn [bind] in Hblock; try discriminate.
  destruct (if (1 <? List.length (x :: xs))%nat
            then statistics.stdev sqrt (x :: xs) else Ok 0%Q) as [sd | c | e];
    cbn [bind] in Hblock; try discriminate.
  injection Hblock as <-. reflexivity.
Qed.

Lemma describe_extent (sqrt : Q -> Q) (x : Q) (xs : list Q) (block : StatBlock) :
  describe sqrt (x :: xs) = Ok block ->
  st_min block = fold_left Qmin xs x /\
  st_max block = fold_left Qmax xs x /\
  statistics.median (x :: xs) = Ok (st_median block).
Proof.
  intros Hblock. unfold describe in Hblock.
  cbn [statistics.mean py_min py_max bind] in Hblock.
  destruct (statistics.median (x :: xs)) as [m | c | e];
    cbn [bind] in Hblock; try discriminate.
  destruct (if (1 <? List.length (x :: xs))%nat
            then statistics.stdev sqrt (x :: xs) else Ok 0%Q) as [sd | c | e];
    cbn [bind] in Hblock; try discriminate.
  injection Hblock as <-. repeat split.
Qed.

Lemma describe_bounds (sqrt : Q -> Q) (values : list Q) (block : StatBlock) :
  values <> [] ->
  describe sqrt values = Ok block ->
  In (st_min block) values /\
  In (st_max block) values /\
  (forall y, In y values -> st_min block <= y <= st_max block)%Q.
Proof.
  intros Hne Hblock. destruct values as [| x xs]; [contradiction |].
  destruct (describe_extent sqrt x xs block Hblock) as (-> & -> & _).
  destruct (fold_left_Qmin_spec xs x) as (Hmin_in & Hmin_le).
  destruct (fold_left_Qmax_spec xs x) as (Hmax_in & Hmax_le).
  split; [exact Hmin_in |]. split; [exact Hmax_in |].
  intros y Hy. split; [apply Hmin_le | apply Hmax_le]; exact Hy.
Qed.

(** The block [calculate_statistics] stores under a quantity is the block
    of that quantity. *)
Lemma phase_block_in_statistics (sqrt : Q -> Q) (es : list TimingInfo) (p : string)
  (block : StatBlock) (path : string) (stats : list (string * StatBlock)) :
  In p timing_phases ->
  es <> [] ->
  phase_block sqrt p es = Ok block ->
  calculate_statistics sqrt {| har_file_path := path; entries := es |} = Ok stats ->
  stats_get stats p = Some block.
Proof.
  intros Hp Hne Hblock Hstats.
  unfold calculate_statistics in Hstats. cbn [entries] in Hstats.
  destruct es as [| e es]; [contradiction |].
  destruct (stats_get_block sqrt (e :: es) timing_phases stats p Hstats Hp)
    as (block' & Hget & Hblock').
  rewrite Hblock in Hblock'. injection Hblock' as <-. exact Hget.
Qed.

(** C1: in every extracted record each of the seven phase fields holds
    [max(0, timings.get(phase, 0))]: the larger of 0 and the source value,
    the [int] 0 when the field is absent and when the source holds the
    sentinel -1.  A record whose phase value is 0 is left out of that
    phase's statistics: the block of the phase, also as
    [calculate_statistics] returns it, is the block of the other records
    and counts their qualifying values only.  For every quantity in which
    the same record holds a value above zero it is counted: the block of
    that quantity counts one value more than the block of the other
    records, and the record's value lies between its minimum and its
    maximum. *)
Theorem extracted_phase_clamped_and_filtered
  (sqrt : Q -> Q) (entry : value) (r : TimingInfo) (p : string) :
  extract_entry entry = Ok r ->
  In p phase_fields ->
  exists timings raw v,
    py_get entry "timings" (VDict []) = Ok timings /\
    py_get timings p (VInt 0) = Ok raw /\
    py_max0 raw = Ok v /\
    getattr r p = Ok v /\
    (num_of v == Qmax 0 (num_of raw))%Q /\
    (py_in p timings = Ok false -> v = VInt 0) /\
    (raw = VInt (-1) -> v = VInt 0) /\
    (v = VInt 0 ->
     forall l1 l2,
       phase_values p (l1 ++ r :: l2) = phase_values p (l1 ++ l2) /\
       phase_block sqrt p (l1 ++ r :: l2) = phase_block sqrt p (l1 ++ l2) /\
       (forall values, phase_values p (l1 ++ l2) = Ok values ->
          exists block,
            phase_block sqrt p (l1 ++ r :: l2) = Ok block /\
            st_count block = Z.of_nat (List.length values) /\
            (forall path stats,
               calculate_statistics sqrt
                 {| har_file_path := path; entries := (l1 ++ r :: l2)%list |} = Ok stats ->
               stats_get stats p = Some block) /\
            (forallb numeric_durations (l1 ++ r :: l2) = true ->
             forall path, exists stats,
               calculate_statistics sqrt
                 {| har_file_path := path; entries := (l1 ++ r :: l2)%list |} = Ok stats /\
               stats_get stats p = Some block))) /\
    (forall q w, getattr r q = Ok w -> py_gt0 w = Ok true ->
     forall l1 l2 a b,
       phase_values q l1 = Ok a -> phase_values q l2 = Ok b ->
       phase_values q (l1 ++ r :: l2) = Ok (a ++ num_of w :: b)%list /\
       exists others block,
         phase_block sqrt q (l1 ++ l2) = Ok others /\
         phase_block sqrt q (l1 ++ r :: l2) = Ok block /\
         st_count others = Z.of_nat (List.length a + List.length b) /\
         st_count block = st_count others + 1 /\
         (st_min block <= num_of w <= st_max block)%Q /\
         (In q timing_phases ->
          forall path stats,
            calculate_statistics sqrt
              {| har_file_path := path; entries := (l1 ++ r :: l2)%list |} = Ok stats ->
            stats_get stats q = Some block) /\
         (In q timing_phases ->
          forallb numeric_durations (l1 ++ r :: l2) = true ->
          forall path, exists stats,
            calculate_statistics sqrt
              {| har_file_path := path; entries := (l1 ++ r :: l2)%list |} = Ok stats /\
            stats_get stats q = Some block)).
Proof.
  intros Hr Hp.
  destruct (extract_entry_Ok entry r Hr)
    as (request & response & timings & _ & _ & Ht & _ & _ & _ & _ & Hphases).
  destruct (Hphases p Hp) as (v & Hget & Hattr).
  unfold get_timing in Hget. bind_inv Hget. rename a into raw.
  exists timings, raw, v.
  destruct (py_max0_spec raw v Hget) as (Hmax & Hzero & _).
  assert (Hne : forall l1 l2 : list TimingInfo, (l1 ++ r :: l2)%list <> []).
  { intros l1 l2 H. destruct l1; discriminate H. }
  repeat (split; [assumption |]).
  split; [| split; [| split]].
  - intros Hin. apply Hzero.
    unfold py_get in Ha. unfold py_in in Hin.
    destruct timings; try discriminate.
    destruct (dict_lookup d (VStr p)); [discriminate |].
    inversion Ha; subst. reflexivity.
  - intros ->. apply Hzero. reflexivity.
  - intros -> l1 l2.
    pose proof (phase_values_skip p r (VInt 0) l1 l2 Hattr eq_refl) as Hskip.
    split; [exact Hskip |].
    split; [unfold phase_block; rewrite Hskip; reflexivity |].
    intros values Hvalues.
    destruct (describe_count sqrt values) as (block & Hblock & Hcount).
    assert (Hp_block : phase_block sqrt p (l1 ++ r :: l2) = Ok block).
    { unfold phase_block. rewrite Hskip, Hvalues. exact Hblock. }
    exists block. split; [exact Hp_block |]. split; [exact Hcount |].
    split.
    + intros path stats.
      apply phase_block_in_statistics; [right; exact Hp | apply Hne | exact Hp_block].
    + intros Hnum path.
      destruct (calculate_statistics_total sqrt
                  {| har_file_path := path; entries := (l1 ++ r :: l2)%list |} Hnum)
        as (stats & Hstats).
      exists stats. split; [exact Hstats |].
      exact (phase_block_in_statistics sqrt _ p block path stats
               (or_intror Hp) (Hne l1 l2) Hp_block Hstats).
  - intros q w Hq Hw l1 l2 a b Hl1 Hl2.
    pose proof (phase_values_keep q r w l1 l2 a b Hq Hw Hl1 Hl2) as Hkeep.
    split; [exact Hkeep |].
    destruct (describe_count sqrt (a ++ b)) as (others & Hothers & Hcount_others).
    destruct (describe_count sqrt (a ++ num_of w :: b)) as (block & Hblock & Hcount).
    assert (Hq_block : phase_block sqrt q (l1 ++ r :: l2) = Ok block).
    { unfold phase_block. rewrite Hkeep. exact Hblock. }
    exists others, block.
    split; [unfold phase_block; rewrite phase_values_app, Hl1, Hl2; exact Hothers |].
    split; [exact Hq_block |].
    split; [rewrite Hcount_others, length_app; reflexivity |].
    split; [rewrite Hcount, Hcount_others, !length_app; simpl; lia |].
    split.
    + assert (Hvalues : (a ++ num_of w :: b)%list <> []).
      { intros H. destruct a; discriminate H. }
      destruct (describe_bounds sqrt _ block Hvalues Hblock) as (_ & _ & Hbounds).
      apply Hbounds. apply in_or_app; right; left; reflexivity.
    + split.
      * intros Hin path stats.
        apply phase_block_in_statistics; [exact Hin | apply Hne | exact Hq_block].
      * intros Hin Hnum path.
        destruct (calculate_statistics_total sqrt
                    {| har_file_path := path; entries := (l1 ++ r :: l2)%list |} Hnum)
          as (stats & Hstats).
        exists stats. split; [exact Hstats |].
        exact (phase_block_in_statistics sqrt _ q block path stats
                 Hin (Hne l1 l2) Hq_block Hstats).
Qed.

(** In a session of three records the one whose DNS phase was the sentinel
    is left out of the [dns] block, which counts the one record with a DNS
    time, and is counted in the [wait] block with the two others. *)
Lemma extracted_phase_clamped_and_filtered_witness :
  let session := [request_200_50; record_dns_sentinel; request_404_20] in
  (extract_entry entry_dns_sentinel = Ok record_dns_sentinel /\ In "dns" phase_fields) /\
  getattr record_dns_sentinel "dns" = Ok (VInt 0) /\
  (exists block,
     phase_block (fun q => q) "dns" session = Ok block /\ st_count block = 1) /\
  (exists block stats,
     phase_block (fun q => q) "wait" session = Ok block /\ st_count block = 3 /\
     (st_min block <= 40 <= st_max block)%Q /\
     calculate_statistics (fun q => q)
       {| har_file_path := "session.har"; entries := session |} = Ok stats /\
     stats_get stats "wait" = Some block).
Proof.
  intros session.
  split; [split; [reflexivity | simpl; tauto] |].
  split; [reflexivity |].
  destruct (extracted_phase_clamped_and_filtered (fun q => q)
              entry_dns_sentinel record_dns_sentinel "dns" eq_refl)
    as (timings & raw & v & _ & _ & _ & Hattr & _ & _ & _ & Hskip & Hkeep);
    [simpl; tauto |].
  injection Hattr as <-.
  split.
  - destruct (Hskip eq_refl [request_200_50] [request_404_20])
      as (_ & _ & Hblock).
    destruct (Hblock [3%Q] eq_refl) as (block & Hb & Hcount & _).
    exists block. split; [exact Hb | exact Hcount].
  - destruct (Hkeep "wait" (VInt 40) eq_refl eq_refl
                [request_200_50] [request_404_20] [40%Q] [19%Q] eq_refl eq_refl)
      as (_ & others & block & _ & Hb & Hothers & Hcount & Hbounds & _ & Hstats).
    destruct (Hstats ltac:(simpl; tauto) eq_refl "session.har") as (stats & Hs & Hget).
    exists block, stats. split; [exact Hb |].
    split; [rewrite Hcount, Hothers; reflexivity |].
    split; [exact Hbounds |]. split; [exact Hs | exact Hget].
Defined.

(** ** The unclamped total time *)

(** For records whose total time is a number the ranking is a prefix of
    the records sorted by total time, largest first, and all of them when
    [n] is at least their number. *)
Lemma ranking_prefix (self : HARAnalyzer) (n : Z) :
  forallb is_number (map total_time (entries self)) = true ->
  exists k,
    get_slowest_requests self n
    = Ok (firstn k (stable_sort slower (entries self))) /\
    (Z.of_nat (List.length (entries self)) <= n ->
     firstn k (stable_sort slower (entries self))
     = stable_sort slower (entries self)).
Proof.
  intros Hnum. unfold get_slowest_requests.
  rewrite (py_sorted_numeric _ Hnum). cbn [bind].
  unfold py_slice_to.
  destruct (Z.leb_spec 0 n) as [Hn | Hn].
  - exists (Z.to_nat n). split; [reflexivity |].
    intros Hall. apply firstn_all2. rewrite stable_sort_length. lia.
  - eexists. split; [reflexivity |]. intros Hall. lia.
Qed.

(** C10: the total time of an extracted record is the [time] member of the
    entry as it stands (0 when the entry has none): it is not clamped, so
    a source value -1 is stored as -1.  A record with a negative total
    time is left out of the [total_time] values and of the [total_time]
    block, which counts the other records only.  In a session whose total
    times are numbers the ranking exists, holds every record when [n] is
    at least their number, and wherever the record stands in it, every
    record of the session with a total time of zero or more stands before
    it and only negative total times come after it. *)
Theorem total_time_verbatim_unclamped (entry : value) (r : TimingInfo) :
  extract_entry entry = Ok r ->
  py_get entry "time" (VInt 0) = Ok (total_time r) /\
  (forall d, entry = VDict d ->
     dict_lookup d (VStr "time") = Some (VInt (-1)) -> total_time r = VInt (-1)) /\
  (forall x, as_num (total_time r) = Some x -> (x < 0)%Q ->
     (forall l1 l2,
        phase_values "total_time" (l1 ++ r :: l2)
        = phase_values "total_time" (l1 ++ l2)) /\
     (forall sqrt l1 l2 values,
        phase_values "total_time" (l1 ++ l2) = Ok values ->
        exists block,
          phase_block sqrt "total_time" (l1 ++ r :: l2) = Ok block /\
          st_count block = Z.of_nat (List.length values) /\
          (forall path stats,
             calculate_statistics sqrt
               {| har_file_path := path; entries := (l1 ++ r :: l2)%list |} = Ok stats ->
             stats_get stats "total_time" = Some block)) /\
     (forall self n ranking before after,
        get_slowest_requests self n = Ok ranking ->
        ranking = (before ++ r :: after)%list ->
        forall e y, In e after -> as_num (total_time e) = Some y -> (y < 0)%Q) /\
     (forall self n,
        In r (entries self) ->
        forallb is_number (map total_time (entries self)) = true ->
        exists ranking,
          get_slowest_requests self n = Ok ranking /\
          (Z.of_nat (List.length (entries self)) <= n ->
           Permutation (entries self) ranking /\ In r ranking) /\
          (forall before after,
             ranking = (before ++ r :: after)%list ->
             (forall e, In e (entries self) ->
                (0 <= num_of (total_time e))%Q -> In e before) /\
             (forall e, In e after -> (num_of (total_time e) < 0)%Q)))).
Proof.
  intros Hr.
  destruct (extract_entry_Ok entry r Hr)
    as (request & response & timings & _ & _ & _ & _ & _ & _ & Htime & _).
  split; [exact Htime |]. split.
  - intros d -> Hd. simpl in Htime. rewrite Hd in Htime. congruence.
  - intros x Hx Hneg.
    assert (Hskip : forall l1 l2,
              phase_values "total_time" (l1 ++ r :: l2)
              = phase_values "total_time" (l1 ++ l2)).
    { intros l1 l2. apply phase_values_skip with (v := total_time r).
      - reflexivity.
      - apply py_gt0_false. exists x. split; [exact Hx |].
        apply Qlt_le_weak; exact Hneg. }
    split; [exact Hskip |]. split; [| split].
    + intros sqrt l1 l2 values Hvalues.
      destruct (describe_count sqrt values) as (block & Hblock & Hcount).
      assert (Hp_block : phase_block sqrt "total_time" (l1 ++ r :: l2) = Ok block).
      { unfold phase_block. rewrite Hskip, Hvalues. exact Hblock. }
      exists block. split; [exact Hp_block |]. split; [exact Hcount |].
      intros path stats.
      apply phase_block_in_statistics;
        [left; reflexivity | destruct l1; discriminate | exact Hp_block].
    + intros self n ranking before after Hrank Hsplit e y He Hy.
      apply Qle_lt_trans with x; [| exact Hneg].
      exact (ranking_after self n ranking before after r x Hrank Hsplit Hx e y He Hy).
    + intros self n Hin Hnum.
      destruct (ranking_prefix self n Hnum) as (k & Hrank & Hall).
      pose proof (stable_sort_perm slower (entries self)) as Hperm.
      pose proof (ranking_sorted _ Hnum) as Hsorted.
      set (ordered := stable_sort slower (entries self)) in *.
      exists (firstn k ordered). split; [exact Hrank |]. split.
      * intros Hn. rewrite (Hall Hn).
        split; [exact Hperm | apply (Permutation_in _ Hperm); exact Hin].
      * intros before after Hsplit.
        assert (Hordered : ordered = (before ++ r :: (after ++ skipn k ordered))%list).
        { rewrite <- (firstn_skipn k ordered) at 1. rewrite Hsplit.
          rewrite <- app_assoc. reflexivity. }
        rewrite Hordered in Hsorted.
        apply StronglySorted_after in Hsorted. rewrite Forall_forall in Hsorted.
        assert (Hr_time : num_of (total_time r) = x).
        { unfold num_of. rewrite Hx. reflexivity. }
        assert (Hafter : forall e, In e (after ++ skipn k ordered)%list ->
                           (num_of (total_time e) < 0)%Q).
        { intros e He. specialize (Hsorted e He).
          unfold slower_or_equal in Hsorted. rewrite Hr_time in Hsorted.
          apply Qle_lt_trans with x; assumption. }
        split.
        -- intros e He Hnonneg.
           apply (Permutation_in _ Hperm) in He. rewrite Hordered in He.
           apply in_app_or in He. destruct He as [He | [<- | He]].
           ++ exact He.
           ++ exfalso. rewrite Hr_time in Hnonneg.
              exact (Qlt_irrefl _ (Qle_lt_trans _ _ _ Hnonneg Hneg)).
           ++ exfalso. specialize (Hafter e He).
              exact (Qlt_irrefl _ (Qle_lt_trans _ _ _ Hnonneg Hafter)).
        -- intros e He. apply Hafter. apply in_or_app; left; exact He.
Qed.

(** A session of three records, the sentinel first: the ranking of ten
    holds all three, and the two records whose total time is not
    negative stand before the sentinel. *)
Lemma total_time_verbatim_unclamped_witness :
  let self := {| har_file_path := "session.har";
                 entries := [record_time_sentinel; blank_record; request_404_20] |} in
  extract_entry entry_time_sentinel = Ok record_time_sentinel /\
  total_time record_time_sentinel = VInt (-1) /\
  phase_values "total_time" (entries self) = Ok [20%Q] /\
  exists ranking,
    get_slowest_requests self 10 = Ok ranking /\
    In record_time_sentinel ranking /\
    (forall before after,
       ranking = (before ++ record_time_sentinel :: after)%list ->
       In blank_record before /\ In request_404_20 before).
Proof.
  intros self.
  split; [reflexivity |].
  destruct (total_time_verbatim_unclamped entry_time_sentinel record_time_sentinel
              eq_refl) as (_ & Hverbatim & Hneg).
  split; [apply (Hverbatim _ eq_refl); reflexivity |].
  split; [reflexivity |].
  destruct (Hneg (-1)%Q eq_refl) as (_ & _ & _ & Hrank); [reflexivity |].
  destruct (Hrank self 10) as (ranking & Hget & Hall & Hplace);
    [left; reflexivity | reflexivity |].
  exists ranking. split; [exact Hget |].
  split; [apply Hall; simpl; lia |].
  intros before after Hsplit.
  destruct (Hplace before after Hsplit) as (Hbefore & _).
  split; apply Hbefore; simpl; try tauto; discriminate.
Defined.

Example negative_total_time_ranked_last :
  get_slowest_requests
    {| har_file_path := "session.har";
       entries := [record_time_sentinel; blank_record; request_404_20] |} 10
  = Ok [request_404_20; blank_record; record_time_sentinel].
Proof. reflexivity. Qed.

(** * Further properties of the analyzer *)

(** ** What one entry can do to the extraction *)

Lemma bind_value_or_shape_error {A B : Type} (r : result A) (k : A -> result B) :
  value_or_shape_error r ->
  (forall a, value_or_shape_error (k a)) ->
  value_or_shape_error (bind r k).
Proof.
  destruct r as [a | c | e]; simpl; intros Hr Hk.
  - apply Hk.
  - contradiction.
  - exact Hr.
Qed.

Lemma py_get_value_or_shape_error (o : value) (name : string) (default : value) :
  value_or_shape_error (py_get o name default).
Proof. destruct o; exact I. Qed.

Lemma get_timing_value_or_shape_error (timings : value) (key : string) :
  value_or_shape_error (get_timing timings key).
Proof.
  unfold get_timing. apply bind_value_or_shape_error.
  - apply py_get_value_or_shape_error.
  - intros v. unfold py_max0, py_gt0. destruct (as_num v); exact I.
Qed.

Lemma extract_entry_value_or_shape_error (entry : value) :
  value_or_shape_error (extract_entry entry).
Proof.
  unfold extract_entry.
  repeat (apply bind_value_or_shape_error;
          [first [apply py_get_value_or_shape_error
                 | apply get_timing_value_or_shape_error] | intros ?]).
  exact I.
Qed.

(** X1: the loop body returns a record exactly for the well-formed
    entries; on any other entry it raises [AttributeError] or [TypeError]
    (it never exits and raises nothing else), and [AttributeError] when
    the entry is not an object at all. *)
Theorem extract_entry_outcomes (entry : value) :
  (well_formed_entry entry = true <-> exists r, extract_entry entry = Ok r) /\
  (well_formed_entry entry = false ->
   extract_entry entry = Raise AttributeError \/
   extract_entry entry = Raise TypeError) /\
  ((forall d, entry <> VDict d) -> extract_entry entry = Raise AttributeError).
Proof.
  split; [| split].
  - split.
    + intros H. destruct (extract_entry_well_formed entry H) as (r & Hr & _).
      exists r; exact Hr.
    + intros (r & Hr). exact (extract_entry_Ok_well_formed entry r Hr).
  - intros Hwf.
    pose proof (extract_entry_value_or_shape_error entry) as H.
    destruct (extract_entry entry) as [r | c | e] eqn:E.
    + apply extract_entry_Ok_well_formed in E. congruence.
    + contradiction.
    + destruct e; try contradiction; [left | right]; reflexivity.
  - intros Hd. destruct entry; try reflexivity.
    exfalso. exact (Hd d eq_refl).
Qed.

Lemma extract_entry_outcomes_witness :
  well_formed_entry entry_text_timing = false /\
  (extract_entry entry_text_timing = Raise AttributeError \/
   extract_entry entry_text_timing = Raise TypeError).
Proof.
  split; [reflexivity |].
  destruct (extract_entry_outcomes entry_text_timing) as (_ & H & _).
  apply H. reflexivity.
Defined.

Lemma extracted_phase_number (entry : value) (r : TimingInfo) (p : string) (v : value) :
  extract_entry entry = Ok r ->
  In p phase_fields ->
  getattr r p = Ok v ->
  is_number v = true /\ (0 <= num_of v)%Q /\ (v = VInt 0 \/ (0 < num_of v)%Q).
Proof.
  intros Hr Hp Hv.
  destruct (extract_entry_Ok entry r Hr)
    as (_ & _ & timings & _ & _ & _ & _ & _ & _ & _ & Hphases).
  destruct (Hphases p Hp) as (v' & Hget & Hattr).
  rewrite Hattr in Hv. injection Hv as ->.
  unfold get_timing in Hget. bind_inv Hget. rename a into raw.
  destruct (py_max0_spec raw v Hget) as (_ & Hzero & Hpos).
  unfold py_max0 in Hget. bind_inv Hget. clear Hget.
  destruct a.
  - rewrite (Hpos Ha0). apply py_gt0_true in Ha0.
    destruct Ha0 as (q & Hq & Hlt).
    unfold is_number, num_of. rewrite Hq.
    split; [reflexivity |]. split; [apply Qlt_le_weak; exact Hlt | right; exact Hlt].
  - rewrite (Hzero Ha0). split; [reflexivity |].
    split; [discriminate | left; reflexivity].
Qed.

(** X2: in every extracted record each of the seven phases is a number
    that is not negative: it is the [int] 0, or a value above zero. *)
Theorem extracted_phases_nonnegative (entry : value) (r : TimingInfo) :
  extract_entry entry = Ok r ->
  Forall (fun v => is_number v = true /\ (0 <= num_of v)%Q /\
                   (v = VInt 0 \/ (0 < num_of v)%Q))
         (phases r).
Proof.
  intros Hr.
  pose proof (extracted_phase_number entry r) as H.
  unfold phases.
  constructor; [apply (H "blocked"); [exact Hr | simpl; tauto | reflexivity] |].
  constructor; [apply (H "dns"); [exact Hr | simpl; tauto | reflexivity] |].
  constructor; [apply (H "connect"); [exact Hr | simpl; tauto | reflexivity] |].
  constructor; [apply (H "send"); [exact Hr | simpl; tauto | reflexivity] |].
  constructor; [apply (H "wait"); [exact Hr | simpl; tauto | reflexivity] |].
  constructor; [apply (H "receive"); [exact Hr | simpl; tauto | reflexivity] |].
  constructor; [apply (H "ssl"); [exact Hr | simpl; tauto | reflexivity] |].
  constructor.
Qed.

Lemma extracted_phases_nonnegative_witness :
  extract_entry entry_dns_sentinel = Ok record_dns_sentinel /\
  Forall (fun v => is_number v = true /\ (0 <= num_of v)%Q /\
                   (v = VInt 0 \/ (0 < num_of v)%Q))
         (phases record_dns_sentinel).
Proof.
  split; [reflexivity |].
  apply (extracted_phases_nonnegative entry_dns_sentinel). reflexivity.
Defined.

(** ** Extraction followed by the statistics *)





(** X4: a successful [extract_timings] prints nothing, keeps the path and
    appends the records of the document to those the analyzer already
    holds; it does not start from an empty list, so a second call on the
    same file holds every record of the document twice. *)
Theorem extract_timings_appends (self : HARAnalyzer) (w : world)
  (out : list event) (self' : HARAnalyzer) :
  extract_timings self w = (out, Ok self') ->
  out = [] /\
  har_file_path self' = har_file_path self /\
  exists doc records,
    files w (har_file_path self) = Holds doc /\
    extract_entries (json_load doc) = Ok records /\
    entries self' = (entries self ++ records)%list /\
    extract_timings self' w
    = ([], Ok {| har_file_path := har_file_path self;
                 entries := (entries self ++ records ++ records)%list |}).
Proof.
  unfold extract_timings, load_har at 1. intros H.
  destruct (files w (har_file_path self)) as [| | msg | doc] eqn:Efile;
    simpl in H; try discriminate.
  destruct (format_invalid (json_load doc)) as [[|] | c | e] eqn:Einvalid;
    simpl in H; try discriminate.
  destruct (extract_entries (json_load doc)) as [records | c | e] eqn:Erecords;
    simpl in H; try discriminate.
  injection H as <- <-. simpl.
  split; [reflexivity |]. split; [reflexivity |].
  exists doc, records. repeat split; try assumption.
  unfold load_har. simpl har_file_path. rewrite Efile. simpl.
  rewrite Einvalid. simpl. rewrite Erecords. simpl.
  rewrite <- app_assoc. reflexivity.
Qed.

Lemma extract_timings_appends_witness :
  let w := disk "session.har" (capture two_entries) in
  let self := HARAnalyzer_init (fun p => p) "session.har" in
  exists self',
    extract_timings self w = ([], Ok self') /\
    har_file_path self' = har_file_path self /\
    exists doc records,
      files w (har_file_path self) = Holds doc /\
      extract_entries (json_load doc) = Ok records /\
      entries self' = (entries self ++ records)%list /\
      extract_timings self' w
      = ([], Ok {| har_file_path := har_file_path self;
                   entries := (entries self ++ records ++ records)%list |}).
Proof.
  intros w self. eexists. split; [reflexivity |].
  apply (extract_timings_appends self w []). reflexivity.
Defined.

(** X5: whenever [calculate_statistics] returns for a session with
    records, the keys of its result are the eight quantity names in the
    fixed order of [timing_phases], and the block under each name is the
    one computed from the values of that quantity. *)
Theorem calculate_statistics_keys
  (sqrt : Q -> Q) (self : HARAnalyzer) (stats : list (string * StatBlock)) :
  entries self <> [] ->
  calculate_statistics sqrt self = Ok stats ->
  map fst stats = timing_phases /\
  (forall p block, In (p, block) stats -> phase_block sqrt p (entries self) = Ok block) /\
  (forall p, In p timing_phases ->
     exists block, stats_get stats p = Some block /\
                   phase_block sqrt p (entries self) = Ok block).
Proof.
  intros Hne H. unfold calculate_statistics in H.
  destruct (entries self) as [| e es] eqn:E; [contradiction |].
  pose proof H as Hmap. apply mapM_Ok_Forall2 in H.
  split; [| split].
  - clear Hmap. induction H as [| p pb names stats Hp _ IH]; simpl.
    + reflexivity.
    + bind_inv Hp. injection Hp as <-. simpl. rewrite IH. reflexivity.
  - clear Hmap. induction H as [| p pb names stats Hp _ IH]; simpl.
    + intros p block [].
    + intros q block [Heq | Hin].
      * bind_inv Hp. rewrite Heq in Hp. injection Hp as <- <-. exact Ha.
      * apply IH; exact Hin.
  - intros p Hp. exact (stats_get_block sqrt _ _ _ p Hmap Hp).
Qed.

Lemma calculate_statistics_keys_witness :
  exists stats,
    entries three_requests <> [] /\
    calculate_statistics (fun q => q) three_requests = Ok stats /\
    map fst stats = timing_phases.
Proof.
  eexists. split; [discriminate |]. split; [reflexivity |].
  eapply (calculate_statistics_keys (fun q => q) three_requests);
    [discriminate | reflexivity].
Defined.

(** ** Bounds of a statistics block *)

Lemma phase_values_positive (p : string) (es : list TimingInfo) (values : list Q) :
  phase_values p es = Ok values -> Forall (fun x => 0 < x)%Q values.
Proof.
  revert values; induction es as [| e es IH]; simpl; intros values H.
  - injection H as <-. constructor.
  - bind_inv H. bind_inv H. bind_inv H. injection H as <-.
    destruct a0.
    + constructor; [| apply IH; exact Ha1].
      apply py_gt0_true in Ha0. destruct Ha0 as (q & Hq & Hlt).
      unfold num_of. rewrite Hq. exact Hlt.
    + apply IH; exact Ha1.
Qed.

Lemma median_of_odd (data : list Q) (m : Q) :
  statistics.median data = Ok m ->
  (List.length data mod 2 = 1)%nat ->
  In m data.
Proof.
  intros Hm Hodd.
  assert (Hne : data <> []) by (intros ->; discriminate).
  destruct (median_middle data Hne) as (m' & Hm' & _ & Hmiddle).
  rewrite Hm in Hm'. injection Hm' as <-.
  rewrite (Hmiddle Hodd).
  apply (Permutation_in _ (Permutation_sym (stable_sort_perm Qltb data))).
  apply nth_In. rewrite stable_sort_length.
  apply Nat.div_lt; [destruct data; [contradiction | simpl; lia] | lia].
Qed.

(** X6: when a quantity has qualifying values, its block counts them (so
    its count is at least 1), its minimum and its maximum are two of the
    values and bound all of them, the minimum is above zero, and for an
    odd number of values the median is one of the values.  (The sum, the
    average and the median of an even number of values are results of
    arithmetic and are left out here.) *)
Theorem phase_block_bounds
  (sqrt : Q -> Q) (p : string) (es : list TimingInfo) (values : list Q) :
  phase_values p es = Ok values ->
  values <> [] ->
  exists block,
    phase_block sqrt p es = Ok block /\
    st_count block = Z.of_nat (List.length values) /\
    1 <= st_count block /\
    In (st_min block) values /\
    In (st_max block) values /\
    (forall x, In x values -> st_min block <= x <= st_max block)%Q /\
    (0 < st_min block)%Q /\
    ((List.length values mod 2 = 1)%nat -> In (st_median block) values).
Proof.
  intros Hvalues Hne.
  pose proof (phase_values_positive p es values Hvalues) as Hpos.
  rewrite Forall_forall in Hpos.
  destruct (describe_count sqrt values) as (block & Hblock & Hcount).
  destruct (describe_bounds sqrt values block Hne Hblock) as (Hmin & Hmax & Hbounds).
  exists block. unfold phase_block. rewrite Hvalues. cbn [bind].
  split; [exact Hblock |]. split; [exact Hcount |].
  split; [rewrite Hcount; destruct values; [contradiction | simpl; lia] |].
  split; [exact Hmin |]. split; [exact Hmax |]. split; [exact Hbounds |].
  split; [apply Hpos; exact Hmin |].
  intros Hodd. destruct values as [| x xs]; [contradiction |].
  destruct (describe_extent sqrt x xs block Hblock) as (_ & _ & Hmedian).
  exact (median_of_odd (x :: xs) _ Hmedian Hodd).
Qed.

Lemma phase_block_bounds_witness :
  exists values block,
    phase_values "wait" (entries three_requests) = Ok values /\
    values <> [] /\
    phase_block (fun q => q) "wait" (entries three_requests) = Ok block /\
    st_count block = 3 /\
    (0 < st_min block)%Q /\
    In (st_median block) values.
Proof.
  eexists.
  edestruct (phase_block_bounds (fun q => q) "wait" (entries three_requests))
    as (block & H1 & H2 & _ & _ & _ & _ & H3 & H4);
    [reflexivity | discriminate |].
  exists block. split; [reflexivity |]. split; [discriminate |].
  split; [exact H1 |]. split; [exact H2 |]. split; [exact H3 |].
  apply H4. reflexivity.
Defined.

(** ** What the ranking keeps and what it leaves out *)

Lemma StronglySorted_app_cross {A : Type} (R : A -> A -> Prop) (l1 l2 : list A) :
  StronglySorted R (l1 ++ l2) ->
  forall a b, In a l1 -> In b l2 -> R a b.
Proof.
  induction l1 as [| x l1 IH]; simpl; intros H a b Ha Hb.
  - contradiction.
  - inversion H as [| ? ? Hs Hx]; subst.
    destruct Ha as [<- | Ha].
    + rewrite Forall_forall in Hx. apply Hx. apply in_or_app; right; exact Hb.
    + apply IH; assumption.
Qed.

(** X7: for records whose total time is a number and any [n], negative
    ones included, [get_slowest_requests] splits the records: those it
    returns and those it leaves out together are all the records, no
    record left out is slower than a record returned, and the number
    returned is [min(n, number of records)] for [n >= 0] and
    [max(0, number of records + n)] for [n < 0]. *)
Theorem get_slowest_requests_split (self : HARAnalyzer) (n : Z) :
  forallb is_number (map total_time (entries self)) = true ->
  exists ranking rest,
    get_slowest_requests self n = Ok ranking /\
    Permutation (entries self) (ranking ++ rest) /\
    (forall a b, In a ranking -> In b rest -> slower_or_equal a b) /\
    Z.of_nat (List.length ranking)
    = (if (0 <=? n)%Z then Z.min n (Z.of_nat (List.length (entries self)))
       else Z.max 0 (Z.of_nat (List.length (entries self)) + n)).
Proof.
  intros Hnum.
  set (ordered := stable_sort slower (entries self)).
  assert (Hk : exists k, py_slice_to ordered n = firstn k ordered /\
                 Z.of_nat (List.length (firstn k ordered))
                 = (if (0 <=? n)%Z then Z.min n (Z.of_nat (List.length (entries self)))
                    else Z.max 0 (Z.of_nat (List.length (entries self)) + n))).
  { unfold py_slice_to.
    assert (Hlen : List.length ordered = List.length (entries self))
      by apply stable_sort_length.
    destruct (0 <=? n)%Z eqn:E; eexists; (split; [reflexivity |]);
      rewrite length_firstn, Hlen.
    - apply Z.leb_le in E. lia.
    - apply Z.leb_gt in E. lia. }
  destruct Hk as (k & Hslice & Hlen).
  exists (firstn k ordered), (skipn k ordered).
  split; [| split; [| split]].
  - unfold get_slowest_requests. rewrite (py_sorted_numeric _ Hnum). simpl.
    fold ordered. rewrite Hslice. reflexivity.
  - rewrite firstn_skipn. apply stable_sort_perm.
  - apply StronglySorted_app_cross. rewrite firstn_skipn.
    apply ranking_sorted; exact Hnum.
  - exact Hlen.
Qed.

Lemma get_slowest_requests_split_witness :
  forallb is_number (map total_time (entries three_requests)) = true /\
  exists ranking rest,
    get_slowest_requests three_requests (-2) = Ok ranking /\
    Permutation (entries three_requests) (ranking ++ rest) /\
    (forall a b, In a ranking -> In b rest -> slower_or_equal a b) /\
    Z.of_nat (List.length ranking)
    = (if (0 <=? -2)%Z then Z.min (-2) (Z.of_nat (List.length (entries three_requests)))
       else Z.max 0 (Z.of_nat (List.length (entries three_requests)) + -2)).
Proof.
  split; [reflexivity |].
  apply (get_slowest_requests_split three_requests (-2)). reflexivity.
Defined.

(** ** Looking statuses up, and statuses that cannot be grouped *)

Lemma count_positive (z : Z) (zs : list Z) : 0 < count z zs <-> In z zs.
Proof.
  unfold count. induction zs as [| x zs IH]; simpl.
  - split; [lia | tauto].
  - destruct (Z.eqb_spec z x) as [-> | Hneq]; simpl.
    + split; [left; reflexivity | lia].
    + rewrite IH. split; [right; assumption |].
      intros [H | H]; [congruence | exact H].
Qed.

Lemma int_lookup_perm (dz dz' : int_dict) (z : Z) :
  Permutation dz dz' -> NoDup (map fst dz) ->
  int_lookup dz' z = int_lookup dz z.
Proof.
  intros Hperm Hnd.
  assert (Hnd' : NoDup (map fst dz'))
    by exact (Permutation_NoDup (Permutation_map fst Hperm) Hnd).
  destruct (int_lookup dz z) as [c |] eqn:E.
  - apply int_lookup_In; [exact Hnd' |].
    apply (Permutation_in _ Hperm).
    clear Hnd Hnd' Hperm. induction dz as [| [k c'] dz IH]; simpl in E.
    + discriminate.
    + destruct (Z.eqb_spec k z) as [-> | _].
      * injection E as ->. left; reflexivity.
      * right. apply IH; exact E.
  - apply int_lookup_None. apply int_lookup_None in E.
    intros Hin. apply E.
    apply (Permutation_in _ (Permutation_sym (Permutation_map fst Hperm))).
    exact Hin.
Qed.

Lemma sorted_tally_lookup (zs : list Z) (z : Z) :
  int_lookup (stable_sort key_ltb (tally zs [])) z
  = if (0 <? count z zs)%Z then Some (count z zs) else None.
Proof.
  destruct (tally_spec zs [] (NoDup_nil Z)) as (Hnd & Hkeys & Hseen & _).
  rewrite (int_lookup_perm (tally zs []) _ z (stable_sort_perm key_ltb _) Hnd).
  specialize (Hseen z). unfold seen in Hseen. simpl in Hseen.
  destruct (Z.ltb_spec 0 (count z zs)) as [Hpos | Hzero].
  - apply count_positive in Hpos.
    destruct (int_lookup (tally zs []) z) as [c |] eqn:E.
    + f_equal. lia.
    + apply int_lookup_None in E. exfalso. apply E.
      apply Hkeys. right; exact Hpos.
  - destruct (int_lookup (tally zs []) z) as [c |] eqn:E; [| reflexivity].
    exfalso.
    assert (Hin : In z (map fst (tally zs []))).
    { destruct (in_dec Z.eq_dec z (map fst (tally zs []))) as [H | H]; [exact H |].
      apply int_lookup_None in H. congruence. }
    apply Hkeys in Hin. destruct Hin as [[] | Hin].
    apply count_positive in Hin. lia.
Qed.

(** X8: for records whose status is an [int], looking a status up in the
    histogram gives the number of records that have it, and nothing when
    no record has it; every count in the histogram is at least 1. *)
Theorem get_requests_by_status_lookup (self : HARAnalyzer) :
  forallb is_int (map status (entries self)) = true ->
  exists histogram : dict Z,
    get_requests_by_status self = Ok histogram /\
    (forall z,
       dict_lookup histogram (VInt z)
       = if (0 <? occurrences z (entries self))%Z
         then Some (occurrences z (entries self)) else None) /\
    (forall k c, In (k, c) histogram -> 1 <= c).
Proof.
  intros Hint.
  destruct (int_statuses _ Hint) as (zs & Hzs).
  destruct (tally_spec zs [] (NoDup_nil Z)) as (Hnd & Hkeys & Hseen & _).
  set (counted := tally zs []) in *.
  pose proof (stable_sort_perm key_ltb counted) as Hperm.
  set (sorted := stable_sort key_ltb counted) in *.
  assert (Hlook : forall z, int_lookup sorted z
                    = if (0 <? count z zs)%Z then Some (count z zs) else None).
  { intros z. apply sorted_tally_lookup. }
  exists (embed sorted). split; [| split].
  - unfold get_requests_by_status.
    change (@nil (value * Z)) with (embed []).
    rewrite (count_statuses_embed _ zs [] Hzs). simpl.
    apply py_sorted_embed.
  - intros z. rewrite dict_lookup_embed, (occurrences_count _ zs z Hzs).
    apply Hlook.
  - intros k c Hin. unfold embed in Hin. apply in_map_iff in Hin.
    destruct Hin as ([z c'] & Heq & Hin). simpl in Heq. injection Heq as <- <-.
    assert (Hnd' : NoDup (map fst sorted))
      by exact (Permutation_NoDup (Permutation_map fst Hperm) Hnd).
    pose proof (int_lookup_In sorted z c' Hnd' Hin) as E.
    rewrite Hlook in E.
    destruct (Z.ltb_spec 0 (count z zs)); [| discriminate].
    injection E as <-. lia.
Qed.

Lemma get_requests_by_status_lookup_witness :
  forallb is_int (map status (entries three_requests)) = true /\
  exists histogram : dict Z,
    get_requests_by_status three_requests = Ok histogram /\
    (forall z,
       dict_lookup histogram (VInt z)
       = if (0 <? occurrences z (entries three_requests))%Z
         then Some (occurrences z (entries three_requests)) else None) /\
    (forall k c, In (k, c) histogram -> 1 <= c).
Proof.
  split; [reflexivity |].
  apply (get_requests_by_status_lookup three_requests). reflexivity.
Defined.

Lemma py_eqb_refl (k : value) : hashable k = true -> py_eqb k k = true.
Proof.
  destruct k as [| b | z | q | s | l | d]; intros H; try discriminate;
    unfold py_eqb; simpl.
  - reflexivity.
  - destruct b; reflexivity.
  - apply Qeq_bool_iff; reflexivity.
  - apply Qeq_bool_iff; reflexivity.
  - apply String.eqb_refl.
Qed.

Lemma py_eqb_number (k s : value) :
  is_number s = true -> py_eqb k s = true -> is_number k = true.
Proof.
  unfold is_number, py_eqb.
  destruct (as_num s) eqn:Es; [| discriminate]. intros _.
  destruct (as_num k); [reflexivity |].
  destruct k; try discriminate; destruct s; simpl in Es; discriminate.
Qed.

Lemma py_eqb_str (k s : value) :
  is_str s = true -> py_eqb k s = true -> is_str k = true.
Proof.
  destruct s; try discriminate. intros _.
  unfold py_eqb. simpl as_num.
  destruct (as_num k) eqn:Ek; destruct k; simpl in *; try discriminate; reflexivity.
Qed.

Lemma dict_set_keys {V : Type} (d : dict V) (k : value) (v : V) :
  py_eqb k k = true ->
  (forall x, In x (map fst d) -> In x (map fst (dict_set d k v))) /\
  exists k', In k' (map fst (dict_set d k v)) /\ py_eqb k' k = true.
Proof.
  intros Hk. induction d as [| [k0 v0] d (IHincl & k' & IHin & IHeq)]; simpl.
  - split; [intros x [] |]. exists k. split; [left; reflexivity | exact Hk].
  - destruct (py_eqb k0 k) eqn:E; simpl.
    + split; [tauto |]. exists k0. split; [left; reflexivity | exact E].
    + split.
      * intros x [Hx | Hx]; [left; exact Hx | right; apply IHincl; exact Hx].
      * exists k'. split; [right; exact IHin | exact IHeq].
Qed.

Lemma count_statuses_keys (es : list TimingInfo) (d : dict Z) :
  forallb hashable (map status es) = true ->
  exists d',
    count_statuses es d = Ok d' /\
    (forall x, In x (map fst d) -> In x (map fst d')) /\
    (forall e, In e es ->
       exists k, In k (map fst d') /\ py_eqb k (status e) = true).
Proof.
  revert d; induction es as [| e es IH]; simpl; intros d H.
  - exists d. split; [reflexivity |]. split; [tauto | intros e []].
  - apply andb_prop in H; destruct H as [He Hes]. rewrite He.
    set (d1 := dict_set d (status e) _).
    destruct (IH d1 Hes) as (d' & Hd' & Hincl & Hcover).
    destruct (dict_set_keys d (status e)
                (match dict_lookup d (status e) with Some c => c | None => 0 end + 1)
                (py_eqb_refl _ He)) as (Hincl1 & k & Hk & Hkeq).
    exists d'. split; [exact Hd' |]. split.
    + intros x Hx. apply Hincl. apply Hincl1. exact Hx.
    + intros e' [<- | He'].
      * exists k. split; [apply Hincl; exact Hk | exact Hkeq].
      * apply Hcover; exact He'.
Qed.

Lemma count_statuses_unhashable (es : list TimingInfo) (d : dict Z) :
  forallb hashable (map status es) = false ->
  count_statuses es d = Raise TypeError.
Proof.
  revert d; induction es as [| e es IH]; simpl; intros d H.
  - discriminate.
  - destruct (hashable (status e)); simpl in H; [apply IH; exact H | reflexivity].
Qed.

(** X9: [get_requests_by_status] raises [TypeError] when the status of a
    record is a list or an object (it cannot be a dict key), and when one
    record holds a number and another a string as status (the final
    [sorted] cannot order the two keys). *)
Theorem get_requests_by_status_type_error (self : HARAnalyzer) :
  (forallb hashable (map status (entries self)) = false ->
   get_requests_by_status self = Raise TypeError) /\
  (forall e1 e2,
     In e1 (entries self) -> In e2 (entries self) ->
     is_number (status e1) = true -> is_str (status e2) = true ->
     get_requests_by_status self = Raise TypeError).
Proof.
  split.
  - intros H. unfold get_requests_by_status.
    rewrite (count_statuses_unhashable _ [] H). reflexivity.
  - intros e1 e2 H1 H2 Hnum Hstr.
    destruct (forallb hashable (map status (entries self))) eqn:Hhash.
    + destruct (count_statuses_keys (entries self) [] Hhash) as (d & Hd & _ & Hcover).
      destruct (Hcover e1 H1) as (k1 & Hk1 & E1).
      destruct (Hcover e2 H2) as (k2 & Hk2 & E2).
      pose proof (py_eqb_number k1 _ Hnum E1) as N1.
      pose proof (py_eqb_str k2 _ Hstr E2) as S2.
      unfold get_requests_by_status. rewrite Hd. simpl. unfold py_sorted.
      assert (Fn : forallb is_number (map fst d) = false).
      { destruct (forallb is_number (map fst d)) eqn:F; [| reflexivity].
        rewrite forallb_forall in F. specialize (F k2 Hk2).
        destruct k2; simpl in *; discriminate. }
      assert (Fs : forallb is_str (map fst d) = false).
      { destruct (forallb is_str (map fst d)) eqn:F; [| reflexivity].
        rewrite forallb_forall in F. specialize (F k1 Hk1).
        destruct k1; simpl in *; discriminate. }
      rewrite Fn, Fs. simpl.
      destruct d as [| a [| b d]]; [contradiction | | reflexivity].
      exfalso. simpl in Hk1, Hk2.
      destruct Hk1 as [<- | []]. destruct Hk2 as [<- | []].
      destruct (fst a); simpl in *; discriminate.
    + unfold get_requests_by_status.
      rewrite (count_statuses_unhashable _ [] Hhash). reflexivity.
Qed.

Lemma get_requests_by_status_type_error_witness :
  let text_status :=
    {| url := VStr "http://example.org/d"; method := VStr "GET"; status := VStr "OK";
       total_time := VInt 5; blocked := VInt 0; dns := VInt 0; connect := VInt 0;
       send := VInt 0; wait := VInt 5; receive := VInt 0; ssl := VInt 0 |} in
  get_requests_by_status
    {| har_file_path := "session.har"; entries := [request_200_50; text_status] |}
  = Raise TypeError.
Proof.
  intros text_status.
  refine (proj2 (get_requests_by_status_type_error _) request_200_50 text_status
            _ _ _ _); simpl; try tauto; reflexivity.
Defined.

(** ** The report and the run as a whole *)





Section Report.

Variable sqrt : Q -> Q.
Variable float_repr : Q -> string.
Variable path_str : string -> string.





End Report.



(** ** What a run writes, and how it ends *)

Lemma writes_bind {A B : Type} (c : io A) (k : A -> io B) :
  writes (io_bind c k)
  = match outcome c with
    | Ok a => (writes c ++ writes (k a))%list
    | _ => writes c
    end.
Proof.
  destruct c as [out [a | code | e]]; unfold writes, output, outcome; simpl;
    try reflexivity.
  destruct (k a) as [out' r]. simpl. apply filter_app.
Qed.

Lemma outcome_bind {A B : Type} (c : io A) (k : A -> io B) :
  outcome (io_bind c k)
  = match outcome c with
    | Ok a => outcome (k a)
    | SysExit code => SysExit code
    | Raise e => Raise e
    end.
Proof.
  destruct c as [out [a | code | e]]; unfold outcome; simpl; try reflexivity.
  destruct (k a) as [out' r]. reflexivity.
Qed.

Lemma output_bind {A B : Type} (c : io A) (k : A -> io B) :
  output (io_bind c k)
  = match outcome c with
    | Ok a => (output c ++ output (k a))%list
    | _ => output c
    end.
Proof.
  destruct c as [out [a | code | e]]; unfold output, outcome; simpl; try reflexivity.
  destruct (k a) as [out' r]. reflexivity.
Qed.

Lemma io_bind_lift_Ok {A B : Type} (a : A) (k : A -> io B) :
  io_bind (lift (Ok a)) k = k a.
Proof. unfold io_bind, lift. destruct (k a) as [out r]. reflexivity. Qed.

Lemma writes_bind_Ok {A B : Type} (c : io A) (k : A -> io B) (a : A) :
  outcome c = Ok a -> writes (io_bind c k) = (writes c ++ writes (k a))%list.
Proof. intros H. rewrite writes_bind, H. reflexivity. Qed.

Lemma outcome_bind_Ok {A B : Type} (c : io A) (k : A -> io B) (a : A) :
  outcome c = Ok a -> outcome (io_bind c k) = outcome (k a).
Proof. intros H. rewrite outcome_bind, H. reflexivity. Qed.

Lemma writes_none_bind {A B : Type} (c : io A) (k : A -> io B) :
  writes c = [] -> (forall a, writes (k a) = []) -> writes (io_bind c k) = [].
Proof.
  intros Hc Hk. rewrite writes_bind, Hc.
  destruct (outcome c); [apply Hk | reflexivity | reflexivity].
Qed.

Lemma writes_lift {A : Type} (r : result A) : writes (lift r) = [].
Proof. reflexivity. Qed.

Lemma writes_emit (e : event) : is_write e = false -> writes (emit e) = [].
Proof. intros H. unfold writes, emit, output. simpl. rewrite H. reflexivity. Qed.

Ltac no_writes :=
  repeat first
    [ apply writes_lift
    | apply writes_emit; reflexivity
    | apply writes_none_bind; [| intros ?] ].

(** The pure part of the program never calls [sys.exit]. *)
Lemma no_exit_bind {A B : Type} (c : result A) (k : A -> result B) :
  no_exit c -> (forall a, no_exit (k a)) -> no_exit (bind c k).
Proof. destruct c as [a | code | e]; simpl; intros Hc Hk; [apply Hk | |]; exact Hc. Qed.

Lemma no_exit_mapM {A B : Type} (f : A -> result B) (l : list A) :
  (forall a, no_exit (f a)) -> no_exit (mapM f l).
Proof.
  intros Hf. induction l as [| a l IH]; simpl; [exact I |].
  apply no_exit_bind; [apply Hf | intros b].
  apply no_exit_bind; [exact IH | intros bs; exact I].
Qed.

Lemma no_exit_outcome_bind {A B : Type} (c : io A) (k : A -> io B) :
  no_exit (outcome c) -> (forall a, no_exit (outcome (k a))) ->
  no_exit (outcome (io_bind c k)).
Proof.
  intros Hc Hk. rewrite outcome_bind.
  destruct (outcome c); [apply Hk | exact Hc | exact I].
Qed.

Ltac no_exit_step :=
  first
    [ exact I
    | assumption
    | apply no_exit_bind; [| intros ?]
    | apply no_exit_mapM; intros ?
    | apply no_exit_outcome_bind; [| intros ?]
    | match goal with
      | |- no_exit (match ?x with _ => _ end) => destruct x
      | |- no_exit (outcome (match ?x with _ => _ end)) => destruct x
      end ].

Ltac no_exit_tac := repeat no_exit_step.

Lemma py_get_no_exit (o : value) (name : string) (default : value) :
  no_exit (py_get o name default).
Proof. unfold py_get. no_exit_tac. Qed.

Lemma py_getitem_no_exit (o : value) (name : string) : no_exit (py_getitem o name).
Proof. unfold py_getitem. no_exit_tac. Qed.

Lemma py_in_no_exit (name : string) (o : value) : no_exit (py_in name o).
Proof. unfold py_in. no_exit_tac. Qed.

Lemma py_iter_no_exit (o : value) : no_exit (py_iter o).
Proof. unfold py_iter. no_exit_tac. Qed.

Lemma py_gt0_no_exit (v : value) : no_exit (py_gt0 v).
Proof. unfold py_gt0. no_exit_tac. Qed.

Lemma getattr_no_exit (e : TimingInfo) (name : string) : no_exit (getattr e name).
Proof. unfold getattr. no_exit_tac. Qed.

Lemma get_timing_no_exit (timings : value) (key : string) :
  no_exit (get_timing timings key).
Proof.
  unfold get_timing, py_max0.
  apply no_exit_bind; [apply py_get_no_exit | intros v].
  apply no_exit_bind; [apply py_gt0_no_exit | intros b; exact I].
Qed.

Lemma extract_entry_no_exit (entry : value) : no_exit (extract_entry entry).
Proof.
  unfold extract_entry.
  repeat (apply no_exit_bind;
          [first [apply py_get_no_exit | apply get_timing_no_exit] | intros ?]).
  exact I.
Qed.

Lemma format_invalid_no_exit (har_data : value) : no_exit (format_invalid har_data).
Proof.
  unfold format_invalid.
  apply no_exit_bind; [apply py_in_no_exit | intros has_log].
  destruct has_log; simpl; [| exact I].
  apply no_exit_bind; [apply py_getitem_no_exit | intros log].
  apply no_exit_bind; [apply py_in_no_exit | intros b; exact I].
Qed.

Lemma extract_entries_no_exit (har_data : value) : no_exit (extract_entries har_data).
Proof.
  unfold extract_entries.
  apply no_exit_bind; [apply py_getitem_no_exit | intros log].
  apply no_exit_bind; [apply py_getitem_no_exit | intros items].
  apply no_exit_bind; [apply py_iter_no_exit | intros l].
  apply no_exit_mapM. apply extract_entry_no_exit.
Qed.

Lemma phase_values_no_exit (phase : string) (es : list TimingInfo) :
  no_exit (phase_values phase es).
Proof.
  induction es as [| e es IH]; simpl; [exact I |].
  apply no_exit_bind; [apply getattr_no_exit | intros v].
  apply no_exit_bind; [apply py_gt0_no_exit | intros b].
  apply no_exit_bind; [exact IH | intros vs; exact I].
Qed.

Lemma describe_no_exit (sqrt : Q -> Q) (values : list Q) :
  no_exit (describe sqrt values).
Proof.
  unfold describe. destruct values as [| x xs]; [exact I |].
  apply no_exit_bind; [exact I | intros average].
  apply no_exit_bind;
    [unfold statistics.median; no_exit_tac | intros median].
  apply no_exit_bind; [exact I | intros lo].
  apply no_exit_bind; [exact I | intros hi].
  apply no_exit_bind; [| intros sd; exact I].
  unfold statistics.stdev. no_exit_tac.
Qed.

Lemma calculate_statistics_no_exit (sqrt : Q -> Q) (self : HARAnalyzer) :
  no_exit (calculate_statistics sqrt self).
Proof.
  unfold calculate_statistics. destruct (entries self) as [| e es]; [exact I |].
  apply no_exit_mapM. intros phase.
  apply no_exit_bind; [| intros b; exact I].
  unfold phase_block.
  apply no_exit_bind; [apply phase_values_no_exit | intros vs].
  apply describe_no_exit.
Qed.

Lemma py_sorted_no_exit {A : Type} (key : A -> value) (reverse : bool) (l : list A) :
  no_exit (py_sorted key reverse l).
Proof. unfold py_sorted. no_exit_tac. Qed.

Lemma get_slowest_requests_no_exit (self : HARAnalyzer) (n : Z) :
  no_exit (get_slowest_requests self n).
Proof.
  unfold get_slowest_requests.
  apply no_exit_bind; [apply py_sorted_no_exit | intros l; exact I].
Qed.

Lemma count_statuses_no_exit (es : list TimingInfo) (status_counts : dict Z) :
  no_exit (count_statuses es status_counts).
Proof.
  revert status_counts; induction es as [| e es IH]; intros status_counts; simpl;
    [exact I |].
  destruct (hashable (status e)); [apply IH | exact I].
Qed.

Lemma get_requests_by_status_no_exit (self : HARAnalyzer) :
  no_exit (get_requests_by_status self).
Proof.
  unfold get_requests_by_status.
  apply no_exit_bind; [apply count_statuses_no_exit | intros d].
  apply py_sorted_no_exit.
Qed.

Lemma format_request_no_exit (entry : TimingInfo) : no_exit (format_request entry).
Proof.
  unfold format_request.
  apply no_exit_bind; [no_exit_tac | intros _]. no_exit_tac.
Qed.

Section Run.

Variable sqrt : Q -> Q.
Variable float_repr : Q -> string.
Variable path_str : string -> string.

Lemma key_str_no_exit (k : value) : no_exit (key_str float_repr k).
Proof. unfold key_str. no_exit_tac. Qed.

Lemma json_dump_no_exit (v : value) : no_exit (json_dump float_repr v).
Proof.
  revert v. fix IH 1. intros [| b | z | q | s | l | d]; simpl; try exact I.
  - apply no_exit_bind; [| intros js; exact I].
    induction l as [| x l IHl]; simpl; [exact I |].
    apply no_exit_bind; [apply IH | intros j].
    apply no_exit_bind; [exact IHl | intros js; exact I].
  - apply no_exit_bind; [| intros ms; exact I].
    induction d as [| [k x] d IHd]; simpl; [exact I |].
    apply no_exit_bind.
    + apply no_exit_bind; [apply key_str_no_exit | intros name].
      apply no_exit_bind; [apply IH | intros j; exact I].
    + intros m. apply no_exit_bind; [exact IHd | intros ms; exact I].
Qed.

Lemma load_har_exit (self : HARAnalyzer) (w : world) (code : Z) :
  outcome (load_har self w) = SysExit code ->
  code = 1 /\ exists msg, output (load_har self w) = [Print msg].
Proof.
  unfold load_har.
  destruct (files w (har_file_path self)) as [| | msg | doc]; simpl;
    intros H; try discriminate; injection H as <-;
    (split; [reflexivity | eexists; reflexivity]).
Qed.

Lemma load_har_writes (self : HARAnalyzer) (w : world) : writes (load_har self w) = [].
Proof. unfold load_har. destruct (files w (har_file_path self)); reflexivity. Qed.

Lemma extract_timings_writes (self : HARAnalyzer) (w : world) :
  writes (extract_timings self w) = [].
Proof.
  unfold extract_timings.
  apply writes_none_bind; [apply load_har_writes | intros har_data].
  apply writes_none_bind; [apply writes_lift | intros invalid].
  destruct invalid; no_writes.
Qed.

Lemma extract_timings_exit (self : HARAnalyzer) (w : world) (code : Z) :
  outcome (extract_timings self w) = SysExit code ->
  code = 1 /\ exists msg, output (extract_timings self w) = [Print msg].
Proof.
  unfold extract_timings. rewrite outcome_bind, output_bind.
  destruct (load_har self w) as [out [har_data | c | e]] eqn:Eload;
    unfold outcome, output; cbn [fst snd].
  - destruct (load_har_all_or_nothing self w out har_data Eload) as (-> & _).
    pose proof (format_invalid_no_exit har_data) as Hinv.
    unfold lift, io_bind.
    destruct (format_invalid har_data) as [invalid | c | e]; simpl in *;
      [| contradiction | discriminate].
    destruct invalid; simpl.
    + intros H; injection H as <-. split; [reflexivity | eexists; reflexivity].
    + pose proof (extract_entries_no_exit har_data) as Hent.
      destruct (extract_entries har_data); simpl in *;
        [discriminate | contradiction | discriminate].
  - intros H. injection H as ->.
    destruct (load_har_exit self w code) as (Hcode & msg & Hmsg);
      [rewrite Eload; reflexivity |].
    rewrite Eload in Hmsg. split; [exact Hcode | exists msg; exact Hmsg].
  - discriminate.
Qed.

Lemma extract_timings_quiet (self : HARAnalyzer) (w : world) (analyzer : HARAnalyzer) :
  outcome (extract_timings self w) = Ok analyzer ->
  output (extract_timings self w) = [].
Proof.
  unfold extract_timings. rewrite outcome_bind, output_bind.
  destruct (load_har self w) as [out [har_data | c | e]] eqn:Eload;
    unfold outcome, output; cbn [fst snd]; try discriminate.
  destruct (load_har_all_or_nothing self w out har_data Eload) as (-> & _).
  unfold lift, io_bind.
  destruct (format_invalid har_data) as [invalid | c | e]; simpl;
    try discriminate.
  destruct invalid; simpl; [discriminate |].
  destruct (extract_entries har_data); simpl; intros H; try discriminate.
  reflexivity.
Qed.

Lemma print_requests_writes (rank : Z) (slowest : list TimingInfo) :
  writes (print_requests rank slowest) = [].
Proof.
  revert rank; induction slowest as [| e l IH]; intros rank;
    cbn [print_requests]; [reflexivity |].
  apply writes_none_bind; [apply writes_lift | intros _].
  apply writes_none_bind; [apply writes_emit; reflexivity | intros _]. apply IH.
Qed.

Lemma print_requests_no_exit (rank : Z) (slowest : list TimingInfo) :
  no_exit (outcome (print_requests rank slowest)).
Proof.
  revert rank; induction slowest as [| e l IH]; intros rank;
    cbn [print_requests]; [exact I |].
  apply no_exit_outcome_bind; [apply format_request_no_exit | intros _].
  apply no_exit_outcome_bind; [exact I | intros _]. apply IH.
Qed.

Lemma print_summary_writes (self : HARAnalyzer) : writes (print_summary sqrt self) = [].
Proof.
  unfold print_summary.
  repeat (apply writes_none_bind;
          [first [apply writes_lift | apply writes_emit; reflexivity] | intros ?]).
  apply print_requests_writes.
Qed.

Lemma print_summary_no_exit (self : HARAnalyzer) :
  no_exit (outcome (print_summary sqrt self)).
Proof.
  unfold print_summary.
  apply no_exit_outcome_bind; [exact I | intros _].
  apply no_exit_outcome_bind; [apply get_requests_by_status_no_exit | intros hist].
  apply no_exit_outcome_bind; [exact I | intros _].
  apply no_exit_outcome_bind; [apply calculate_statistics_no_exit | intros stats].
  apply no_exit_outcome_bind; [exact I | intros _].
  apply no_exit_outcome_bind; [apply get_slowest_requests_no_exit | intros slowest].
  apply print_requests_no_exit.
Qed.

Lemma export_to_json_no_exit (self : HARAnalyzer) (w : world) (file : string) :
  no_exit (outcome (export_to_json sqrt float_repr self w file)).
Proof.
  unfold export_to_json.
  apply no_exit_outcome_bind; [apply calculate_statistics_no_exit | intros stats].
  apply no_exit_outcome_bind; [apply get_slowest_requests_no_exit | intros slowest].
  apply no_exit_outcome_bind; [apply get_requests_by_status_no_exit | intros hist].
  destruct (writable w file); [| exact I].
  apply no_exit_outcome_bind; [apply json_dump_no_exit | intros doc].
  apply no_exit_outcome_bind; [exact I | intros _]. exact I.
Qed.

(** [export_to_json] writes nothing, or the one file it was given, and then
    it returns. *)
Lemma export_to_json_writes (self : HARAnalyzer) (w : world) (file : string) :
  writes (export_to_json sqrt float_repr self w file) = [] \/
  exists stats slowest hist doc,
    calculate_statistics sqrt self = Ok stats /\
    get_slowest_requests self 10 = Ok slowest /\
    get_requests_by_status self = Ok hist /\
    json_dump float_repr (output_data self stats slowest hist) = Ok doc /\
    writable w file = true /\
    writes (export_to_json sqrt float_repr self w file) = [WriteFile file doc] /\
    outcome (export_to_json sqrt float_repr self w file) = Ok tt.
Proof.
  unfold export_to_json.
  destruct (calculate_statistics sqrt self) as [stats | c | e];
    [| left; reflexivity | left; reflexivity].
  destruct (get_slowest_requests self 10) as [slowest | c | e];
    [| left; reflexivity | left; reflexivity].
  destruct (get_requests_by_status self) as [hist | c | e];
    [| left; reflexivity | left; reflexivity].
  rewrite !io_bind_lift_Ok.
  destruct (writable w file); [| left; reflexivity].
  destruct (json_dump float_repr (output_data self stats slowest hist))
    as [doc | c | e] eqn:Edoc; [| left; reflexivity | left; reflexivity].
  right. exists stats, slowest, hist, doc.
  repeat (split; [reflexivity |]). split; [exact Edoc |].
  split; [reflexivity |]. split; reflexivity.
Qed.

(** X12: [main] writes an export document only on request.  If a run
    writes a document at all, the arguments were
    [<file> --export <path> ...] with a non-empty, writable path, the
    extraction and the report had succeeded, the document is the only one
    written, it is the export document of the session, and the run ends
    normally. *)
Theorem main_writes_only_on_request
  (argv : list string) (w : world) (path : string) (doc : json) :
  In (WriteFile path doc) (output (main sqrt float_repr path_str argv w)) ->
  exists prog file more analyzer stats slowest hist,
    argv = prog :: file :: "--export" :: path :: more /\
    path <> "" /\
    writable w path = true /\
    extract_timings (HARAnalyzer_init path_str file) w = ([], Ok analyzer) /\
    outcome (print_summary sqrt analyzer) = Ok tt /\
    calculate_statistics sqrt analyzer = Ok stats /\
    get_slowest_requests analyzer 10 = Ok slowest /\
    get_requests_by_status analyzer = Ok hist /\
    json_dump float_repr (output_data analyzer stats slowest hist) = Ok doc /\
    writes (main sqrt float_repr path_str argv w) = [WriteFile path doc] /\
    outcome (main sqrt float_repr path_str argv w) = Ok tt.
Proof.
  intros Hin.
  assert (Hw : In (WriteFile path doc) (writes (main sqrt float_repr path_str argv w))).
  { apply filter_In. split; [exact Hin | reflexivity]. }
  clear Hin.
  destruct argv as [| prog [| file rest]];
    [simpl in Hw; contradiction | simpl in Hw; contradiction |].
  unfold main in Hw.
  rewrite writes_bind, extract_timings_writes in Hw.
  destruct (outcome (extract_timings (HARAnalyzer_init path_str file) w))
    as [analyzer | c | e] eqn:Eout; try contradiction.
  rewrite writes_bind, print_summary_writes in Hw.
  destruct (outcome (print_summary sqrt analyzer)) as [[] | c | e] eqn:Eprint;
    try contradiction.
  destruct rest as [| flag [| p more]]; try contradiction.
  destruct (String.eqb_spec flag "--export") as [-> | _]; [| contradiction].
  destruct (String.eqb_spec p "") as [_ | Hp]; [contradiction |].
  destruct (export_to_json_writes analyzer w p)
    as [Hnone | (stats & slowest & hist & doc' & Hstats & Hslowest & Hhist
                 & Hdoc & Hwritable & Hwrites & Hend)].
  { rewrite Hnone in Hw. contradiction. }
  rewrite Hwrites in Hw. destruct Hw as [Hw | []].
  injection Hw as -> ->.
  assert (Hmain : main sqrt float_repr path_str
                    (prog :: file :: "--export" :: path :: more) w
                  = io_bind (extract_timings (HARAnalyzer_init path_str file) w)
                      (fun analyzer =>
                         io_bind (print_summary sqrt analyzer)
                           (fun _ => export_to_json sqrt float_repr analyzer w path))).
  { unfold main. rewrite String.eqb_refl.
    destruct (String.eqb_spec path "") as [E | _]; [contradiction | reflexivity]. }
  exists prog, file, more, analyzer, stats, slowest, hist.
  repeat (split; [first [reflexivity | assumption] |]).
  split.
  { pose proof (extract_timings_quiet _ _ _ Eout) as Hquiet.
    destruct (extract_timings (HARAnalyzer_init path_str file) w) as [out r].
    unfold outcome, output in Eout, Hquiet. simpl in Eout, Hquiet.
    subst. reflexivity. }
  repeat (split; [assumption |]).
  split.
  - rewrite Hmain, (writes_bind_Ok _ _ _ Eout), extract_timings_writes,
      (writes_bind_Ok _ _ _ Eprint), print_summary_writes.
    exact Hwrites.
  - rewrite Hmain, (outcome_bind_Ok _ _ _ Eout), (outcome_bind_Ok _ _ _ Eprint).
    exact Hend.
Qed.

(** X13: whatever the arguments and the files, [main] ends with status 0
    or 1; and it calls [sys.exit] only with status 1 and only before any
    report: all it has printed by then is the usage text or one line of
    error message. *)
Theorem main_exit_status (argv : list string) (w : world) :
  (exit_code (outcome (main sqrt float_repr path_str argv w)) = 0 \/
   exit_code (outcome (main sqrt float_repr path_str argv w)) = 1) /\
  (forall code,
     outcome (main sqrt float_repr path_str argv w) = SysExit code ->
     code = 1 /\
     (output (main sqrt float_repr path_str argv w) = usage \/
      exists msg, output (main sqrt float_repr path_str argv w) = [Print msg])).
Proof.
  assert (Hexit : forall code,
     outcome (main sqrt float_repr path_str argv w) = SysExit code ->
     code = 1 /\
     (output (main sqrt float_repr path_str argv w) = usage \/
      exists msg, output (main sqrt float_repr path_str argv w) = [Print msg])).
  { intros code.
    destruct argv as [| prog [| file rest]];
      try (intros H; injection H as <-; split; [reflexivity | left; reflexivity]).
    unfold main. rewrite outcome_bind, output_bind.
    destruct (outcome (extract_timings (HARAnalyzer_init path_str file) w))
      as [analyzer | c | e] eqn:Eext.
    - intros H. exfalso.
      match type of H with
      | outcome ?c = _ => assert (Hno : no_exit (outcome c))
      end.
      { apply no_exit_outcome_bind; [apply print_summary_no_exit | intros _].
        destruct rest as [| flag [| p more]]; try exact I.
        destruct (String.eqb flag "--export"); [| exact I].
        destruct (String.eqb p ""); [exact I | apply export_to_json_no_exit]. }
      rewrite H in Hno. exact Hno.
    - intros H; injection H as ->.
      destruct (extract_timings_exit _ _ _ Eext) as (Hcode & Hmsg).
      split; [exact Hcode | right; exact Hmsg].
    - discriminate. }
  split; [| exact Hexit].
  destruct (outcome (main sqrt float_repr path_str argv w)) as [u | code | e] eqn:E.
  - left; reflexivity.
  - right. simpl. apply (Hexit code). reflexivity.
  - right; reflexivity.
Qed.

End Run.

Lemma main_writes_only_on_request_witness :
  let w := disk "session.har" (capture two_entries) in
  let argv := ["har_analyzer.py"; "session.har"; "--export"; "summary.json"] in
  exists doc,
    In (WriteFile "summary.json" doc)
       (output (main (fun q => q) (fun _ => "") (fun p => p) argv w)) /\
    writes (main (fun q => q) (fun _ => "") (fun p => p) argv w)
    = [WriteFile "summary.json" doc] /\
    outcome (main (fun q => q) (fun _ => "") (fun p => p) argv w) = Ok tt.
Proof.
  intros w argv.
  assert (Hin : exists doc,
            In (WriteFile "summary.json" doc)
               (output (main (fun q => q) (fun _ => "") (fun p => p) argv w))).
  { eexists. vm_compute. do 5 right. left. reflexivity. }
  destruct Hin as (doc & Hin). exists doc. split; [exact Hin |].
  destruct (main_writes_only_on_request (fun q => q) (fun _ => "") (fun p => p)
              argv w "summary.json" doc Hin)
    as (prog & file & more & analyzer & stats & slowest & hist & _ & _ & _ & _ & _
        & _ & _ & _ & _ & Hwrites & Hend).
  split; [exact Hwrites | exact Hend].
Defined.

Lemma main_exit_status_witness :
  let w := disk "session.har" capture_without_entries in
  outcome (main (fun q => q) (fun _ => "") (fun p => p)
                ["har_analyzer.py"; "session.har"] w) = SysExit 1 /\
  (output (main (fun q => q) (fun _ => "") (fun p => p)
                ["har_analyzer.py"; "session.har"] w) = usage \/
   exists msg,
     output (main (fun q => q) (fun _ => "") (fun p => p)
                  ["har_analyzer.py"; "session.har"] w) = [Print msg]).
Proof.
  intros w. split; [reflexivity |].
  apply (proj2 (main_exit_status (fun q => q) (fun _ => "") (fun p => p)
                  ["har_analyzer.py"; "session.har"] w) 1).
  reflexivity.
Defined.

(** ** The url column of the ranking *)

Lemma substring_0_length (n : nat) (s : string) :
  String.length (substring 0 n s) = Nat.min n (String.length s).
Proof.
  revert s; induction n as [| n IH]; intros [| c s]; simpl; try reflexivity.
  rewrite IH. reflexivity.
Qed.

Lemma string_length_append (s t : string) :
  String.length (s ++ t) = (String.length s + String.length t)%nat.
Proof. induction s as [| c s IH]; simpl; [| rewrite IH]; reflexivity. Qed.

Lemma substring_0_prefix (n : nat) (s : string) :
  prefix (substring 0 n s) s = true.
Proof.
  revert s; induction n as [| n IH]; intros [| c s]; simpl; try reflexivity.
  destruct (ascii_dec c c) as [_ | H]; [apply IH | contradiction].
Qed.

(** X14: the url a line of the ranking shows is never longer than 60
    characters: a url of at most 60 characters is shown whole, a longer
    one as its first 57 characters followed by three dots, 60 characters
    in all; and shortening what is already shown changes nothing. *)
Theorem display_url_width (u : string) :
  (String.length (display_url u) <= 60)%nat /\
  ((String.length u <= 60)%nat -> display_url u = u) /\
  ((60 < String.length u)%nat ->
     String.length (display_url u) = 60%nat /\
     exists head, display_url u = head ++ "..." /\
                  String.length head = 57%nat /\ prefix head u = true) /\
  display_url (display_url u) = display_url u.
Proof.
  assert (Hlong : (60 < String.length u)%nat ->
            String.length (substring 0 57 u ++ "...") = 60%nat).
  { intros H. rewrite string_length_append, substring_0_length.
    change (String.length "...") with 3%nat. lia. }
  destruct (Nat.leb_spec (String.length u) 60) as [Hle | Hgt].
  - assert (Hshow : display_url u = u).
    { unfold display_url. apply Nat.leb_le in Hle. rewrite Hle. reflexivity. }
    rewrite !Hshow.
    split; [exact Hle |]. split; [reflexivity |]. split; [lia | reflexivity].
  - assert (Hshow : display_url u = substring 0 57 u ++ "...").
    { unfold display_url. destruct (Nat.leb_spec (String.length u) 60); [lia |].
      reflexivity. }
    rewrite !Hshow.
    split; [rewrite (Hlong Hgt); lia |]. split; [lia |]. split.
    + intros _. split; [exact (Hlong Hgt) |].
      exists (substring 0 57 u). split; [reflexivity |].
      split; [rewrite substring_0_length; lia | apply substring_0_prefix].
    + unfold display_url. rewrite (Hlong Hgt). reflexivity.
Qed.

Lemma display_url_width_witness :
  let u := "http://example.org/a/rather/long/path/to/some/resource/of/the/site" in
  (60 < String.length u)%nat /\
  String.length (display_url u) = 60%nat /\
  display_url u = "http://example.org/a/rather/long/path/to/some/resource/of..." .
Proof.
  intros u.
  assert (H : (60 < String.length u)%nat) by (vm_compute; lia).
  split; [exact H |].
  destruct (display_url_width u) as (_ & _ & Hlong & _).
  destruct (Hlong H) as (Hlen & _).
  split; [exact Hlen | reflexivity].
Defined.

(** ** Export requests that do not export *)

Section ExportRequest.

Variable sqrt : Q -> Q.
Variable float_repr : Q -> string.
Variable path_str : string -> string.



(** X16: [main] reads at most three arguments after the script name and
    rejects none: what follows the export path is ignored, and when the
    arguments after the file are not [--export] and a non-empty path, the
    run is the run on the file alone. *)
Theorem main_ignores_other_arguments
  (w : world) (prog file : string) (rest : list string) :
  (forall path more,
     main sqrt float_repr path_str (prog :: file :: "--export" :: path :: more) w
     = main sqrt float_repr path_str [prog; file; "--export"; path] w) /\
  ((forall path more, rest = "--export" :: path :: more -> path = "") ->
   main sqrt float_repr path_str (prog :: file :: rest) w
   = main sqrt float_repr path_str [prog; file] w).
Proof.
  split.
  - intros path more. reflexivity.
  - intros Hrest. unfold main.
    destruct rest as [| flag [| path more]]; try reflexivity.
    destruct (String.eqb_spec flag "--export") as [-> | _]; [| reflexivity].
    rewrite (Hrest path more eq_refl). reflexivity.
Qed.

End ExportRequest.


Lemma main_ignores_other_arguments_witness :
  let w := disk "session.har" (capture two_entries) in
  main (fun q => q) (fun _ => "") (fun p => p)
       ["har_analyzer.py"; "session.har"; "--verbose"; "summary.json"] w
  = main (fun q => q) (fun _ => "") (fun p => p) ["har_analyzer.py"; "session.har"] w.
Proof.
  intros w.
  apply (proj2 (main_ignores_other_arguments (fun q => q) (fun _ => "") (fun p => p)
                  w "har_analyzer.py" "session.har" ["--verbose"; "summary.json"])).
  intros path more H. discriminate H.
Defined.

(** ** The histogram does not depend on the order of the records *)

Lemma filter_length_perm {A : Type} (f : A -> bool) (l l' : list A) :
  Permutation l l' -> List.length (filter f l) = List.length (filter f l').
Proof.
  induction 1 as [| x l l' _ IH | x y l | l l' l'' _ IH1 _ IH2]; simpl.
  - reflexivity.
  - destruct (f x); simpl; rewrite IH; reflexivity.
  - destruct (f x), (f y); reflexivity.
  - rewrite IH1. exact IH2.
Qed.

(** Two histograms with strictly ascending keys that answer every lookup
    alike are the same list. *)
Lemma int_dict_ext (a b : int_dict) :
  StronglySorted Z.lt (map fst a) ->
  StronglySorted Z.lt (map fst b) ->
  (forall z, int_lookup a z = int_lookup b z) ->
  a = b.
Proof.
  revert b; induction a as [| [k c] a IH]; intros [| [k' c'] b] Ha Hb Hlook.
  - reflexivity.
  - specialize (Hlook k'). simpl in Hlook. rewrite Z.eqb_refl in Hlook. discriminate.
  - specialize (Hlook k). simpl in Hlook. rewrite Z.eqb_refl in Hlook. discriminate.
  - simpl in Ha, Hb.
    inversion Ha as [| ? ? Ha' Hk]; subst. inversion Hb as [| ? ? Hb' Hk']; subst.
    rewrite Forall_forall in Hk, Hk'.
    assert (Hna : int_lookup a k = None).
    { apply int_lookup_None. intros Hin. specialize (Hk k Hin). lia. }
    assert (Hnb : int_lookup b k' = None).
    { apply int_lookup_None. intros Hin. specialize (Hk' k' Hin). lia. }
    assert (Hkk : k = k').
    { pose proof (Hlook k) as H1. pose proof (Hlook k') as H2.
      simpl in H1, H2. rewrite Z.eqb_refl in H1, H2.
      destruct (Z.eqb_spec k' k) as [E | Hne]; [symmetry; exact E |].
      destruct (Z.eqb_spec k k') as [E | _]; [exact E |].
      assert (Hin : In k (map fst b)).
      { destruct (in_dec Z.eq_dec k (map fst b)) as [H | H]; [exact H |].
        apply int_lookup_None in H. congruence. }
      assert (Hin' : In k' (map fst a)).
      { destruct (in_dec Z.eq_dec k' (map fst a)) as [H | H]; [exact H |].
        apply int_lookup_None in H. congruence. }
      specialize (Hk k' Hin'). specialize (Hk' k Hin). lia. }
    subst k'.
    pose proof (Hlook k) as Hc. simpl in Hc. rewrite Z.eqb_refl in Hc.
    injection Hc as <-.
    f_equal. apply IH; [exact Ha' | exact Hb' |].
    intros z. specialize (Hlook z). simpl in Hlook.
    destruct (Z.eqb_spec k z) as [E | _]; [| exact Hlook].
    rewrite <- E, Hna. symmetry. exact Hnb.
Qed.

(** X17: for records whose status is an [int] the histogram does not
    depend on the order of the records: on a session with the same records
    in another order [get_requests_by_status] returns the same dict, key
    for key and in the same order. *)
Theorem get_requests_by_status_order_independent (self other : HARAnalyzer) :
  forallb is_int (map status (entries self)) = true ->
  Permutation (entries self) (entries other) ->
  get_requests_by_status other = get_requests_by_status self.
Proof.
  intros Hint Hperm.
  assert (Hint' : forallb is_int (map status (entries other)) = true)
    by exact (forallb_perm _ _ _ (Permutation_map status Hperm) Hint).
  destruct (int_statuses _ Hint) as (zs & Hzs).
  destruct (int_statuses _ Hint') as (zs' & Hzs').
  assert (Hcount : forall z, count z zs' = count z zs).
  { intros z.
    rewrite <- (occurrences_count _ zs z Hzs), <- (occurrences_count _ zs' z Hzs').
    unfold occurrences. rewrite (filter_length_perm _ _ _ Hperm). reflexivity. }
  assert (Hsorted : forall l,
            StronglySorted Z.lt (map fst (stable_sort key_ltb (tally l [])))).
  { intros l. apply sorted_distinct_keys; [apply key_sorted |].
    apply (Permutation_NoDup
             (Permutation_map fst (stable_sort_perm key_ltb (tally l [])))).
    apply (tally_spec l [] (NoDup_nil Z)). }
  unfold get_requests_by_status.
  change (@nil (value * Z)) with (embed []).
  rewrite (count_statuses_embed _ zs [] Hzs), (count_statuses_embed _ zs' [] Hzs').
  simpl. rewrite !py_sorted_embed. do 2 f_equal.
  apply int_dict_ext; [apply Hsorted | apply Hsorted |].
  intros z. rewrite !sorted_tally_lookup, Hcount. reflexivity.
Qed.

Lemma get_requests_by_status_order_independent_witness :
  get_requests_by_status
    {| har_file_path := "session.har";
       entries := [request_404_20; request_200_150; request_200_50] |}
  = get_requests_by_status three_requests.
Proof.
  apply (get_requests_by_status_order_independent three_requests); [reflexivity |].
  simpl.
  apply (perm_trans (l' := [request_200_150; request_200_50; request_404_20])).
  - apply perm_swap.
  - apply perm_trans with (l' := [request_200_150; request_404_20; request_200_50]).
    + apply perm_skip. apply perm_swap.
    + apply perm_swap.
Defined.
